(** * J2Lab: the Jira issue -> GitLab epic conversion

    A shallow embedding of [internal/j2g/epic.go]
    ([ConvertJiraIssueToGitLabEpic]) and of [internal/config/jira.go]
    ([GetJiraClient]).

    The converter is a sequential driver around three bounded fan-out
    phases that share one [errgroup.Group]: attachment relocation, comment
    posting and the posting of the remaining attachments.  Every goroutine
    is embedded as a small program of atomic instructions, and a phase is
    run under an arbitrary schedule, so statements about a phase hold for
    every interleaving the group admits.  Remote calls append to a trace
    and take their answers from an environment which may inspect the trace
    at the time of the call. *)

From Stdlib Require Import ZArith String Ascii List Lia Permutation.
From stdpp Require Import base option list gmap strings fin_maps pretty.

Open Scope string_scope.
Open Scope Z_scope.

(** ** Errors ([github.com/pkg/errors]) *)

Inductive error : Type :=
| ErrNew (msg : string)
| ErrWrap (cause : error) (msg : string).

(** A Go [error] value is an interface: [None] is [nil]. *)
Abbreviation goerror := (option error).

(** [errors.Wrap(err, msg)]: annotates [err] with [msg]; a nil [err] is
    returned as nil. *)
Definition Wrap (err : goerror) (msg : string) : goerror :=
  match err with
  | None => None
  | Some e => Some (ErrWrap e msg)
  end.

(** [err.Error()] *)
Fixpoint Error (e : error) : string :=
  match e with
  | ErrNew msg => msg
  | ErrWrap cause msg => msg ++ ": " ++ Error cause
  end.

(** A Go pair [(v, err)] whose value is meaningful only when [err] is nil. *)
Abbreviation result A := (sum A error).

(** ** The pattern [!\[(.+)\]\((.+)\)]

    Go's [regexp] gives the leftmost match, and among the matches that
    start there the one a backtracking matcher finds first: both groups are
    greedy.  [.] matches anything except a line feed.  All delimiters of
    the pattern are ASCII, so matching bytes and matching runes select the
    same groups. *)
Module Regexp.

Definition is_newline (c : ascii) : bool := Ascii.eqb c "010"%char.

(** [.+] followed by the rest of the pattern [k]: one character, then as
    many more as [k] still allows. *)
Fixpoint dot_plus {A : Type} (k : string -> option A) (s : string)
  : option (string * A) :=
  match s with
  | EmptyString => None
  | String c s' =>
      if is_newline c then None
      else match dot_plus k s' with
           | Some (g, a) => Some (String c g, a)
           | None =>
               match k s' with
               | Some a => Some (String c EmptyString, a)
               | None => None
               end
           end
  end.

(** A literal prefix. *)
Fixpoint lit (p s : string) : option string :=
  match p, s with
  | EmptyString, _ => Some s
  | String a p', String b s' => if Ascii.eqb a b then lit p' s' else None
  | String _ _, EmptyString => None
  end.

(** The pattern anchored at the start of [s]: the two groups. *)
Definition match_here (s : string) : option (string * string) :=
  match lit "![" s with
  | None => None
  | Some s1 =>
      match dot_plus (fun s2 =>
               match lit "](" s2 with
               | None => None
               | Some s3 =>
                   match dot_plus (fun s4 => lit ")" s4) s3 with
                   | Some (url, _) => Some url
                   | None => None
                   end
               end) s1 with
      | Some (alt, url) => Some (alt, url)
      | None => None
      end
  end.

(** [FindStringSubmatch]: the whole match and the two groups of the
    leftmost match, or the nil slice. *)
Fixpoint FindStringSubmatch (s : string) : list string :=
  match match_here s with
  | Some (alt, url) => [ "![" ++ alt ++ "](" ++ url ++ ")"; alt; url ]
  | None =>
      match s with
      | EmptyString => []
      | String _ s' => FindStringSubmatch s'
      end
  end.

End Regexp.

(** ** Data *)

(** [time.Time] (also behind [jira.Time], [jira.Date] and
    [gitlab.ISOTime]): an instant, counted from the zero value. *)
Definition Time : Type := Z.
Definition zero_time : Time := 0.

(** A Go [interface{}] holding a decoded JSON value. *)
#[warnings="-register-all"]
Inductive any : Type :=
| ANil
| ABool (b : bool)
| ANumber (n : Z)
| AString (s : string)
| AArray (l : list any)
| AObject (l : list (string * any)).

(** The type assertion [v.(string)] on the result of a map lookup: a
    missing key gives the nil interface, which is no string. *)
Definition assert_string (v : option any) : string * bool :=
  match v with
  | Some (AString s) => (s, true)
  | _ => ("", false)
  end.

Module jira.
Record Attachment : Type := {
  ID : string;
  Filename : string;
  Content : string
}.
Record Comment : Type := {
  CommentID : string;
  Body : string
}.
(** What a [*jira.Resolution] points to. *)
Record ResolutionValue : Type := { ResolutionName : string }.
(** [jira.Issue] with the fields of [Fields] the converter reads; the
    pointers on the way to them are taken to be set. *)
Record Issue : Type := {
  Key : string;
  Summary : string;
  Description : string;
  Created : Time;
  Duedate : Time;
  Resolution : option ResolutionValue;
  Attachments : list Attachment;
  Comments : list Comment;
  Unknowns : gmap string any
}.
End jira.

Module gitlab.
Record Epic : Type := {
  ID : Z;
  IID : Z;
  Title : string;
  State : string
}.
End gitlab.

Module gitlabx.
Record CreateEpicOptions : Type := {
  Title : option string;
  Color : option string;
  CreatedAt : option Time;
  Labels : option (list string);
  DueDateFixed : option Time;
  Description : option string;
  StartDateIsFixed : option bool;
  StartDateFixed : option Time;
  DueDateIsFixed : option bool
}.
End gitlabx.

(** The relocated attachment of package [j2g]. *)
Record Attachment : Type := {
  Markdown : string;
  Name : string;
  CreatedAt : Time
}.

(** Modelled from the spec: the [UserMap] type of package [j2g] is declared
    outside the two files; a mapping from source user identity to target
    user identity, only handed on to the formatters. *)
Definition UserMap : Type := gmap string string.

Module config.
(** The part of [config.Config] the converter reads:
    [cfg.GitLab.Host], [cfg.Project.GitLab.Epic],
    [cfg.Project.GitLab.Issue] and
    [cfg.Project.Jira.CustomField.EpicStartDate]. *)
Record Config : Type := {
  GitLab_Host : string;
  Project_GitLab_Epic : string;
  Project_GitLab_Issue : string;
  Project_Jira_CustomField_EpicStartDate : string
}.

(** [config.Jira]: what [GetJiraClient] reads of it. *)
Record Jira : Type := {
  Host : string;
  Token : string
}.

Section GetJiraClient.
(** What a [*jira.Client] and a [*jira.User] are made of plays no role. *)
Context {Client User : Type}.
(** [jira.NewClient(host, tp.Client())] for the bearer token of [tp]. *)
Context (NewClient : string -> string -> result Client).
(** [client.User.GetSelf(ctx)]: a request, answered in view of the
    requests made before. *)
Context (GetSelf : list Client -> Client -> result User).

(** The package: its variable [jiraClient] ([None] is nil) and the
    requests it has sent. *)
Record Package : Type := {
  jiraClient : option Client;
  requests : list Client
}.

(** A call returns a client, or [log.Fatalf] ends the process. *)
Inductive Exit : Type :=
| Returned (client : Client)
| Fatal (msg : string).

Definition GetJiraClient (jiraConfig : Jira) (p : Package) : Exit * Package :=
  match jiraClient p with
  | Some cached => (Returned cached, p)
  | None =>
      match NewClient (Host jiraConfig) (Token jiraConfig) with
      | inr err => (Fatal ("Error creating Jira client: " ++ Error err), p)
      | inl client =>
          let answer := GetSelf (requests p) client in
          let p' := {| jiraClient := jiraClient p;
                       requests := requests p ++ [client] |} in
          match answer with
          | inr _ => (Fatal "Error getting current user for Jira", p')
          | inl currnetUser =>
              (Returned client,
               {| jiraClient := Some client; requests := requests p' |})
          end
      end
  end.

(** Calls one after the other, while the process lives. *)
Fixpoint calls (configs : list Jira) (p : Package) : list Exit * Package :=
  match configs with
  | [] => ([], p)
  | jiraConfig :: rest =>
      match GetJiraClient jiraConfig p with
      | (Returned client, p') =>
          let '(exits, p'') := calls rest p' in
          (Returned client :: exits, p'')
      | (Fatal msg, p') => ([Fatal msg], p')
      end
  end.

End GetJiraClient.

Arguments Returned {Client} client.
Arguments Fatal {Client} msg.
Arguments jiraClient {Client} p.
Arguments requests {Client} p.

End config.

(** ** Remote calls and their trace *)

(** One entry per remote call, in the order the calls are made, with the
    error the call answered.  The label conversion and the upload, which
    the two files leave to other functions, count as one call each. *)
Inductive Event : Type :=
| EvConvertLabels (gid : string) (key : string) (err : goerror)
| EvUpload (pid : string) (id : string) (err : goerror)
| EvCreateEpic (gid : string) (opt : gitlabx.CreateEpicOptions) (err : goerror)
| EvCreateEpicNote (gid : string) (epicID : Z) (body : string) (err : goerror)
| EvUpdateEpic (gid : string) (epicIID : Z) (stateEvent : string) (err : goerror).

Definition is_create_epic (e : Event) : bool :=
  match e with EvCreateEpic _ _ _ => true | _ => false end.
Definition is_note (e : Event) : bool :=
  match e with EvCreateEpicNote _ _ _ _ => true | _ => false end.
Definition is_update (e : Event) : bool :=
  match e with EvUpdateEpic _ _ _ _ => true | _ => false end.

Definition err_of {A : Type} (r : result A) : goerror :=
  match r with inl _ => None | inr e => Some e end.

(** Everything the converter calls and the two files do not define: the
    other functions of the repository, the two client libraries, the
    random colour, [time.Parse], and the order in which [range] walks a
    map.  A remote call may answer differently depending on the calls made
    before it.  Of [formatNote] the second result, which the converter
    discards, is left out. *)
Record Env : Type := {
  GetConfig : result config.Config;
  convertJiraToGitLabLabels :
    list Event -> string -> jira.Issue -> bool -> result (list string);
  RandomColor : option string;
  convertJiraAttachmentToMarkdown :
    list Event -> string -> jira.Attachment -> result Attachment;
  formatDescription :
    jira.Issue -> UserMap -> gmap string Attachment -> bool -> result string;
  formatNote :
    string -> jira.Comment -> UserMap -> gmap string Attachment -> bool ->
    result string;
  time_Parse : string -> string -> result Time;
  CreateEpic :
    list Event -> string -> gitlabx.CreateEpicOptions -> result gitlab.Epic;
  CreateEpicNote : list Event -> string -> Z -> string -> goerror;
  UpdateEpic : list Event -> string -> Z -> string -> goerror;
  range_attachments : gmap string Attachment -> list (string * Attachment);
  (* [range] visits every entry of the map once, in no particular order *)
  range_permutation : forall m, range_attachments m ≡ₚ map_to_list m
}.

(** ** Shared state of one conversion call *)

Record State : Type := {
  trace : list Event;
  attachments : gmap string Attachment;
  usedAttachment : gmap string bool;
  err : goerror;        (* the function-level variable [err] *)
  g_err : goerror       (* the error kept by the errgroup *)
}.

Definition init_state (tr : list Event) : State :=
  {| trace := tr; attachments := ∅; usedAttachment := ∅;
     err := None; g_err := None |}.

Definition log (e : Event) (s : State) : State :=
  {| trace := trace s ++ [e]; attachments := attachments s;
     usedAttachment := usedAttachment s; err := err s; g_err := g_err s |}.

Definition store (id : string) (a : Attachment) (s : State) : State :=
  {| trace := trace s; attachments := <[id := a]> (attachments s);
     usedAttachment := usedAttachment s; err := err s; g_err := g_err s |}.

Definition assign_err (e : goerror) (s : State) : State :=
  {| trace := trace s; attachments := attachments s;
     usedAttachment := usedAttachment s; err := e; g_err := g_err s |}.

(** [errOnce.Do]: the group keeps the first non-nil error only. *)
Definition record_err (r : goerror) (s : State) : State :=
  {| trace := trace s; attachments := attachments s;
     usedAttachment := usedAttachment s; err := err s;
     g_err := match g_err s with Some e => Some e | None => r end |}.

(** ** Goroutines *)

(** The body of a function handed to [g.Go], as the sequence of its atomic
    accesses to what it shares with the other goroutines: the remote
    system, the map [attachments] (written under the mutex) and the
    variable [err] of the enclosing function. *)
Inductive Task : Type :=
| Ret (r : goerror)
| CallUpload (pid : string) (a : jira.Attachment)
    (k : result Attachment -> Task)
| StoreAttachment (id : string) (a : Attachment) (k : Task)
| CallCreateEpicNote (gid : string) (epicID : Z) (body : string)
    (k : goerror -> Task)
| AssignErr (e : goerror) (k : Task)
| ReadErr (k : goerror -> Task).

Definition step_task (E : Env) (t : Task) (s : State) : State * Task :=
  match t with
  | Ret r => (s, Ret r)
  | CallUpload pid a k =>
      let r := convertJiraAttachmentToMarkdown E (trace s) pid a in
      (log (EvUpload pid (jira.ID a) (err_of r)) s, k r)
  | StoreAttachment id a k => (store id a s, k)
  | CallCreateEpicNote gid eid body k =>
      let r := CreateEpicNote E (trace s) gid eid body in
      (log (EvCreateEpicNote gid eid body r) s, k r)
  | AssignErr e k => (assign_err e s, k)
  | ReadErr k => (s, k (err s))
  end.

(** A goroutine alone, from start to return. *)
Fixpoint run_task (E : Env) (t : Task) (s : State) : State * goerror :=
  match t with
  | Ret r => (s, r)
  | CallUpload pid a k =>
      let r := convertJiraAttachmentToMarkdown E (trace s) pid a in
      run_task E (k r) (log (EvUpload pid (jira.ID a) (err_of r)) s)
  | StoreAttachment id a k => run_task E k (store id a s)
  | CallCreateEpicNote gid eid body k =>
      let r := CreateEpicNote E (trace s) gid eid body in
      run_task E (k r) (log (EvCreateEpicNote gid eid body r) s)
  | AssignErr e k => run_task E k (assign_err e s)
  | ReadErr k => run_task E (k (err s)) s
  end.

(** ** The errgroup *)

Inductive Thread : Type :=
| Running (t : Task)
| Finished (r : goerror).

Definition running (th : Thread) : bool :=
  match th with Running _ => true | Finished _ => false end.

Definition all_finished (pool : list Thread) : bool :=
  forallb (fun th => negb (running th)) pool.

(** [g.SetLimit(5)] *)
Definition limit : nat := 5.

(** [g.Go] is called for the functions in order and blocks while [limit]
    goroutines are active: the [i]-th function runs only once fewer than
    [limit] of the functions before it are still running. *)
Definition admitted (pool : list Thread) (i : nat) : bool :=
  bool_decide (length (filter (fun th => running th = true) (take i pool)) < limit)%nat.

(** One step of goroutine [th]; returning is a step of its own, in which
    the group records the error. *)
Definition step_thread (E : Env) (th : Thread) (s : State) : State * Thread :=
  match th with
  | Finished r => (s, Finished r)
  | Running (Ret r) => (record_err r s, Finished r)
  | Running t => let '(s', t') := step_task E t s in (s', Running t')
  end.

Definition sched_step (E : Env) (ps : list Thread * State) (i : nat)
  : list Thread * State :=
  let '(pool, s) := ps in
  match pool !! i with
  | Some th =>
      if admitted pool i
      then let '(s', th') := step_thread E th s in (<[i := th']> pool, s')
      else (pool, s)
  | None => (pool, s)
  end.

(** The goroutines of one phase under the schedule [sched], which names
    the goroutine to move at each instant. *)
Definition run_group (E : Env) (sched : list nat) (pool : list Thread)
  (s : State) : list Thread * State :=
  foldl (sched_step E) (pool, s) sched.

(** ** The converter *)

Inductive Outcome : Type :=
| Blocked                               (* [g.Wait] never returns *)
| Return (r : result gitlab.Epic).

Inductive Flow (A : Type) : Type :=
| Next (a : A)
| Exit (o : Outcome).
Arguments Next {A} a.
Arguments Exit {A} o.

(** The driver: state passing with early return. *)
Definition M (A : Type) : Type := State -> Flow A * State.

#[global] Instance M_ret : MRet M := fun A a s => (Next a, s).
#[global] Instance M_bind : MBind M := fun A B f m s =>
  match m s with
  | (Next a, s') => f a s'
  | (Exit o, s') => (Exit o, s')
  end.

(** [return nil, errors.Wrap(err, msg)] when [r] carries an error. *)
Definition try {A : Type} (r : result A) (msg : string) : M A := fun s =>
  match r with
  | inl a => (Next a, s)
  | inr e => (Exit (Return (inr (ErrWrap e msg))), s)
  end.

Definition get_attachments : M (gmap string Attachment) :=
  fun s => (Next (attachments s), s).
Definition get_usedAttachment : M (gmap string bool) :=
  fun s => (Next (usedAttachment s), s).
Definition set_err (e : goerror) : M unit := fun s => (Next tt, assign_err e s).

(** The loop of [g.Go] calls of one phase followed by the goroutines'
    execution up to the barrier. *)
Definition go_all (E : Env) (sched : list nat) (tasks : list Task) : M unit :=
  fun s =>
    let '(pool, s') := run_group E sched (Running <$> tasks) s in
    if all_finished pool then (Next tt, s') else (Exit Blocked, s').

(** [if err := g.Wait(); err != nil { return nil, errors.Wrap(err, msg) }] *)
Definition wait (msg : string) : M unit := fun s =>
  match g_err s with
  | Some e => (Exit (Return (inr (ErrWrap e msg))), s)
  | None => (Next tt, s)
  end.

(** The goroutine of one Jira attachment (lines 54-83). *)
Definition relocate_task (cfg : config.Config) (pid : string)
  (jiraAttachment : jira.Attachment) : Task :=
  CallUpload pid jiraAttachment (fun r =>
    match r with
    | inr e =>
        Ret (Wrap (Some e) "Error converting Jira attachment to GitLab attachment")
    | inl attachment =>
        let matches := Regexp.FindStringSubmatch (Markdown attachment) in
        if decide (length matches ≠ 3%nat)
        then Ret (Wrap None "Error parsing markdown")
        else
          let alt := nth 1 matches "" in
          let url := nth 2 matches "" in
          let absUrl :=
            config.GitLab_Host cfg ++ "/" ++
            config.Project_GitLab_Issue cfg ++ "/" ++ url in
          StoreAttachment (jira.ID jiraAttachment)
            {| Markdown := "![" ++ alt ++ "](" ++ absUrl ++ ")";
               Name := Name attachment;
               CreatedAt := CreatedAt attachment |}
            (Ret None)
    end).

(** The goroutine of one Jira comment (lines 128-145). *)
Definition comment_task (E : Env) (gid : string) (gitlabEpic : gitlab.Epic)
  (jiraIssue : jira.Issue) (userMap : UserMap)
  (attachments : gmap string Attachment) (jiraComment : jira.Comment) : Task :=
  match formatNote E (jira.Key jiraIssue) jiraComment userMap attachments true with
  | inr e => Ret (Wrap (Some e) "Error formatting comment")
  | inl body =>
      CallCreateEpicNote gid (gitlab.ID gitlabEpic) body (fun r =>
        Ret (Wrap r "Error creating note"))
  end.

(** The goroutine of one remaining attachment (lines 158-168); it assigns
    the enclosing function's [err]. *)
Definition orphan_task (gid : string) (gitlabEpic : gitlab.Epic)
  (markdown : Attachment) : Task :=
  CallCreateEpicNote gid (gitlab.ID gitlabEpic) (Markdown markdown) (fun r =>
    AssignErr r (ReadErr (fun e => Ret (Wrap e "Error creating note")))).

(** [if used, ok := usedAttachment[id]; ok || used { continue }] *)
Definition skipped (usedAttachment : gmap string bool) (id : string) : bool :=
  match usedAttachment !! id with
  | Some used => true || used
  | None => false || false
  end.

(** The attachments the last loop starts a goroutine for (lines 153-156),
    in the order [range] yields them. *)
Definition remaining (E : Env) (attachments : gmap string Attachment)
  (usedAttachment : gmap string bool) : list Attachment :=
  snd <$> filter (fun p => skipped usedAttachment p.1 = false)
            (range_attachments E attachments).

(** The creation options before the description and the dates are filled
    in (lines 37-43). *)
Definition initial_options (E : Env) (jiraIssue : jira.Issue)
  (labels : list string) : gitlabx.CreateEpicOptions :=
  {| gitlabx.Title := Some (jira.Summary jiraIssue);
     gitlabx.Color := RandomColor E;
     gitlabx.CreatedAt := Some (jira.Created jiraIssue);
     gitlabx.Labels := Some labels;
     gitlabx.DueDateFixed := Some (jira.Duedate jiraIssue);
     gitlabx.Description := None;
     gitlabx.StartDateIsFixed := None;
     gitlabx.StartDateFixed := None;
     gitlabx.DueDateIsFixed := None |}.

Definition with_description (d : string) (o : gitlabx.CreateEpicOptions)
  : gitlabx.CreateEpicOptions :=
  {| gitlabx.Title := gitlabx.Title o;
     gitlabx.Color := gitlabx.Color o;
     gitlabx.CreatedAt := gitlabx.CreatedAt o;
     gitlabx.Labels := gitlabx.Labels o;
     gitlabx.DueDateFixed := gitlabx.DueDateFixed o;
     gitlabx.Description := Some d;
     gitlabx.StartDateIsFixed := gitlabx.StartDateIsFixed o;
     gitlabx.StartDateFixed := gitlabx.StartDateFixed o;
     gitlabx.DueDateIsFixed := gitlabx.DueDateIsFixed o |}.

Definition with_start_date (t : Time) (o : gitlabx.CreateEpicOptions)
  : gitlabx.CreateEpicOptions :=
  {| gitlabx.Title := gitlabx.Title o;
     gitlabx.Color := gitlabx.Color o;
     gitlabx.CreatedAt := gitlabx.CreatedAt o;
     gitlabx.Labels := gitlabx.Labels o;
     gitlabx.DueDateFixed := gitlabx.DueDateFixed o;
     gitlabx.Description := gitlabx.Description o;
     gitlabx.StartDateIsFixed := Some true;
     gitlabx.StartDateFixed := Some t;
     gitlabx.DueDateIsFixed := gitlabx.DueDateIsFixed o |}.

Definition with_due_date (t : Time) (o : gitlabx.CreateEpicOptions)
  : gitlabx.CreateEpicOptions :=
  {| gitlabx.Title := gitlabx.Title o;
     gitlabx.Color := gitlabx.Color o;
     gitlabx.CreatedAt := gitlabx.CreatedAt o;
     gitlabx.Labels := gitlabx.Labels o;
     gitlabx.DueDateFixed := Some t;
     gitlabx.Description := gitlabx.Description o;
     gitlabx.StartDateIsFixed := gitlabx.StartDateIsFixed o;
     gitlabx.StartDateFixed := gitlabx.StartDateFixed o;
     gitlabx.DueDateIsFixed := Some true |}.

(** Lines 98-111: the optional fixed start date. *)
Definition start_date (E : Env) (cfg : config.Config) (jiraIssue : jira.Issue)
  (o : gitlabx.CreateEpicOptions) : M gitlabx.CreateEpicOptions :=
  if decide (config.Project_Jira_CustomField_EpicStartDate cfg ≠ "")
  then
    let '(startDateStr, ok) :=
      assert_string
        (jira.Unknowns jiraIssue
           !! config.Project_Jira_CustomField_EpicStartDate cfg) in
    if ok
    then
      startDate ← try (time_Parse E "2006-01-02" startDateStr) "Error parsing time";
      mret (with_start_date startDate o)
    else mret o                   (* only a warning is logged *)
  else mret o.

(** Lines 114-117. *)
Definition due_date (jiraIssue : jira.Issue) (o : gitlabx.CreateEpicOptions)
  : gitlabx.CreateEpicOptions :=
  if decide (jira.Duedate jiraIssue ≠ zero_time)
  then with_due_date (jira.Duedate jiraIssue) o
  else o.

(** Calls through the clients: the answer depends on the trace so far, and
    the call joins the trace. *)
Definition call_labels (E : Env) (gid : string) (jiraIssue : jira.Issue)
  : M (result (list string)) := fun s =>
  let r := convertJiraToGitLabLabels E (trace s) gid jiraIssue true in
  (Next r, log (EvConvertLabels gid (jira.Key jiraIssue) (err_of r)) s).

Definition call_CreateEpic (E : Env) (gid : string)
  (o : gitlabx.CreateEpicOptions) : M (result gitlab.Epic) := fun s =>
  let r := CreateEpic E (trace s) gid o in
  (Next r, log (EvCreateEpic gid o (err_of r)) s).

Definition call_UpdateEpic (E : Env) (gid : string) (iid : Z)
  (stateEvent : string) : M goerror := fun s =>
  let r := UpdateEpic E (trace s) gid iid stateEvent in
  (Next r, log (EvUpdateEpic gid iid stateEvent r) s).

(** [ConvertJiraIssueToGitLabEpic], with the schedules of its three phases. *)
Definition convert (E : Env) (sched1 sched2 sched3 : list nat)
  (jiraIssue : jira.Issue) (userMap : UserMap) : M gitlab.Epic :=
  cfg ← try (GetConfig E) "Error getting config";
  let gid := config.Project_GitLab_Epic cfg in
  r ← call_labels E gid jiraIssue;
  labels ← try r "Error converting Jira labels to GitLab labels";
  let gitlabCreateEpicOptions := initial_options E jiraIssue labels in
  (* Attachment for Description and Comments *)
  let pid := config.Project_GitLab_Issue cfg in
  go_all E sched1 (relocate_task cfg pid <$> jira.Attachments jiraIssue);;
  wait "Error converting Jira attachment to GitLab attachment";;
  (* Description -> Description *)
  attachments ← get_attachments;
  description ← try (formatDescription E jiraIssue userMap attachments true)
                    "Error formatting description";
  let gitlabCreateEpicOptions :=
    with_description description gitlabCreateEpicOptions in
  (* StartDate *)
  gitlabCreateEpicOptions ← start_date E cfg jiraIssue gitlabCreateEpicOptions;
  (* DueDate *)
  let gitlabCreateEpicOptions := due_date jiraIssue gitlabCreateEpicOptions in
  r ← call_CreateEpic E gid gitlabCreateEpicOptions;
  set_err (err_of r);;   (* [err] is the variable the last phase shares *)
  gitlabEpic ← try r "Error creating GitLab epic";
  (* Comment -> Comment *)
  go_all E sched2
    (comment_task E gid gitlabEpic jiraIssue userMap attachments
       <$> jira.Comments jiraIssue);;
  wait ("Error creating GitLab comment with gid " ++ gid ++ ", epic ID "
        ++ pretty (gitlab.ID gitlabEpic));;
  (* Remain Attachment -> Comment *)
  attachments ← get_attachments;
  usedAttachment ← get_usedAttachment;
  go_all E sched3
    (orphan_task gid gitlabEpic <$> remaining E attachments usedAttachment);;
  wait "Error creating GitLab issue";;
  (* Resolution -> Close issue *)
  match jira.Resolution jiraIssue with
  | Some _ => _ ← call_UpdateEpic E gid (gitlab.IID gitlabEpic) "close"; mret tt
  | None => mret tt
  end;;
  mret gitlabEpic.

(** [ConvertJiraIssueToGitLabEpic] called when the remote systems have seen
    the calls [tr0]: what it returns, and the state it leaves. *)
Definition ConvertJiraIssueToGitLabEpic (E : Env)
  (sched1 sched2 sched3 : list nat) (jiraIssue : jira.Issue)
  (userMap : UserMap) (tr0 : list Event) : Outcome * State :=
  match convert E sched1 sched2 sched3 jiraIssue userMap (init_state tr0) with
  | (Next gitlabEpic, s) => (Return (inl gitlabEpic), s)
  | (Exit o, s) => (o, s)
  end.

(** * Vocabulary of the statements *)

Open Scope list_scope.

(** The events a call adds to the trace it started from. *)
Definition new_events (tr0 : list Event) (s : State) : list Event :=
  drop (length tr0) (trace s).

(** A goroutine that returned an error has handed it to the group, which
    keeps the first one it is handed. *)
Definition errors_recorded (pool : list Thread) (s : State) : Prop :=
  ∀ i e, pool !! i = Some (Finished (Some e)) → is_Some (g_err s).

(** The calls a goroutine can make all satisfy [P]. *)
Fixpoint emits (P : Event -> Prop) (t : Task) : Prop :=
  match t with
  | Ret _ => True
  | CallUpload pid a k =>
      (∀ e, P (EvUpload pid (jira.ID a) e)) ∧ ∀ r, emits P (k r)
  | StoreAttachment _ _ k => emits P k
  | CallCreateEpicNote gid eid body k =>
      (∀ e, P (EvCreateEpicNote gid eid body e)) ∧ ∀ r, emits P (k r)
  | AssignErr _ k => emits P k
  | ReadErr k => ∀ e, emits P (k e)
  end.

(** The goroutine never writes the map [attachments]. *)
Fixpoint no_store (t : Task) : Prop :=
  match t with
  | Ret _ => True
  | CallUpload _ _ k => ∀ r, no_store (k r)
  | StoreAttachment _ _ _ => False
  | CallCreateEpicNote _ _ _ k => ∀ r, no_store (k r)
  | AssignErr _ k => no_store k
  | ReadErr k => ∀ e, no_store (k e)
  end.

Definition thread_ok (Q : Task -> Prop) (th : Thread) : Prop :=
  match th with Running t => Q t | Finished _ => True end.

Definition body_of (e : Event) : string :=
  match e with EvCreateEpicNote _ _ body _ => body | _ => "" end.

(** The note a goroutine has yet to post. *)
Definition pending_body (th : Thread) : option string :=
  match th with
  | Running (CallCreateEpicNote _ _ body _) => Some body
  | _ => None
  end.

Definition orphan_ret : goerror -> Task :=
  fun e => Ret (Wrap e "Error creating note").
Definition orphan_k : goerror -> Task :=
  fun r => AssignErr r (ReadErr orphan_ret).

(** The states a goroutine of the last phase goes through. *)
Inductive orphan_thread : Thread -> Prop :=
| ot_call gid eid body :
    orphan_thread (Running (CallCreateEpicNote gid eid body orphan_k))
| ot_assign r : orphan_thread (Running (AssignErr r (ReadErr orphan_ret)))
| ot_read : orphan_thread (Running (ReadErr orphan_ret))
| ot_ret r : orphan_thread (Running (Ret r))
| ot_finished r : orphan_thread (Finished r).

(** Before the epic exists the call converts labels and uploads. *)
Definition is_prepare (e : Event) : bool :=
  match e with
  | EvConvertLabels _ _ _ | EvUpload _ _ _ => true
  | _ => false
  end.

(** A note on the epic [gitlabEpic] of group [gid]. *)
Definition note_on (gid : string) (gitlabEpic : gitlab.Epic) (e : Event) : Prop :=
  ∃ body r, e = EvCreateEpicNote gid (gitlab.ID gitlabEpic) body r.

(** The state update of lines 176-181, made when the trace is [tr]. *)
Definition close_events (E : Env) (gid : string) (jiraIssue : jira.Issue)
  (gitlabEpic : gitlab.Epic) (tr : list Event) : list Event :=
  match jira.Resolution jiraIssue with
  | Some _ =>
      [EvUpdateEpic gid (gitlab.IID gitlabEpic) "close"
         (UpdateEpic E tr gid (gitlab.IID gitlabEpic) "close")]
  | None => []
  end.

Definition not_done (o : Outcome) : Prop := ∀ epic, o ≠ Return (inl epic).

(** How far a call got, read off its outcome and the trace it leaves. *)
Inductive run_shape (E : Env) (jiraIssue : jira.Issue) (tr0 : list Event)
  : Outcome -> State -> Prop :=
| shape_preparing o s d :
    not_done o →
    trace s = tr0 ++ d →
    Forall (fun e => is_prepare e = true) d →
    run_shape E jiraIssue tr0 o s
| shape_not_created s d gid opt e :
    trace s = tr0 ++ d ++ [EvCreateEpic gid opt (Some e)] →
    Forall (fun e => is_prepare e = true) d →
    run_shape E jiraIssue tr0
      (Return (inr (ErrWrap e "Error creating GitLab epic"))) s
| shape_posting o s cfg d opt gitlabEpic notes :
    not_done o →
    GetConfig E = inl cfg →
    trace s = tr0 ++ d ++
              EvCreateEpic (config.Project_GitLab_Epic cfg) opt None :: notes →
    Forall (fun e => is_prepare e = true) d →
    Forall (note_on (config.Project_GitLab_Epic cfg) gitlabEpic) notes →
    run_shape E jiraIssue tr0 o s
| shape_done s cfg d opt gitlabEpic comments orphans :
    let gid := config.Project_GitLab_Epic cfg in
    let before_close :=
      tr0 ++ d ++ EvCreateEpic gid opt None :: comments ++ orphans in
    GetConfig E = inl cfg →
    CreateEpic E (tr0 ++ d) gid opt = inl gitlabEpic →
    trace s = before_close ++ close_events E gid jiraIssue gitlabEpic before_close →
    Forall (fun e => is_prepare e = true) d →
    Forall (note_on gid gitlabEpic) comments →
    Forall (note_on gid gitlabEpic) orphans →
    body_of <$> orphans
      ≡ₚ Markdown <$> (snd <$> range_attachments E (attachments s)) →
    run_shape E jiraIssue tr0 (Return (inl gitlabEpic)) s.

(** The state in which the first phase starts: the configuration was read
    and the labels were converted. *)
Definition relocation_start (gid : string) (jiraIssue : jira.Issue)
  (tr0 : list Event) : State :=
  log (EvConvertLabels gid (jira.Key jiraIssue) None) (init_state tr0).

(** The goroutines of the first phase and the shared state when the
    schedule [sched1] is used up; there are none when the call returned
    before the phase. *)
Definition relocation_phase (E : Env) (sched1 : list nat)
  (jiraIssue : jira.Issue) (tr0 : list Event) : list Thread * State :=
  match GetConfig E with
  | inr _ => ([], init_state tr0)
  | inl cfg =>
      let gid := config.Project_GitLab_Epic cfg in
      match convertJiraToGitLabLabels E tr0 gid jiraIssue true with
      | inr e =>
          ([], log (EvConvertLabels gid (jira.Key jiraIssue) (Some e))
                 (init_state tr0))
      | inl _ =>
          run_group E sched1
            (Running <$> (relocate_task cfg (config.Project_GitLab_Issue cfg)
                            <$> jira.Attachments jiraIssue))
            (relocation_start gid jiraIssue tr0)
      end
  end.

(** The target system's side of the state update: the state it reports for
    epic [iid] of group [gid] after the calls of [tr].  An epic is open
    until a state event it accepted closes it. *)
Definition observed_state (gid : string) (iid : Z) (tr : list Event) : string :=
  foldl (fun st e =>
           match e with
           | EvUpdateEpic g i ev None =>
               if decide (g = gid ∧ i = iid)
               then if decide (ev = "close") then "closed"
                    else if decide (ev = "reopen") then "opened" else st
               else st
           | _ => st
           end) "opened" tr.

(** The environment in which [config.GetConfig] answers [cfg]. *)
Definition with_config (cfg : config.Config) (E : Env) : Env :=
  {| GetConfig := inl cfg;
     convertJiraToGitLabLabels := convertJiraToGitLabLabels E;
     RandomColor := RandomColor E;
     convertJiraAttachmentToMarkdown := convertJiraAttachmentToMarkdown E;
     formatDescription := formatDescription E;
     formatNote := formatNote E;
     time_Parse := time_Parse E;
     CreateEpic := CreateEpic E;
     CreateEpicNote := CreateEpicNote E;
     UpdateEpic := UpdateEpic E;
     range_attachments := range_attachments E;
     range_permutation := range_permutation E |}.

(** The configuration with no start-date field named. *)
Definition without_start_date (cfg : config.Config) : config.Config :=
  {| config.GitLab_Host := config.GitLab_Host cfg;
     config.Project_GitLab_Epic := config.Project_GitLab_Epic cfg;
     config.Project_GitLab_Issue := config.Project_GitLab_Issue cfg;
     config.Project_Jira_CustomField_EpicStartDate := "" |}.

(** The goroutine returns after at most [n] instructions. *)
Fixpoint bounded (n : nat) (t : Task) : Prop :=
  match t, n with
  | Ret _, _ => True
  | _, O => False
  | CallUpload _ _ k, S n' => ∀ r, bounded n' (k r)
  | StoreAttachment _ _ k, S n' => bounded n' k
  | CallCreateEpicNote _ _ _ k, S n' => ∀ r, bounded n' (k r)
  | AssignErr _ k, S n' => bounded n' k
  | ReadErr k, S n' => ∀ e, bounded n' (k e)
  end.

(** One goroutine after the other, each given four instants. *)
Definition sequential (n : nat) : list nat :=
  flat_map (fun i => replicate 4 i) (seq 0 n).

(** Goroutines before [i] have returned, the others return within three
    instructions. *)
Definition served (i : nat) (pool : list Thread) : Prop :=
  ∀ j th, pool !! j = Some th →
          (j < i → running th = false)%nat ∧
          (i ≤ j → thread_ok (bounded 3) th)%nat.

(** The character [c] occurs in [s]. *)
Fixpoint occurs (c : ascii) (s : string) : bool :=
  match s with
  | EmptyString => false
  | String c' s' => Ascii.eqb c' c || occurs c s'
  end.

(** Under the identifier [id] the goroutine stores nothing but [v]. *)
Fixpoint writes_only (E : Env) (id : string) (v : Attachment) (t : Task) : Prop :=
  match t with
  | Ret _ => True
  | CallUpload pid a k =>
      ∀ tr, writes_only E id v (k (convertJiraAttachmentToMarkdown E tr pid a))
  | StoreAttachment id' v' k => (id' = id → v' = v) ∧ writes_only E id v k
  | CallCreateEpicNote _ _ _ k => ∀ r, writes_only E id v (k r)
  | AssignErr _ k => writes_only E id v k
  | ReadErr k => ∀ e, writes_only E id v (k e)
  end.

(** What [relocate_task] stores for the uploaded [attachment] when the
    pattern gives the groups [alt] and [url]. *)
Definition relocated (cfg : config.Config) (attachment : Attachment)
  (alt url : string) : Attachment :=
  {| Markdown := "![" +:+ alt +:+ "](" +:+
                 (config.GitLab_Host cfg +:+ "/" +:+
                  config.Project_GitLab_Issue cfg +:+ "/" +:+ url) +:+ ")";
     Name := Name attachment;
     CreatedAt := CreatedAt attachment |}.

(** The goroutine of the attachment whose upload always answers the same
    on its way: before the store, or past it with the entry in the map. *)
Definition on_its_way (cfg : config.Config) (pid : string)
  (a : jira.Attachment) (v : Attachment) (th : option Thread) (s : State) : Prop :=
  th = Some (Running (relocate_task cfg pid a)) ∨
  th = Some (Running (StoreAttachment (jira.ID a) v (Ret None))) ∨
  ((th = Some (Running (Ret None)) ∨ th = Some (Finished None)) ∧
   attachments s !! jira.ID a = Some v).

(** ** The course of a call *)

(** The state right after a creation call the target system accepted. *)
Definition created_state (gid : string) (opt : gitlabx.CreateEpicOptions)
  (s1 : State) : State :=
  assign_err None (log (EvCreateEpic gid opt None) s1).

(** The goroutines of the second phase and the shared state when the
    schedule [sched2] is used up, the epic having been created with [opt]
    in state [s1]. *)
Definition comments_phase (E : Env) (sched2 : list nat) (cfg : config.Config)
  (jiraIssue : jira.Issue) (userMap : UserMap) (gitlabEpic : gitlab.Epic)
  (opt : gitlabx.CreateEpicOptions) (s1 : State) : list Thread * State :=
  run_group E sched2
    (Running <$> (comment_task E (config.Project_GitLab_Epic cfg) gitlabEpic
                    jiraIssue userMap (attachments s1)
                    <$> jira.Comments jiraIssue))
    (created_state (config.Project_GitLab_Epic cfg) opt s1).

(** The goroutines of the third phase, started in state [s2]. *)
Definition orphans_phase (E : Env) (sched3 : list nat) (cfg : config.Config)
  (gitlabEpic : gitlab.Epic) (s2 : State) : list Thread * State :=
  run_group E sched3
    (Running <$> (orphan_task (config.Project_GitLab_Epic cfg) gitlabEpic
                    <$> remaining E (attachments s2) (usedAttachment s2)))
    s2.

(** Lines 176-181 in state [s3]. *)
Definition closed_state (E : Env) (cfg : config.Config) (jiraIssue : jira.Issue)
  (gitlabEpic : gitlab.Epic) (s3 : State) : State :=
  match jira.Resolution jiraIssue with
  | Some _ =>
      log (EvUpdateEpic (config.Project_GitLab_Epic cfg) (gitlab.IID gitlabEpic)
             "close"
             (UpdateEpic E (trace s3) (config.Project_GitLab_Epic cfg)
                (gitlab.IID gitlabEpic) "close"))
        s3
  | None => s3
  end.

(** The ways through the function: where a call ends, with what, and in
    which state, in terms of its three phases. *)
Inductive run_story (E : Env) (sched1 sched2 sched3 : list nat)
  (jiraIssue : jira.Issue) (userMap : UserMap) (tr0 : list Event)
  : Outcome -> State -> Prop :=
| story_config e :
    GetConfig E = inr e →
    run_story E sched1 sched2 sched3 jiraIssue userMap tr0
      (Return (inr (ErrWrap e "Error getting config"))) (init_state tr0)
| story_labels cfg e :
    GetConfig E = inl cfg →
    convertJiraToGitLabLabels E tr0 (config.Project_GitLab_Epic cfg)
      jiraIssue true = inr e →
    run_story E sched1 sched2 sched3 jiraIssue userMap tr0
      (Return (inr (ErrWrap e "Error converting Jira labels to GitLab labels")))
      (log (EvConvertLabels (config.Project_GitLab_Epic cfg)
              (jira.Key jiraIssue) (Some e)) (init_state tr0))
| story_relocating cfg labels o s :
    let R := relocation_phase E sched1 jiraIssue tr0 in
    GetConfig E = inl cfg →
    convertJiraToGitLabLabels E tr0 (config.Project_GitLab_Epic cfg)
      jiraIssue true = inl labels →
    s = R.2 →
    (all_finished R.1 = false ∧ o = Blocked ∨
     all_finished R.1 = true ∧
     ∃ e, g_err R.2 = Some e ∧
          o = Return (inr (ErrWrap e
                "Error converting Jira attachment to GitLab attachment"))) →
    run_story E sched1 sched2 sched3 jiraIssue userMap tr0 o s
| story_building cfg labels o s :
    let R := relocation_phase E sched1 jiraIssue tr0 in
    GetConfig E = inl cfg →
    convertJiraToGitLabLabels E tr0 (config.Project_GitLab_Epic cfg)
      jiraIssue true = inl labels →
    all_finished R.1 = true →
    g_err R.2 = None →
    s = R.2 →
    ((∃ e, formatDescription E jiraIssue userMap (attachments R.2) true = inr e ∧
           o = Return (inr (ErrWrap e "Error formatting description"))) ∨
     (∃ description e,
         formatDescription E jiraIssue userMap (attachments R.2) true
         = inl description ∧
         start_date E cfg jiraIssue
           (with_description description (initial_options E jiraIssue labels))
           R.2 = (Exit (Return (inr e)), R.2) ∧
         o = Return (inr e))) →
    run_story E sched1 sched2 sched3 jiraIssue userMap tr0 o s
| story_creating cfg labels description o' opt o s :
    let R := relocation_phase E sched1 jiraIssue tr0 in
    let gid := config.Project_GitLab_Epic cfg in
    GetConfig E = inl cfg →
    convertJiraToGitLabLabels E tr0 gid jiraIssue true = inl labels →
    all_finished R.1 = true →
    g_err R.2 = None →
    formatDescription E jiraIssue userMap (attachments R.2) true
    = inl description →
    start_date E cfg jiraIssue
      (with_description description (initial_options E jiraIssue labels)) R.2
    = (Next o', R.2) →
    opt = due_date jiraIssue o' →
    ((∃ e, CreateEpic E (trace R.2) gid opt = inr e ∧
           o = Return (inr (ErrWrap e "Error creating GitLab epic")) ∧
           s = assign_err (Some e) (log (EvCreateEpic gid opt (Some e)) R.2)) ∨
     (∃ gitlabEpic,
         CreateEpic E (trace R.2) gid opt = inl gitlabEpic ∧
         let C := comments_phase E sched2 cfg jiraIssue userMap gitlabEpic opt R.2 in
         (all_finished C.1 = false ∧ o = Blocked ∧ s = C.2 ∨
          all_finished C.1 = true ∧
          ((∃ e, g_err C.2 = Some e ∧ s = C.2 ∧
                 o = Return (inr (ErrWrap e
                       ("Error creating GitLab comment with gid " +:+ gid +:+
                        ", epic ID " +:+ pretty (gitlab.ID gitlabEpic))))) ∨
           g_err C.2 = None ∧
           let O := orphans_phase E sched3 cfg gitlabEpic C.2 in
           (all_finished O.1 = false ∧ o = Blocked ∧ s = O.2 ∨
            all_finished O.1 = true ∧
            ((∃ e, g_err O.2 = Some e ∧ s = O.2 ∧
                   o = Return (inr (ErrWrap e "Error creating GitLab issue"))) ∨
             g_err O.2 = None ∧
             o = Return (inl gitlabEpic) ∧
             s = closed_state E cfg jiraIssue gitlabEpic O.2)))))) →
    run_story E sched1 sched2 sched3 jiraIssue userMap tr0 o s.

(** ** The phases, call by call *)

(** The error a call answered. *)
Definition answer (e : Event) : goerror :=
  match e with
  | EvConvertLabels _ _ r | EvUpload _ _ r | EvCreateEpic _ _ r
  | EvCreateEpicNote _ _ _ r | EvUpdateEpic _ _ _ r => r
  end.

Definition upload_id (e : Event) : option string :=
  match e with EvUpload _ id _ => Some id | _ => None end.

(** An upload to the project [pid]. *)
Definition upload_to (pid : string) (e : Event) : Prop :=
  ∃ id r, e = EvUpload pid id r.

(** The upload a goroutine has yet to make. *)
Definition pending_upload (th : Thread) : option string :=
  match th with
  | Running (CallUpload _ a _) => Some (jira.ID a)
  | _ => None
  end.

(** The error a goroutine has returned or is about to return. *)
Definition carried (th : Thread) : goerror :=
  match th with
  | Running (Ret r) | Finished r => r
  | Running _ => None
  end.

(** Where an entry of the map [attachments] comes from: [v] is what
    [relocate_task] makes of an answer of the upload of an attachment of
    [atts] with identifier [id], the pattern having matched. *)
Definition provenance (E : Env) (cfg : config.Config) (pid : string)
  (atts : list jira.Attachment) (id : string) (v : Attachment) : Prop :=
  ∃ a tr attachment whole alt url,
    a ∈ atts ∧ jira.ID a = id ∧
    convertJiraAttachmentToMarkdown E tr pid a = inl attachment ∧
    Regexp.FindStringSubmatch (Markdown attachment) = [whole; alt; url] ∧
    v = relocated cfg attachment alt url.

(** The states a goroutine of the first phase goes through. *)
Inductive relocation_thread (E : Env) (cfg : config.Config) (pid : string)
  (atts : list jira.Attachment) : Thread -> Prop :=
| rt_call a :
    a ∈ atts → relocation_thread E cfg pid atts (Running (relocate_task cfg pid a))
| rt_store id v :
    provenance E cfg pid atts id v →
    relocation_thread E cfg pid atts (Running (StoreAttachment id v (Ret None)))
| rt_ret r : relocation_thread E cfg pid atts (Running (Ret r))
| rt_finished r : relocation_thread E cfg pid atts (Finished r).

Definition val_of {A : Type} (r : result A) : option A :=
  match r with inl a => Some a | inr _ => None end.

Definition comment_k : goerror -> Task :=
  fun r => Ret (Wrap r "Error creating note").

(** The states a goroutine of the second phase goes through. *)
Inductive comment_thread (gid : string) (eid : Z) : Thread -> Prop :=
| ct_call body :
    comment_thread gid eid (Running (CallCreateEpicNote gid eid body comment_k))
| ct_ret r : comment_thread gid eid (Running (Ret r))
| ct_finished r : comment_thread gid eid (Finished r).

(** A note on epic [eid] of group [gid] that the target system accepted. *)
Definition accepted_note (gid : string) (eid : Z) (body : string) : Event :=
  EvCreateEpicNote gid eid body None.

(** The error [e] is the one a call of [d] answered. *)
Definition answered (d : list Event) (e : error) : Prop :=
  ∃ ev, ev ∈ d ∧ answer ev = Some e.

(** In the last phase, what a goroutine holds of the shared [err] goes
    back to a call of the phase. *)
Definition orphan_holds (d : list Event) (th : Thread) : Prop :=
  match th with
  | Running (AssignErr (Some e) _) => answered d e
  | Running (Ret (Some x)) | Finished (Some x) =>
      ∃ e, x = ErrWrap e "Error creating note" ∧ answered d e
  | _ => True
  end.

(** The options the creation call is made with when the first phase
    leaves the state [s1]: lines 91-117. *)
Definition creation_options (E : Env) (cfg : config.Config)
  (jiraIssue : jira.Issue) (userMap : UserMap) (labels : list string)
  (s1 : State) : option gitlabx.CreateEpicOptions :=
  match formatDescription E jiraIssue userMap (attachments s1) true with
  | inr _ => None
  | inl description =>
      match start_date E cfg jiraIssue
              (with_description description
                 (initial_options E jiraIssue labels)) s1 with
      | (Next o, _) => Some (due_date jiraIssue o)
      | (Exit _, _) => None
      end
  end.

(** The notes [notes] are those of the comments of the issue: one per
    comment, with the body [formatNote] gives it for the map [m], and
    accepted. *)
Definition comments_posted (E : Env) (gid : string) (gitlabEpic : gitlab.Epic)
  (jiraIssue : jira.Issue) (userMap : UserMap) (m : gmap string Attachment)
  (notes : list Event) : Prop :=
  ∃ bodies,
    (fun c => formatNote E (jira.Key jiraIssue) c userMap m true)
      <$> jira.Comments jiraIssue = inl <$> bodies ∧
    notes ≡ₚ accepted_note gid (gitlab.ID gitlabEpic) <$> bodies.

(** The error the comment phase ends with: a comment that could not be
    formatted, or a note that was refused. *)
Definition comment_failure (E : Env) (jiraIssue : jira.Issue)
  (userMap : UserMap) (m : gmap string Attachment) (notes : list Event)
  (e : error) : Prop :=
  (∃ c e', c ∈ jira.Comments jiraIssue ∧
           formatNote E (jira.Key jiraIssue) c userMap m true = inr e' ∧
           e = ErrWrap e' "Error formatting comment") ∨
  (∃ e', answered notes e' ∧ e = ErrWrap e' "Error creating note").

(** What a call does once the first phase has left [R], the
    configuration being [cfg] and the labels [labels]: its outcome and the
    calls it makes from there on. *)
Inductive run_anatomy (E : Env) (cfg : config.Config) (jiraIssue : jira.Issue)
  (userMap : UserMap) (labels : list string) (R : list Thread * State)
  : Outcome -> list Event -> Prop :=
| an_relocating :
    all_finished R.1 = false →
    run_anatomy E cfg jiraIssue userMap labels R Blocked []
| an_relocation_error e :
    all_finished R.1 = true →
    g_err R.2 = Some e →
    run_anatomy E cfg jiraIssue userMap labels R
      (Return (inr (ErrWrap e
         "Error converting Jira attachment to GitLab attachment"))) []
| an_description_error e :
    all_finished R.1 = true →
    g_err R.2 = None →
    formatDescription E jiraIssue userMap (attachments R.2) true = inr e →
    run_anatomy E cfg jiraIssue userMap labels R
      (Return (inr (ErrWrap e "Error formatting description"))) []
| an_start_date_error description str e :
    all_finished R.1 = true →
    g_err R.2 = None →
    formatDescription E jiraIssue userMap (attachments R.2) true
    = inl description →
    config.Project_Jira_CustomField_EpicStartDate cfg ≠ "" →
    jira.Unknowns jiraIssue
      !! config.Project_Jira_CustomField_EpicStartDate cfg
    = Some (AString str) →
    time_Parse E "2006-01-02" str = inr e →
    run_anatomy E cfg jiraIssue userMap labels R
      (Return (inr (ErrWrap e "Error parsing time"))) []
| an_create_error opt e :
    let gid := config.Project_GitLab_Epic cfg in
    all_finished R.1 = true →
    g_err R.2 = None →
    creation_options E cfg jiraIssue userMap labels R.2 = Some opt →
    CreateEpic E (trace R.2) gid opt = inr e →
    run_anatomy E cfg jiraIssue userMap labels R
      (Return (inr (ErrWrap e "Error creating GitLab epic")))
      [EvCreateEpic gid opt (Some e)]
| an_commenting opt gitlabEpic notes :
    let gid := config.Project_GitLab_Epic cfg in
    all_finished R.1 = true →
    g_err R.2 = None →
    creation_options E cfg jiraIssue userMap labels R.2 = Some opt →
    CreateEpic E (trace R.2) gid opt = inl gitlabEpic →
    Forall (note_on gid gitlabEpic) notes →
    run_anatomy E cfg jiraIssue userMap labels R Blocked
      (EvCreateEpic gid opt None :: notes)
| an_comment_error opt gitlabEpic notes e :
    let gid := config.Project_GitLab_Epic cfg in
    all_finished R.1 = true →
    g_err R.2 = None →
    creation_options E cfg jiraIssue userMap labels R.2 = Some opt →
    CreateEpic E (trace R.2) gid opt = inl gitlabEpic →
    Forall (note_on gid gitlabEpic) notes →
    comment_failure E jiraIssue userMap (attachments R.2) notes e →
    run_anatomy E cfg jiraIssue userMap labels R
      (Return (inr (ErrWrap e
         ("Error creating GitLab comment with gid " +:+ gid +:+
          ", epic ID " +:+ pretty (gitlab.ID gitlabEpic)))))
      (EvCreateEpic gid opt None :: notes)
| an_orphans opt gitlabEpic comments orphans o :
    let gid := config.Project_GitLab_Epic cfg in
    all_finished R.1 = true →
    g_err R.2 = None →
    creation_options E cfg jiraIssue userMap labels R.2 = Some opt →
    CreateEpic E (trace R.2) gid opt = inl gitlabEpic →
    comments_posted E gid gitlabEpic jiraIssue userMap (attachments R.2)
      comments →
    Forall (note_on gid gitlabEpic) orphans →
    o = Blocked ∨
    (∃ e, answered orphans e ∧
          o = Return (inr (ErrWrap (ErrWrap e "Error creating note")
                             "Error creating GitLab issue"))) →
    run_anatomy E cfg jiraIssue userMap labels R o
      (EvCreateEpic gid opt None :: comments ++ orphans)
| an_done opt gitlabEpic comments orphans :
    let gid := config.Project_GitLab_Epic cfg in
    all_finished R.1 = true →
    g_err R.2 = None →
    creation_options E cfg jiraIssue userMap labels R.2 = Some opt →
    CreateEpic E (trace R.2) gid opt = inl gitlabEpic →
    comments_posted E gid gitlabEpic jiraIssue userMap (attachments R.2)
      comments →
    Forall (note_on gid gitlabEpic) orphans →
    run_anatomy E cfg jiraIssue userMap labels R (Return (inl gitlabEpic))
      (EvCreateEpic gid opt None :: comments ++ orphans ++
       close_events E gid jiraIssue gitlabEpic
         (trace R.2 ++ EvCreateEpic gid opt None :: comments ++ orphans)).

(** A goroutine of the first phase that has made its upload call and has
    not returned. *)
Definition uploading (th : Thread) : bool :=
  match th with
  | Running (CallUpload _ _ _) => false
  | Running _ => true
  | Finished _ => false
  end.

(** ** An environment to run the converter in *)

Module Demo.

Definition cfg : config.Config :=
  {| config.GitLab_Host := "https://gitlab.example.com";
     config.Project_GitLab_Epic := "group";
     config.Project_GitLab_Issue := "group/issues";
     config.Project_Jira_CustomField_EpicStartDate := "customfield_10015" |}.

(** [needle] occurs in [hay]. *)
Fixpoint contains (needle hay : string) : bool :=
  String.prefix needle hay ||
  match hay with
  | EmptyString => false
  | String _ hay' => contains needle hay'
  end.

Definition is_image (name : string) : bool := contains ".png" name.

(** The upload answers as GitLab does: embed markup for an image, a
    plain link for any other file; empty content is refused. *)
Definition upload (a : jira.Attachment) : result Attachment :=
  if String.eqb (jira.Content a) "" then inr (ErrNew "400 Bad Request")
  else
    let link := "[" +:+ jira.Filename a +:+ "](/uploads/" +:+ jira.ID a +:+ "/"
                +:+ jira.Filename a +:+ ")" in
    inl {| Markdown := if is_image (jira.Filename a) then "!" +:+ link else link;
           Name := jira.Filename a;
           CreatedAt := 86400 |}.

(** A formatter that embeds inline, at the end of the text, every
    relocated attachment the text names. *)
Definition embed (text : string) (m : gmap string Attachment) : string :=
  foldr (fun p acc =>
           if contains (Name p.2) text
           then acc +:+ " " +:+ Markdown p.2 else acc)
    text (map_to_list m).

Definition digit (c : ascii) : option Z :=
  let n := Z.of_nat (nat_of_ascii c) in
  if (48 <=? n) && (n <=? 57) then Some (n - 48) else None.

(** [time.Parse] for the layout ["2006-01-02"], without the check of the
    day against the length of the month; the instant is counted in days
    of twelve months of thirty-one. *)
Definition parse_date (layout value : string) : result Time :=
  match value with
  | String y1 (String y2 (String y3 (String y4 (String "-"
      (String m1 (String m2 (String "-"
        (String d1 (String d2 EmptyString))))))))) =>
      match digit y1, digit y2, digit y3, digit y4,
            digit m1, digit m2, digit d1, digit d2 with
      | Some a, Some b, Some c, Some d, Some e, Some f, Some g, Some h =>
          let year := 1000 * a + 100 * b + 10 * c + d in
          let month := 10 * e + f in
          let day := 10 * g + h in
          if (1 <=? month) && (month <=? 12) && (1 <=? day) && (day <=? 31)
          then inl (((year * 12 + (month - 1)) * 31 + (day - 1)) * 86400)
          else inr (ErrNew "parsing time: out of range")
      | _, _, _, _, _, _, _, _ => inr (ErrNew "parsing time: cannot parse")
      end
  | _ => inr (ErrNew "parsing time: cannot parse")
  end.

Definition created (tr : list Event) : Z :=
  Z.of_nat (length (filter (fun e => is_create_epic e = true) tr)).

(** The environment; [close] is the answer to a state update. *)
Definition env (close : goerror) : Env :=
  {| GetConfig := inl cfg;
     convertJiraToGitLabLabels := fun _ _ _ _ => inl ["migrated"];
     RandomColor := Some "#6699cc";
     convertJiraAttachmentToMarkdown := fun _ _ a => upload a;
     formatDescription := fun i _ m _ => inl (embed (jira.Description i) m);
     formatNote := fun _ c _ m _ => inl (embed (jira.Body c) m);
     time_Parse := parse_date;
     CreateEpic := fun tr _ o =>
       inl {| gitlab.ID := 100 + created tr;
              gitlab.IID := 1 + created tr;
              gitlab.Title := default "" (gitlabx.Title o);
              gitlab.State := "opened" |};
     CreateEpicNote := fun _ _ _ _ => None;
     UpdateEpic := fun _ _ _ _ => close;
     range_attachments := map_to_list;
     range_permutation := fun m => Permutation_refl (map_to_list m) |}.

Definition screenshot : jira.Attachment :=
  {| jira.ID := "a1"; jira.Filename := "1.png"; jira.Content := "PNG" |}.
Definition report : jira.Attachment :=
  {| jira.ID := "a2"; jira.Filename := "report.pdf"; jira.Content := "PDF" |}.
Definition empty_file : jira.Attachment :=
  {| jira.ID := "a3"; jira.Filename := "empty.png"; jira.Content := "" |}.

(** PROJ-1: resolved, with one comment; its description names the
    screenshot [1.png]. *)
Definition issue (attachments : list jira.Attachment)
  (start : option any) : jira.Issue :=
  {| jira.Key := "PROJ-1";
     jira.Summary := "Fix bug";
     jira.Description := "Crash on start, see 1.png";
     jira.Created := 172800;
     jira.Duedate := 0;
     jira.Resolution := Some {| jira.ResolutionName := "Done" |};
     jira.Attachments := attachments;
     jira.Comments := [ {| jira.CommentID := "c1"; jira.Body := "Fixed." |} ];
     jira.Unknowns :=
       match start with
       | Some v => {[ "customfield_10015" := v ]}
       | None => ∅
       end |}.

(** An open issue with neither attachments nor comments. *)
Definition bare : jira.Issue :=
  {| jira.Key := "PROJ-2";
     jira.Summary := "Write docs";
     jira.Description := "";
     jira.Created := 172800;
     jira.Duedate := 0;
     jira.Resolution := None;
     jira.Attachments := [];
     jira.Comments := [];
     jira.Unknowns := ∅ |}.

(** Every goroutine of a phase gets four instants, in turn. *)
Definition run (close : goerror) (i : jira.Issue) : Outcome * State :=
  ConvertJiraIssueToGitLabEpic (env close) (sequential 2) (sequential 2)
    (sequential 2) i ∅ [].

End Demo.

(** * Properties *)

Example find_plain :
  Regexp.FindStringSubmatch "![screenshot](/uploads/1.png)"
  = [ "![screenshot](/uploads/1.png)"; "screenshot"; "/uploads/1.png" ].
Proof. reflexivity. Qed.

Example find_greedy :
  Regexp.FindStringSubmatch "see ![a](b) and ![c](d)."
  = [ "![a](b) and ![c](d)"; "a](b) and ![c"; "d" ].
Proof. reflexivity. Qed.

Example find_none : Regexp.FindStringSubmatch "[file.txt](/uploads/f.txt)" = [].
Proof. reflexivity. Qed.

(** ** Goroutines and the group *)

Section Group.
Context (E : Env).

Lemma step_thread_usedAttachment th s :
  usedAttachment (step_thread E th s).1 = usedAttachment s.
Proof. destruct th as [[] | r]; reflexivity. Qed.

(** Induction over a schedule. *)
Lemma run_group_ind (I : list Thread -> State -> Prop) :
  (∀ pool s i th,
      I pool s → pool !! i = Some th → admitted pool i = true →
      I (<[i := (step_thread E th s).2]> pool) (step_thread E th s).1) →
  ∀ sched pool s,
    I pool s →
    I (run_group E sched pool s).1 (run_group E sched pool s).2.
Proof.
  intros Hstep sched. unfold run_group.
  induction sched as [| i sched IH]; intros pool s HI; simpl; [exact HI |].
  destruct (pool !! i) as [th |] eqn:Hi; [| apply IH; exact HI].
  destruct (admitted pool i) eqn:Ha; [| apply IH; exact HI].
  specialize (Hstep pool s i th HI Hi Ha).
  destruct (step_thread E th s) as [s' th']. apply IH. exact Hstep.
Qed.

Lemma run_group_usedAttachment sched pool s :
  usedAttachment (run_group E sched pool s).2 = usedAttachment s.
Proof.
  apply (run_group_ind (fun _ s' => usedAttachment s' = usedAttachment s));
    [| reflexivity].
  intros pool' s' i th H _ _. rewrite step_thread_usedAttachment. exact H.
Qed.

Lemma run_group_length sched pool s :
  length (run_group E sched pool s).1 = length pool.
Proof.
  apply (run_group_ind (fun p _ => length p = length pool)); [| reflexivity].
  intros pool' s' i th H _ _. rewrite length_insert. exact H.
Qed.

Lemma step_thread_g_err_mono th s :
  is_Some (g_err s) → is_Some (g_err (step_thread E th s).1).
Proof.
  intros [e He]. destruct th as [[] | r]; simpl; rewrite ?He; eauto.
Qed.

Lemma step_thread_records th s e :
  (step_thread E th s).2 = Finished (Some e) →
  th = Finished (Some e) ∨ is_Some (g_err (step_thread E th s).1).
Proof.
  destruct th as [[] | r]; simpl; try discriminate.
  - intros [= ->]. right. destruct (g_err s); eauto.
  - intros [= ->]. left. reflexivity.
Qed.

Lemma run_group_errors_recorded sched pool s :
  errors_recorded pool s →
  errors_recorded (run_group E sched pool s).1 (run_group E sched pool s).2.
Proof.
  apply run_group_ind. clear pool s.
  intros pool s i th HI Hi _ j e Hj.
  destruct (decide (i = j)) as [-> | Hne].
  - rewrite list_lookup_insert_eq in Hj by (eapply lookup_lt_Some; eauto).
    injection Hj as Hj.
    destruct (step_thread_records _ _ _ Hj) as [-> | H]; [| exact H].
    apply step_thread_g_err_mono. eapply HI; eauto.
  - rewrite list_lookup_insert_ne in Hj by done.
    apply step_thread_g_err_mono. eapply HI; eauto.
Qed.

Lemma errors_recorded_start tasks s : errors_recorded (Running <$> tasks) s.
Proof.
  intros i e H. rewrite list_lookup_fmap in H.
  destruct (tasks !! i); discriminate.
Qed.

Lemma step_thread_emits P th s :
  thread_ok (emits P) th →
  thread_ok (emits P) (step_thread E th s).2 ∧
  ∃ d, trace (step_thread E th s).1 = trace s ++ d ∧ Forall P d.
Proof.
  destruct th as [t | r]; simpl.
  - destruct t; simpl; intros H;
      try (split; [first [exact I | exact H | apply H] |];
           exists []; rewrite app_nil_r; split; [reflexivity | constructor]).
    + destruct H as [He Hk]. split; [apply Hk |].
      eexists [_]. split; [reflexivity | repeat constructor; apply He].
    + destruct H as [He Hk]. split; [apply Hk |].
      eexists [_]. split; [reflexivity | repeat constructor; apply He].
  - intros _. split; [exact I |].
    exists []. rewrite app_nil_r. split; [reflexivity | constructor].
Qed.

Lemma run_group_emits P sched pool s :
  Forall (thread_ok (emits P)) pool →
  ∃ d, trace (run_group E sched pool s).2 = trace s ++ d ∧ Forall P d.
Proof.
  intros Hpool.
  cut (Forall (thread_ok (emits P)) (run_group E sched pool s).1 ∧
       ∃ d, trace (run_group E sched pool s).2 = trace s ++ d ∧ Forall P d);
    [tauto |].
  apply (run_group_ind
           (fun p s' => Forall (thread_ok (emits P)) p ∧
                        ∃ d, trace s' = trace s ++ d ∧ Forall P d)).
  - intros pool' s' i th [Hp (d & Hd & HP)] Hi _.
    destruct (step_thread_emits P th s' (Forall_lookup_1 _ _ _ _ Hp Hi))
      as (Hth & d' & Hd' & HP').
    split; [apply Forall_insert; assumption |].
    exists (d ++ d'). rewrite Hd', Hd, app_assoc. split; [reflexivity |].
    apply Forall_app; auto.
  - split; [exact Hpool |].
    exists []. rewrite app_nil_r. split; [reflexivity | constructor].
Qed.

Lemma step_thread_no_store th s :
  thread_ok no_store th →
  thread_ok no_store (step_thread E th s).2 ∧
  attachments (step_thread E th s).1 = attachments s.
Proof.
  destruct th as [t | r]; simpl; [| intros _; split; [exact I | reflexivity]].
  destruct t; simpl; intros H;
    first [contradiction | split; [first [exact I | exact H | apply H] | reflexivity]].
Qed.

Lemma run_group_no_store sched pool s :
  Forall (thread_ok no_store) pool →
  attachments (run_group E sched pool s).2 = attachments s.
Proof.
  intros Hpool.
  cut (Forall (thread_ok no_store) (run_group E sched pool s).1 ∧
       attachments (run_group E sched pool s).2 = attachments s); [tauto |].
  apply (run_group_ind
           (fun p s' => Forall (thread_ok no_store) p ∧
                        attachments s' = attachments s)); [| by split].
  intros pool' s' i th [Hp Hs] Hi _.
  destruct (step_thread_no_store th s' (Forall_lookup_1 _ _ _ _ Hp Hi))
    as [Hth Hatt].
  split; [apply Forall_insert; assumption | congruence].
Qed.

(** What replacing one element does to the elements [f] selects. *)
Lemma omap_insert_perm {A B : Type} (f : A -> option B) (l : list A) i x x' :
  l !! i = Some x →
  omap f (<[i := x']> l) ++ option_list (f x)
  ≡ₚ omap f l ++ option_list (f x').
Proof.
  intros Hi.
  rewrite insert_take_drop by (eapply lookup_lt_Some; eauto).
  rewrite <- (take_drop_middle l i x Hi) at 3.
  rewrite !omap_app.
  assert (Hcons : ∀ z k, omap f (z :: k) = option_list (f z) ++ omap f k)
    by (intros z k; simpl; destruct (f z); reflexivity).
  rewrite !Hcons, <- !app_assoc.
  apply Permutation_app_head.
  rewrite (Permutation_app_swap_app (option_list (f x'))).
  rewrite (Permutation_app_swap_app (option_list (f x))).
  apply Permutation_app_head, Permutation_app_comm.
Qed.

(** No goroutines: every schedule leaves the state alone. *)
Lemma run_group_nil sched s : run_group E sched [] s = ([], s).
Proof.
  unfold run_group. induction sched as [| i sched IH]; simpl; [reflexivity |].
  exact IH.
Qed.

End Group.

(** ** The phase of the remaining attachments *)

Section Orphans.
Context (E : Env).

Lemma step_orphan th s :
  orphan_thread th →
  orphan_thread (step_thread E th s).2 ∧
  pending_body (step_thread E th s).2 = None ∧
  attachments (step_thread E th s).1 = attachments s ∧
  ∃ d, trace (step_thread E th s).1 = trace s ++ d ∧
       body_of <$> d = option_list (pending_body th).
Proof.
  intros [gid eid body | r | | r | r]; simpl;
    (split; [constructor |]); (split; [reflexivity |]);
    (split; [reflexivity |]);
    try (exists []; rewrite app_nil_r; split; reflexivity).
  eexists [_]. split; reflexivity.
Qed.

Lemma pending_finished pool :
  all_finished pool = true → omap pending_body pool = [].
Proof.
  induction pool as [| [t | r] pool IH]; simpl; [reflexivity | discriminate |].
  exact IH.
Qed.

(** Under every schedule the last phase makes one call per goroutine it
    has moved, and never touches the map. *)
Lemma run_group_orphans sched gid gitlabEpic (atts : list Attachment) s :
  let run := run_group E sched
               (Running <$> (orphan_task gid gitlabEpic <$> atts)) s in
  attachments run.2 = attachments s ∧
  ∃ d, trace run.2 = trace s ++ d ∧
       (all_finished run.1 = true → body_of <$> d ≡ₚ Markdown <$> atts).
Proof.
  simpl.
  cut (Forall orphan_thread
         (run_group E sched (Running <$> (orphan_task gid gitlabEpic <$> atts)) s).1 ∧
       attachments
         (run_group E sched (Running <$> (orphan_task gid gitlabEpic <$> atts)) s).2
       = attachments s ∧
       ∃ d, trace
              (run_group E sched (Running <$> (orphan_task gid gitlabEpic <$> atts)) s).2
            = trace s ++ d ∧
            (body_of <$> d) ++
            omap pending_body
              (run_group E sched (Running <$> (orphan_task gid gitlabEpic <$> atts)) s).1
            ≡ₚ Markdown <$> atts).
  { intros (_ & Hatt & d & Hd & Hperm). split; [exact Hatt |].
    exists d. split; [exact Hd |]. intros Hfin.
    rewrite (pending_finished _ Hfin), app_nil_r in Hperm. exact Hperm. }
  apply (run_group_ind E
           (fun p s' =>
              Forall orphan_thread p ∧ attachments s' = attachments s ∧
              ∃ d, trace s' = trace s ++ d ∧
                   (body_of <$> d) ++ omap pending_body p ≡ₚ Markdown <$> atts)).
  - intros pool s' i th (Hp & Hatt & d & Hd & Hperm) Hi _.
    destruct (step_orphan th s' (Forall_lookup_1 _ _ _ _ Hp Hi))
      as (Hth & Hnone & Hatt' & dd & Hdd & Hbody).
    split; [apply Forall_insert; assumption |].
    split; [congruence |].
    exists (d ++ dd). rewrite Hdd, Hd, app_assoc. split; [reflexivity |].
    rewrite fmap_app, Hbody, <- app_assoc.
    rewrite (Permutation_app_comm (option_list (pending_body th))).
    rewrite (omap_insert_perm pending_body pool i th _ Hi).
    rewrite Hnone. simpl. rewrite app_nil_r. exact Hperm.
  - split; [| split; [reflexivity |]].
    + apply Forall_fmap, Forall_fmap, Forall_true. intros a. constructor.
    + exists []. rewrite app_nil_r. split; [reflexivity |]. simpl.
      induction atts as [| a atts IH]; simpl; [reflexivity |].
      constructor. exact IH.
Qed.

End Orphans.

(** ** Runs *)

Lemma new_events_app tr0 s d : trace s = tr0 ++ d → new_events tr0 s = d.
Proof. intros H. unfold new_events. rewrite H. apply drop_app_length. Qed.

Ltac unfold_M :=
  unfold mbind, M_bind, mret, M_ret, try, wait, go_all, call_labels,
    call_CreateEpic, call_UpdateEpic, get_attachments, get_usedAttachment,
    set_err.

(** ** Every run has one of the shapes *)

Section Shape.
Context (E : Env).

Lemma relocate_task_emits cfg pid a :
  emits (fun e => is_prepare e = true) (relocate_task cfg pid a).
Proof.
  simpl. split; [reflexivity |]. intros [att | e]; simpl; [| exact I].
  destruct (decide _); simpl; exact I.
Qed.

Lemma comment_task_emits gid gitlabEpic jiraIssue userMap m c :
  emits (note_on gid gitlabEpic)
    (comment_task E gid gitlabEpic jiraIssue userMap m c).
Proof.
  unfold comment_task. destruct (formatNote _ _ _ _ _ _); simpl; [| exact I].
  split; [| intros; exact I]. intros e. eexists _, _. reflexivity.
Qed.

Lemma comment_task_no_store gid gitlabEpic jiraIssue userMap m c :
  no_store (comment_task E gid gitlabEpic jiraIssue userMap m c).
Proof.
  unfold comment_task. destruct (formatNote _ _ _ _ _ _); simpl; [| exact I].
  intros; exact I.
Qed.

Lemma orphan_task_emits gid gitlabEpic a :
  emits (note_on gid gitlabEpic) (orphan_task gid gitlabEpic a).
Proof.
  simpl. split; [| intros r e; exact I]. intros e. eexists _, _. reflexivity.
Qed.

(** The start date either fills in the options or ends the call; it
    touches nothing shared. *)
Lemma start_date_cases cfg jiraIssue o s :
  (∃ o', start_date E cfg jiraIssue o s = (Next o', s)) ∨
  (∃ e, start_date E cfg jiraIssue o s = (Exit (Return (inr e)), s)).
Proof.
  unfold start_date. destruct (decide _); [| left; eexists; reflexivity].
  destruct (assert_string _) as [str [|]]; [| left; eexists; reflexivity].
  unfold_M. destruct (time_Parse E _ _); [left | right]; eexists; reflexivity.
Qed.

(** Nothing is ever marked used, so the last loop skips nothing. *)
Lemma remaining_all (m : gmap string Attachment) :
  remaining E m ∅ = snd <$> range_attachments E m.
Proof.
  unfold remaining. f_equal.
  induction (range_attachments E m) as [| p l IH]; [reflexivity |].
  rewrite filter_cons_True by (unfold skipped; rewrite lookup_empty; reflexivity).
  f_equal. exact IH.
Qed.

Lemma pool_of_ok {A : Type} (Q : Task -> Prop) (f : A -> Task) (l : list A) :
  (∀ a, Q (f a)) → Forall (thread_ok Q) (Running <$> (f <$> l)).
Proof.
  intros H. induction l as [| a l IH]; simpl; constructor; [apply H | exact IH].
Qed.
(** Whatever the schedules and the answers of the remote systems, a call
    ends in one of the four shapes, and with nothing marked used. *)
Lemma convert_shape sched1 sched2 sched3 jiraIssue userMap tr0 :
  let run := ConvertJiraIssueToGitLabEpic E sched1 sched2 sched3 jiraIssue
               userMap tr0 in
  usedAttachment run.2 = ∅ ∧
  attachments run.2 = attachments (relocation_phase E sched1 jiraIssue tr0).2 ∧
  run_shape E jiraIssue tr0 run.1 run.2.
Proof.
  unfold ConvertJiraIssueToGitLabEpic, convert, relocation_phase,
    relocation_start.
  unfold_M. simpl.
  destruct (GetConfig E) as [cfg | e0] eqn:Hcfg; simpl.
  2:{ split; [reflexivity |]. split; [reflexivity |].
      apply shape_preparing with (d := []); [intros ? [=] | | constructor].
      simpl. rewrite app_nil_r. reflexivity. }
  destruct (convertJiraToGitLabLabels E tr0 _ jiraIssue true) as [labels | e0];
    simpl.
  2:{ split; [reflexivity |]. split; [reflexivity |].
      eapply shape_preparing; [intros ? [=] | reflexivity | repeat constructor]. }
  (* relocation *)
  match goal with
  | |- context [run_group E sched1 ?p ?s] =>
      pose proof (run_group_emits E (fun e => is_prepare e = true) sched1 p s
                    (pool_of_ok _ _ _ (relocate_task_emits cfg _)))
        as (d1 & Hd1 & HP1);
      pose proof (run_group_usedAttachment E sched1 p s) as Hu1;
      destruct (run_group E sched1 p s) as [pool1 s1]
  end.
  simpl in Hd1, Hu1.
  assert (Hprep : Forall (fun e => is_prepare e = true)
                    (EvConvertLabels (config.Project_GitLab_Epic cfg)
                       (jira.Key jiraIssue) None :: d1))
    by (constructor; [reflexivity | exact HP1]).
  assert (Htr1 : trace s1 = tr0 ++
                   EvConvertLabels (config.Project_GitLab_Epic cfg)
                     (jira.Key jiraIssue) None :: d1)
    by (rewrite Hd1, <- app_assoc; reflexivity).
  clear Hd1 HP1.
  destruct (all_finished pool1); simpl.
  2:{ split; [exact Hu1 |]. split; [reflexivity |].
      eapply shape_preparing; [intros ? [=] | exact Htr1 | exact Hprep]. }
  destruct (g_err s1) as [e1 |]; simpl.
  { split; [exact Hu1 |]. split; [reflexivity |].
    eapply shape_preparing; [intros ? [=] | exact Htr1 | exact Hprep]. }
  destruct (formatDescription E jiraIssue userMap (attachments s1) true)
    as [description | e1]; simpl.
  2:{ split; [exact Hu1 |]. split; [reflexivity |].
      eapply shape_preparing; [intros ? [=] | exact Htr1 | exact Hprep]. }
  destruct (start_date_cases cfg jiraIssue
              (with_description description (initial_options E jiraIssue labels))
              s1) as [[opt ->] | [e1 ->]]; simpl.
  2:{ split; [exact Hu1 |]. split; [reflexivity |].
      eapply shape_preparing; [intros ? [=] | exact Htr1 | exact Hprep]. }
  destruct (CreateEpic E (trace s1) _ (due_date jiraIssue opt))
    as [gitlabEpic | e1] eqn:Hcreate; simpl.
  2:{ split; [exact Hu1 |]. split; [reflexivity |].
      eapply shape_not_created; [| exact Hprep].
      simpl. rewrite Htr1, <- app_assoc. reflexivity. }
  assert (Hcreate' : CreateEpic E (tr0 ++ EvConvertLabels (config.Project_GitLab_Epic cfg)
                     (jira.Key jiraIssue) None :: d1) (config.Project_GitLab_Epic cfg)
                     (due_date jiraIssue opt) = inl gitlabEpic)
    by (rewrite <- Htr1; exact Hcreate).
  clear Hcreate.
  (* comments *)
  match goal with
  | |- context [run_group E sched2 ?p ?s] =>
      pose proof (run_group_emits E
                    (note_on (config.Project_GitLab_Epic cfg) gitlabEpic)
                    sched2 p s
                    (pool_of_ok _ _ _
                       (comment_task_emits _ gitlabEpic jiraIssue userMap _)))
        as (d2 & Hd2 & HP2);
      pose proof (run_group_usedAttachment E sched2 p s) as Hu2;
      pose proof (run_group_no_store E sched2 p s
                    (pool_of_ok _ _ _
                       (comment_task_no_store _ gitlabEpic jiraIssue userMap _)))
        as Ha2;
      destruct (run_group E sched2 p s) as [pool2 s2]
  end.
  simpl in Hd2, Hu2, Ha2. rewrite Hu1 in Hu2.
  assert (Htr2 : trace s2 = tr0 ++
                   (EvConvertLabels (config.Project_GitLab_Epic cfg)
                      (jira.Key jiraIssue) None :: d1) ++
                   EvCreateEpic (config.Project_GitLab_Epic cfg)
                     (due_date jiraIssue opt) None :: d2)
    by (rewrite Hd2, Htr1, <- !app_assoc; reflexivity).
  clear Hd2 Htr1.
  destruct (all_finished pool2); simpl.
  2:{ split; [exact Hu2 |]. split; [exact Ha2 |].
      eapply shape_posting; [intros ? [=] | exact Hcfg | exact Htr2 | exact Hprep | exact HP2]. }
  destruct (g_err s2) as [e2 |]; simpl.
  { split; [exact Hu2 |]. split; [exact Ha2 |].
    eapply shape_posting; [intros ? [=] | exact Hcfg | exact Htr2 | exact Hprep | exact HP2]. }
  (* remaining attachments *)
  rewrite Hu2, remaining_all.
  match goal with
  | |- context [run_group E sched3 ?p ?s] =>
      pose proof (run_group_emits E
                    (note_on (config.Project_GitLab_Epic cfg) gitlabEpic)
                    sched3 p s
                    (pool_of_ok _ _ _
                       (orphan_task_emits _ gitlabEpic)))
        as (d3 & Hd3 & HP3);
      pose proof (run_group_usedAttachment E sched3 p s) as Hu3;
      pose proof (run_group_orphans E sched3 (config.Project_GitLab_Epic cfg)
                    gitlabEpic (snd <$> range_attachments E (attachments s2)) s)
        as (Hatt3 & d3' & Hd3' & Hperm);
      destruct (run_group E sched3 p s) as [pool3 s3]
  end.
  simpl in Hd3, Hu3, Hatt3, Hd3', Hperm. rewrite Hu2 in Hu3.
  rewrite Ha2 in Hatt3.
  rewrite Hd3 in Hd3'. apply app_inv_head in Hd3'. subst d3'.
  assert (Htr3 : trace s3 = tr0 ++
                   (EvConvertLabels (config.Project_GitLab_Epic cfg)
                      (jira.Key jiraIssue) None :: d1) ++
                   EvCreateEpic (config.Project_GitLab_Epic cfg)
                     (due_date jiraIssue opt) None :: d2 ++ d3)
    by (rewrite Hd3, Htr2, <- !app_assoc; reflexivity).
  clear Htr2 Hd3.
  destruct (all_finished pool3); simpl.
  2:{ split; [exact Hu3 |]. split; [exact Hatt3 |].
      eapply shape_posting with (notes := d2 ++ d3);
        [intros ? [=] | exact Hcfg | | exact Hprep | apply Forall_app; split; eassumption].
      exact Htr3. }
  destruct (g_err s3) as [e3 |]; simpl.
  { split; [exact Hu3 |]. split; [exact Hatt3 |].
      eapply shape_posting with (notes := d2 ++ d3);
        [intros ? [=] | exact Hcfg | | exact Hprep | apply Forall_app; split; eassumption].
      exact Htr3. }
  assert (Hshape : ∀ s,
             trace s = trace s3 ++
               close_events E (config.Project_GitLab_Epic cfg) jiraIssue
                 gitlabEpic (trace s3) →
             attachments s = attachments s3 →
             run_shape E jiraIssue tr0 (Return (inl gitlabEpic)) s).
  { intros s Htr Hatt.
    eapply shape_done with (comments := d2) (orphans := d3);
      [exact Hcfg | exact Hcreate' | | exact Hprep | exact HP2 | exact HP3 |].
    - rewrite Htr, Htr3. reflexivity.
    - rewrite Hatt, Hatt3, <- Ha2. apply Hperm. reflexivity. }
  unfold close_events in Hshape.
  destruct (jira.Resolution jiraIssue); simpl;
    (split; [exact Hu3 | split; [exact Hatt3 | apply Hshape; [| reflexivity]]]).
  - reflexivity.
  - simpl. rewrite app_nil_r. reflexivity.
Qed.
End Shape.

(** ** Whole runs *)

Section Runs.
Context (E : Env).

Lemma prepare_not_update d :
  Forall (fun e => is_prepare e = true) d →
  Forall (fun e => is_update e = false) d.
Proof. intros H. eapply Forall_impl; [exact H |]. intros [] ?; done. Qed.

Lemma note_not_update gid gitlabEpic d :
  Forall (note_on gid gitlabEpic) d →
  Forall (fun e => is_update e = false) d.
Proof.
  intros H. eapply Forall_impl; [exact H |]. intros e (b & r & ->). done.
Qed.

(** C4: if a goroutine of the relocation phase returns an error, the
    call returns an error once the barrier is passed, and no run with
    such a goroutine makes a creation call. *)
Theorem relocation_error_aborts sched1 sched2 sched3 jiraIssue userMap tr0 i e :
  let relocation := relocation_phase E sched1 jiraIssue tr0 in
  let run := ConvertJiraIssueToGitLabEpic E sched1 sched2 sched3 jiraIssue
               userMap tr0 in
  all_finished relocation.1 = true →
  relocation.1 !! i = Some (Finished (Some e)) →
  (∃ e', run.1 = Return (inr e')) ∧
  Forall (fun ev => is_create_epic ev = false) (new_events tr0 run.2).
Proof.
  intros relocation run. subst relocation run.
  unfold relocation_phase, relocation_start, ConvertJiraIssueToGitLabEpic,
    convert.
  unfold_M. simpl.
  destruct (GetConfig E) as [cfg | e0]; simpl; [| intros _ [=]].
  destruct (convertJiraToGitLabLabels E tr0 _ jiraIssue true) as [labels | e0];
    simpl; [| intros _ [=]].
  match goal with
  | |- context [run_group E sched1 ?p ?s] =>
      pose proof (run_group_emits E (fun e => is_prepare e = true) sched1 p s
                    (pool_of_ok _ _ _ (relocate_task_emits cfg _)))
        as (d & Hd & HP);
      pose proof (run_group_errors_recorded E sched1 p s
                    (errors_recorded_start _ _)) as Hrec;
      destruct (run_group E sched1 p s) as [pool s1]
  end.
  simpl in *. intros -> Hi.
  destruct (Hrec i e Hi) as [e1 He1]. rewrite He1. simpl.
  split; [eauto |].
  erewrite new_events_app by (rewrite Hd; simpl; rewrite <- app_assoc; reflexivity).
  constructor; [reflexivity |].
  eapply Forall_impl; [exact HP |]. intros [] ?; done.
Qed.

(** Calls other than an accepted state update leave the state of every
    epic as it is. *)
Lemma observed_state_unchanged gid iid tr d :
  Forall (fun e => ∀ g i ev, e ≠ EvUpdateEpic g i ev None) d →
  observed_state gid iid (tr ++ d) = observed_state gid iid tr.
Proof.
  intros Hd. unfold observed_state. rewrite foldl_app.
  generalize (foldl
                (fun st e =>
                   match e with
                   | EvUpdateEpic g i ev None =>
                       if decide (g = gid ∧ i = iid)
                       then if decide (ev = "close") then "closed"
                            else if decide (ev = "reopen") then "opened" else st
                       else st
                   | _ => st
                   end) "opened" tr).
  induction Hd as [| e d He _ IH]; intros st; [reflexivity |].
  simpl. destruct e as [| | | | g i ev [err |]]; try apply IH.
  exfalso. exact (He g i ev eq_refl).
Qed.

(** C7, as the code stands: with a resolution, a run that returns the
    epic has made the state update ["close"] on that epic as its last
    call, after every note; the result of the call is discarded, so the
    target system reports the epic closed when it accepted the update, and
    in the state it had before the call when it refused; without a
    resolution no run makes a state update. *)
Theorem resolution_decides_close sched1 sched2 sched3 jiraIssue userMap tr0 :
  let run := ConvertJiraIssueToGitLabEpic E sched1 sched2 sched3 jiraIssue
               userMap tr0 in
  (∀ gitlabEpic,
      run.1 = Return (inl gitlabEpic) →
      is_Some (jira.Resolution jiraIssue) →
      ∃ cfg d opt comments orphans res,
        GetConfig E = inl cfg ∧
        let gid := config.Project_GitLab_Epic cfg in
        new_events tr0 run.2
        = d ++ EvCreateEpic gid opt None :: comments ++ orphans ++
          [EvUpdateEpic gid (gitlab.IID gitlabEpic) "close" res] ∧
        Forall (fun e => is_prepare e = true) d ∧
        Forall (note_on gid gitlabEpic) comments ∧
        Forall (note_on gid gitlabEpic) orphans ∧
        (res = None →
         observed_state gid (gitlab.IID gitlabEpic) (trace run.2) = "closed") ∧
        (res ≠ None →
         observed_state gid (gitlab.IID gitlabEpic) (trace run.2)
         = observed_state gid (gitlab.IID gitlabEpic) tr0)) ∧
  (jira.Resolution jiraIssue = None →
   Forall (fun e => is_update e = false) (new_events tr0 run.2)).
Proof.
  intros run.
  destruct (convert_shape E sched1 sched2 sched3 jiraIssue userMap tr0)
    as (_ & _ & Hshape).
  fold run in Hshape. split.
  - intros gitlabEpic Hrun [r Hres]. rewrite Hrun in Hshape.
    inversion Hshape as [o s d Hnd | | o s cfg d opt ep notes Hnd
                        | s cfg d opt ep comments orphans gid bc Hcfg Hcr Htr
                            Hd Hc Ho Hperm];
      subst; try (exfalso; eapply Hnd; reflexivity).
    unfold close_events in Htr. rewrite Hres in Htr.
    exists cfg, d, opt, comments, orphans,
      (UpdateEpic E bc gid (gitlab.IID gitlabEpic) "close").
    split; [exact Hcfg |]. simpl.
    split; [| split; [exact Hd | split; [exact Hc | split; [exact Ho | split]]]].
    + apply new_events_app. rewrite Htr. subst bc.
      rewrite <- !app_assoc. simpl. rewrite <- !app_assoc. reflexivity.
    + intros Hacc. rewrite Htr. unfold observed_state.
      rewrite foldl_app. simpl. fold gid. rewrite Hacc.
      rewrite decide_True by (split; reflexivity).
      reflexivity.
    + intros Href. rewrite Htr. subst bc. rewrite <- !app_assoc.
      apply observed_state_unchanged.
      apply Forall_app. split.
      { eapply Forall_impl; [exact Hd |]. intros [] Hp g i ev; done. }
      constructor; [intros g i ev; discriminate |].
      rewrite app_assoc. apply Forall_app. split.
      { apply Forall_app. split;
          (eapply Forall_impl; [eassumption |]);
          intros e (b & r0 & ->) g i ev; discriminate. }
      constructor; [| constructor].
      intros g i ev [= _ _ _ Hnone]. rewrite <- app_assoc in Hnone.
      exact (Href Hnone).
  - intros Hres.
    inversion Hshape as [o s d Hnd Htr Hd
                        | s d gid opt e Htr Hd
                        | o s cfg d opt ep notes Hnd Hcfg Htr Hd Hn
                        | s cfg d opt ep comments orphans gid bc Hcfg Hcr Htr
                            Hd Hc Ho Hperm].
    + rewrite (new_events_app _ _ _ Htr). apply prepare_not_update, Hd.
    + rewrite (new_events_app _ _ _ Htr). apply Forall_app. split.
      * apply prepare_not_update, Hd.
      * repeat constructor.
    + rewrite (new_events_app _ _ _ Htr). apply Forall_app. split.
      * apply prepare_not_update, Hd.
      * constructor; [reflexivity |]. eapply note_not_update, Hn.
    + unfold close_events in Htr. rewrite Hres, app_nil_r in Htr.
      subst bc. rewrite (new_events_app _ _ _ Htr). apply Forall_app. split.
      * apply prepare_not_update, Hd.
      * constructor; [reflexivity |]. apply Forall_app. split.
        -- eapply note_not_update, Hc.
        -- eapply note_not_update, Ho.
Qed.

Lemma update_not_prepare d gid iid ev r :
  Forall (fun e => is_prepare e = true) d → EvUpdateEpic gid iid ev r ∉ d.
Proof.
  intros H Hin. rewrite Forall_forall in H. specialize (H _ Hin). done.
Qed.

Lemma update_not_note d g gitlabEpic gid iid ev r :
  Forall (note_on g gitlabEpic) d → EvUpdateEpic gid iid ev r ∉ d.
Proof.
  intros H Hin. rewrite Forall_forall in H.
  destruct (H _ Hin) as (b & r' & [=]).
Qed.

(** C9: a run whose state update was refused still returns the epic it
    created, with a nil error. *)
Theorem failed_close_still_returns_epic sched1 sched2 sched3 jiraIssue
    userMap tr0 gid iid ev e :
  let run := ConvertJiraIssueToGitLabEpic E sched1 sched2 sched3 jiraIssue
               userMap tr0 in
  EvUpdateEpic gid iid ev (Some e) ∈ new_events tr0 run.2 →
  ∃ gitlabEpic d opt,
    run.1 = Return (inl gitlabEpic) ∧
    CreateEpic E (tr0 ++ d) gid opt = inl gitlabEpic ∧
    EvCreateEpic gid opt None ∈ new_events tr0 run.2 ∧
    iid = gitlab.IID gitlabEpic ∧ ev = "close".
Proof.
  intros run.
  destruct (convert_shape E sched1 sched2 sched3 jiraIssue userMap tr0)
    as (_ & _ & Hshape).
  fold run in Hshape.
  inversion Hshape as [o s d Hnd Htr Hd
                      | s d g opt e' Htr Hd
                      | o s cfg d opt ep notes Hnd Hcfg Htr Hd Hn
                      | s cfg d opt ep comments orphans g bc Hcfg Hcr Htr
                          Hd Hc Ho Hperm];
    rewrite (new_events_app _ _ _ Htr) || (subst bc;
      rewrite <- !app_assoc in Htr; rewrite (new_events_app _ _ _ Htr));
    intros Hin.
  - exfalso. exact (update_not_prepare _ _ _ _ _ Hd Hin).
  - exfalso. apply elem_of_app in Hin as [Hin | Hin].
    + exact (update_not_prepare _ _ _ _ _ Hd Hin).
    + apply list_elem_of_singleton in Hin. discriminate.
  - exfalso. apply elem_of_app in Hin as [Hin | Hin].
    + exact (update_not_prepare _ _ _ _ _ Hd Hin).
    + apply elem_of_cons in Hin as [[=] | Hin].
      exact (update_not_note _ _ _ _ _ _ _ Hn Hin).
  - apply elem_of_app in Hin as [Hin | Hin];
      [destruct (update_not_prepare _ _ _ _ _ Hd Hin) |].
    simpl in Hin.
    apply elem_of_cons in Hin as [[=] | Hin].
    rewrite !elem_of_app in Hin. destruct Hin as [[Hin | Hin] | Hin];
      [destruct (update_not_note _ _ _ _ _ _ _ Hc Hin)
      | destruct (update_not_note _ _ _ _ _ _ _ Ho Hin) |].
    unfold close_events in Hin.
    destruct (jira.Resolution jiraIssue); [| inversion Hin].
    apply list_elem_of_singleton in Hin. injection Hin as -> -> -> _.
    exists ep, d, opt. split; [reflexivity |]. split; [exact Hcr |].
    split; [| split; reflexivity].
    apply elem_of_app. right. simpl. left.
Qed.

(** C3: in every run nothing is ever marked used; and in a run that
    returns the epic, the notes posted between the comments and the
    state update are, up to order, the markup of every attachment the
    relocation phase stored - whatever the formatters did with them. *)
Theorem every_relocated_attachment_is_posted sched1 sched2 sched3 jiraIssue
    userMap tr0 :
  let run := ConvertJiraIssueToGitLabEpic E sched1 sched2 sched3 jiraIssue
               userMap tr0 in
  let relocated := attachments (relocation_phase E sched1 jiraIssue tr0).2 in
  usedAttachment run.2 = ∅ ∧
  ∀ gitlabEpic,
    run.1 = Return (inl gitlabEpic) →
    ∃ cfg d opt comments orphans,
      GetConfig E = inl cfg ∧
      let gid := config.Project_GitLab_Epic cfg in
      let before_close :=
        tr0 ++ d ++ EvCreateEpic gid opt None :: comments ++ orphans in
      trace run.2
      = before_close ++ close_events E gid jiraIssue gitlabEpic before_close ∧
      Forall (fun e => is_prepare e = true) d ∧
      Forall (note_on gid gitlabEpic) comments ∧
      Forall (note_on gid gitlabEpic) orphans ∧
      body_of <$> orphans ≡ₚ Markdown <$> (snd <$> map_to_list relocated).
Proof.
  intros run relocated.
  destruct (convert_shape E sched1 sched2 sched3 jiraIssue userMap tr0)
    as (Hused & Hatt & Hshape).
  fold run in Hused, Hatt, Hshape. fold relocated in Hatt.
  split; [exact Hused |].
  intros gitlabEpic Hrun. rewrite Hrun in Hshape.
  inversion Hshape as [o s d Hnd | | o s cfg d opt ep notes Hnd
                      | s cfg d opt ep comments orphans gid bc Hcfg Hcr Htr
                          Hd Hc Ho Hperm];
    subst; try (exfalso; eapply Hnd; reflexivity).
  exists cfg, d, opt, comments, orphans.
  split; [exact Hcfg |]. simpl.
  split; [exact Htr |]. split; [exact Hd |]. split; [exact Hc |].
  split; [exact Ho |].
  rewrite Hperm, Hatt, (range_permutation E relocated). reflexivity.
Qed.

Lemma range_empty : range_attachments E ∅ = [].
Proof.
  apply Permutation_nil_r. rewrite (range_permutation E ∅).
  rewrite map_to_list_empty. reflexivity.
Qed.

(** C6: a run on an issue without attachments and without comments that
    returns the epic has made exactly one creation call and no note
    call. *)
Theorem bare_issue_one_creation_no_notes sched1 sched2 sched3 jiraIssue
    userMap tr0 gitlabEpic :
  let run := ConvertJiraIssueToGitLabEpic E sched1 sched2 sched3 jiraIssue
               userMap tr0 in
  jira.Attachments jiraIssue = [] →
  jira.Comments jiraIssue = [] →
  run.1 = Return (inl gitlabEpic) →
  length (filter (fun e => is_create_epic e = true) (new_events tr0 run.2))
  = 1%nat ∧
  filter (fun e => is_note e = true) (new_events tr0 run.2) = [].
Proof.
  intros run Hatt Hcom. subst run.
  unfold ConvertJiraIssueToGitLabEpic, convert. unfold_M.
  rewrite Hatt, Hcom. simpl.
  destruct (GetConfig E) as [cfg | e0]; simpl; [| intros [=]].
  destruct (convertJiraToGitLabLabels E tr0 _ jiraIssue true) as [labels | e0];
    simpl; [| intros [=]].
  rewrite run_group_nil. simpl.
  destruct (formatDescription E jiraIssue userMap ∅ true)
    as [description | e1]; simpl; [| intros [=]].
  match goal with
  | |- context [start_date E cfg jiraIssue ?o ?s] =>
      destruct (start_date_cases E cfg jiraIssue o s) as [[opt ->] | [e1 ->]]
  end; simpl; [| intros [=]].
  destruct (CreateEpic E _ _ (due_date jiraIssue opt)) as [ep | e1];
    simpl; [| intros [=]].
  rewrite run_group_nil. simpl.
  rewrite remaining_all, range_empty. simpl.
  rewrite run_group_nil. simpl.
  destruct (jira.Resolution jiraIssue); simpl; intros _;
    (erewrite new_events_app
       by (simpl; rewrite <- ?app_assoc; simpl; reflexivity));
    split; reflexivity.
Qed.

Lemma run_group_with_config cfg sched pool s :
  run_group (with_config cfg E) sched pool s = run_group E sched pool s.
Proof.
  unfold run_group. revert pool s.
  induction sched as [| i sched IH]; intros pool s; simpl; [reflexivity |].
  destruct (pool !! i) as [th |]; [| apply IH].
  destruct (admitted pool i); [| apply IH].
  replace (step_thread (with_config cfg E) th s) with (step_thread E th s)
    by (destruct th as [[] |]; reflexivity).
  destruct (step_thread E th s). apply IH.
Qed.

(** A field that is missing or holds no string is passed over. *)
Lemma start_date_skipped cfg jiraIssue o :
  (assert_string
     (jira.Unknowns jiraIssue
        !! config.Project_Jira_CustomField_EpicStartDate cfg)).2 = false →
  start_date E cfg jiraIssue o = mret o.
Proof.
  unfold start_date. intros H. destruct (decide _); [| reflexivity].
  destruct (assert_string _) as [str ok]. simpl in H. subst ok. reflexivity.
Qed.

(** C8: with a start-date field configured, a string value that
    [time.Parse] rejects ends the call with an error before any creation
    call; a missing value or a value that is no string leaves the run
    exactly as it is when no field is configured. *)
Theorem start_date_field sched1 sched2 sched3 jiraIssue userMap tr0 cfg :
  let field := config.Project_Jira_CustomField_EpicStartDate cfg in
  let run := ConvertJiraIssueToGitLabEpic E sched1 sched2 sched3 jiraIssue
               userMap tr0 in
  let relocation := relocation_phase E sched1 jiraIssue tr0 in
  GetConfig E = inl cfg →
  field ≠ "" →
  (∀ str e,
      jira.Unknowns jiraIssue !! field = Some (AString str) →
      time_Parse E "2006-01-02" str = inr e →
      Forall (fun ev => is_create_epic ev = false) (new_events tr0 run.2) ∧
      (all_finished relocation.1 = true →
       (∃ e', run.1 = Return (inr e')) ∧
       (err_of (convertJiraToGitLabLabels E tr0
                  (config.Project_GitLab_Epic cfg) jiraIssue true) = None →
        g_err relocation.2 = None →
        err_of (formatDescription E jiraIssue userMap
                  (attachments relocation.2) true) = None →
        run.1 = Return (inr (ErrWrap e "Error parsing time"))))) ∧
  ((jira.Unknowns jiraIssue !! field = None ∨
    ∃ v, jira.Unknowns jiraIssue !! field = Some v ∧ ∀ str, v ≠ AString str) →
   run = ConvertJiraIssueToGitLabEpic
           (with_config (without_start_date cfg) E)
           sched1 sched2 sched3 jiraIssue userMap tr0).
Proof.
  intros field run relocation Hcfg Hfield. split.
  - intros str e Hstr Hparse. subst run relocation.
    unfold ConvertJiraIssueToGitLabEpic, convert, relocation_phase,
      relocation_start.
    unfold_M. rewrite Hcfg. simpl.
    destruct (convertJiraToGitLabLabels E tr0 _ jiraIssue true)
      as [labels | e0]; simpl.
    2:{ split; [| intros _; split; [eauto | intros [=]]].
        erewrite new_events_app by reflexivity. repeat constructor. }
    match goal with
    | |- context [run_group E sched1 ?p ?s] =>
        pose proof (run_group_emits E (fun e => is_prepare e = true) sched1 p s
                      (pool_of_ok _ _ _ (relocate_task_emits cfg _)))
          as (d1 & Hd1 & HP1);
        destruct (run_group E sched1 p s) as [pool1 s1]
    end.
    simpl in Hd1.
    assert (Hnew : new_events tr0 s1
                   = EvConvertLabels (config.Project_GitLab_Epic cfg)
                       (jira.Key jiraIssue) None :: d1)
      by (apply new_events_app; rewrite Hd1, <- app_assoc; reflexivity).
    assert (Hnc : Forall (fun ev => is_create_epic ev = false) (new_events tr0 s1)).
    { rewrite Hnew. constructor; [reflexivity |].
      eapply Forall_impl; [exact HP1 |]. intros [] ?; done. }
    simpl. destruct (all_finished pool1); simpl;
      [| split; [exact Hnc | intros [=]]].
    destruct (g_err s1) as [e1 |]; simpl.
    { split; [exact Hnc | intros _; split; [eauto | intros _ [=]]]. }
    destruct (formatDescription E jiraIssue userMap (attachments s1) true)
      as [description | e1]; simpl.
    2:{ split; [exact Hnc | intros _; split; [eauto | intros _ _ [=]]]. }
    unfold start_date. rewrite decide_True by exact Hfield.
    fold field. rewrite Hstr. simpl. unfold_M. rewrite Hparse. simpl.
    split; [exact Hnc | intros _; split; [eauto | reflexivity]].
  - intros Hno.
    assert (Hskip : (assert_string (jira.Unknowns jiraIssue !! field)).2 = false).
    { destruct Hno as [-> | (v & -> & Hv)]; [reflexivity |].
      destruct v; try reflexivity. destruct (Hv s). reflexivity. }
    subst run.
    unfold ConvertJiraIssueToGitLabEpic, convert.
    unfold_M. rewrite Hcfg. simpl.
    destruct (convertJiraToGitLabLabels E tr0 _ jiraIssue true)
      as [labels | e0]; simpl; [| reflexivity].
    rewrite run_group_with_config.
    destruct (run_group E sched1 _ _) as [pool1 s1].
    destruct (all_finished pool1); simpl; [| reflexivity].
    destruct (g_err s1); simpl; [reflexivity |].
    destruct (formatDescription E jiraIssue userMap (attachments s1) true)
      as [description | e1]; simpl; [| reflexivity].
    rewrite (start_date_skipped cfg jiraIssue _ Hskip).
    unfold start_date. unfold_M. simpl.
    destruct (CreateEpic E _ _ _) as [ep | e1]; simpl; [| reflexivity].
    rewrite run_group_with_config.
    change (comment_task (with_config (without_start_date cfg) E))
      with (comment_task E).
    destruct (run_group E sched2 _ _) as [pool2 s2].
    destruct (all_finished pool2); simpl; [| reflexivity].
    destruct (g_err s2); simpl; [reflexivity |].
    rewrite run_group_with_config.
    change (remaining (with_config (without_start_date cfg) E))
      with (remaining E).
    reflexivity.
Qed.

End Runs.

(** ** The pattern *)

Lemma append_cons c a b : String c a +:+ b = String c (a +:+ b).
Proof. reflexivity. Qed.

Lemma occurs_app c a b : occurs c (a +:+ b) = occurs c a || occurs c b.
Proof.
  induction a as [| c' a IH]; [reflexivity |].
  rewrite append_cons. cbn [occurs]. rewrite IH. apply orb_assoc.
Qed.

Lemma lit_prefix p s r : Regexp.lit p s = Some r → s = p +:+ r.
Proof.
  revert s. induction p as [| a p IH]; intros [| b s]; cbn [Regexp.lit];
    try discriminate.
  - intros [= <-]. reflexivity.
  - intros [= <-]. reflexivity.
  - destruct (Ascii.eqb_spec a b) as [<- |]; [| discriminate].
    intros H. rewrite (IH _ H). reflexivity.
Qed.

Lemma dot_plus_sound {A : Type} (k : string -> option A) s g a :
  Regexp.dot_plus k s = Some (g, a) →
  ∃ rest, s = g +:+ rest ∧ g ≠ "" ∧ occurs "010" g = false ∧ k rest = Some a.
Proof.
  revert g. induction s as [| c s IH]; intros g; cbn [Regexp.dot_plus];
    [discriminate |].
  unfold Regexp.is_newline. destruct (Ascii.eqb c "010") eqn:Hc; [discriminate |].
  destruct (Regexp.dot_plus k s) as [[g' a'] |].
  - intros [= <- <-]. destruct (IH g' eq_refl) as (rest & -> & Hg & Hnl & Hk).
    exists rest. cbn [occurs]. rewrite Hc, Hnl. done.
  - destruct (k s) as [a' |] eqn:Hk; [| discriminate].
    intros [= <- <-]. exists s. cbn [occurs]. rewrite Hc. done.
Qed.

Lemma dot_plus_longest {A : Type} (k : string -> option A) g rest a :
  g ≠ "" → occurs "010" g = false →
  k rest = Some a → Regexp.dot_plus k rest = None →
  Regexp.dot_plus k (g +:+ rest) = Some (g, a).
Proof.
  intros Hg Hnl Hk Hnone. induction g as [| c g IH]; [done |].
  cbn [occurs] in Hnl. apply orb_false_elim in Hnl as [Hc Hnl].
  rewrite append_cons. cbn [Regexp.dot_plus]. unfold Regexp.is_newline.
  rewrite Hc. destruct g as [| c' g].
  - change ("" +:+ rest) with rest. rewrite Hnone, Hk. reflexivity.
  - rewrite IH by done. reflexivity.
Qed.

Lemma FindStringSubmatch_exact alt url :
  alt ≠ "" → url ≠ "" →
  occurs "010" alt = false → occurs "010" url = false →
  occurs "]" url = false →
  Regexp.FindStringSubmatch ("![" +:+ alt +:+ "](" +:+ url +:+ ")")
  = [ "![" +:+ alt +:+ "](" +:+ url +:+ ")"; alt; url ].
Proof.
  intros Halt Hurl Hnla Hnlu Hbr.
  assert (H2 : Regexp.dot_plus (fun s4 => Regexp.lit ")" s4) (url +:+ ")")
               = Some (url, "")).
  { apply dot_plus_longest; done. }
  set (k1 := fun s2 : string =>
               match Regexp.lit "](" s2 with
               | None => None
               | Some s3 =>
                   match Regexp.dot_plus (fun s4 => Regexp.lit ")" s4) s3 with
                   | Some (url, _) => Some url
                   | None => None
                   end
               end).
  assert (Hk1 : k1 ("](" +:+ url +:+ ")") = Some url).
  { unfold k1.
    change (Regexp.lit "](" ("](" +:+ url +:+ ")")) with (Some (url +:+ ")")).
    cbv beta iota. rewrite H2. reflexivity. }
  assert (Hnone : Regexp.dot_plus k1 ("](" +:+ url +:+ ")") = None).
  { destruct (Regexp.dot_plus k1 ("](" +:+ url +:+ ")")) as [[g a] |] eqn:Hd;
      [| reflexivity].
    exfalso. apply dot_plus_sound in Hd as (rest & Heq & Hg & _ & Hk).
    unfold k1 in Hk. destruct (Regexp.lit "](" rest) as [r |] eqn:Hl; [| discriminate].
    apply lit_prefix in Hl. subst rest.
    destruct g as [| c g]; [done |].
    assert (Hno : occurs "]" ("(" +:+ url +:+ ")") = false)
      by (rewrite !occurs_app, Hbr; reflexivity).
    change ("](" +:+ url +:+ ")") with (String "]" ("(" +:+ url +:+ ")")) in Heq.
    change (String c g +:+ "](" +:+ r) with (String c (g +:+ "](" +:+ r)) in Heq.
    injection Heq as _ Heq. rewrite Heq, !occurs_app in Hno.
    change (occurs "]" "](") with true in Hno.
    rewrite orb_true_r in Hno. discriminate. }
  assert (Hm : Regexp.match_here ("![" +:+ alt +:+ "](" +:+ url +:+ ")")
               = Some (alt, url)).
  { unfold Regexp.match_here.
    change (Regexp.lit "![" ("![" +:+ alt +:+ "](" +:+ url +:+ ")"))
      with (Some (alt +:+ "](" +:+ url +:+ ")")).
    cbv beta iota. fold k1.
    rewrite (dot_plus_longest k1 alt _ url Halt Hnla Hk1 Hnone). reflexivity. }
  change ("![" +:+ alt +:+ "](" +:+ url +:+ ")")
    with (String "!" ("[" +:+ alt +:+ "](" +:+ url +:+ ")")) at 1.
  unfold Regexp.FindStringSubmatch; fold Regexp.FindStringSubmatch.
  change (String "!" ("[" +:+ alt +:+ "](" +:+ url +:+ ")"))
    with ("![" +:+ alt +:+ "](" +:+ url +:+ ")").
  rewrite Hm. reflexivity.
Qed.

Lemma match_here_sound s alt url :
  Regexp.match_here s = Some (alt, url) →
  alt ≠ "" ∧ url ≠ "" ∧ occurs "010" alt = false ∧ occurs "010" url = false ∧
  ∃ post, s = "![" +:+ alt +:+ "](" +:+ url +:+ ")" +:+ post.
Proof.
  unfold Regexp.match_here.
  destruct (Regexp.lit "![" s) as [s1 |] eqn:H1; [| discriminate].
  destruct (Regexp.dot_plus _ s1) as [[alt' url'] |] eqn:Hd; [| discriminate].
  intros [= -> ->].
  apply dot_plus_sound in Hd as (rest & -> & Halt & Hnla & Hk).
  destruct (Regexp.lit "](" rest) as [s3 |] eqn:H2; [| discriminate].
  destruct (Regexp.dot_plus _ s3) as [[url' post] |] eqn:Hd2; [| discriminate].
  injection Hk as ->.
  apply dot_plus_sound in Hd2 as (rest2 & -> & Hurl & Hnlu & H3).
  apply lit_prefix in H1, H2, H3. subst s rest rest2.
  repeat (split; [assumption |]). exists post. reflexivity.
Qed.

Lemma FindStringSubmatch_sound s whole alt url :
  Regexp.FindStringSubmatch s = [whole; alt; url] →
  whole = "![" +:+ alt +:+ "](" +:+ url +:+ ")" ∧
  alt ≠ "" ∧ url ≠ "" ∧ occurs "010" alt = false ∧ occurs "010" url = false ∧
  ∃ pre post, s = pre +:+ "![" +:+ alt +:+ "](" +:+ url +:+ ")" +:+ post.
Proof.
  induction s as [| c s IH].
  - cbv. discriminate.
  - unfold Regexp.FindStringSubmatch; fold Regexp.FindStringSubmatch.
    destruct (Regexp.match_here (String c s)) as [[alt' url'] |] eqn:Hm.
    + intros [= <- <- <-].
      apply match_here_sound in Hm as (Ha & Hu & Hna & Hnu & post & Hs).
      split; [reflexivity |]. repeat (split; [assumption |]).
      exists "", post. exact Hs.
    + intros H. destruct (IH H) as (Hw & Ha & Hu & Hna & Hnu & pre & post & ->).
      split; [exact Hw |]. repeat (split; [assumption |]).
      exists (String c pre), post. reflexivity.
Qed.

(** ** One relocation goroutine *)

Section RelocationTask.
Context (E : Env).

(** The pattern has two groups: a match has three parts and the first is
    the text the pattern matched. *)
Lemma FindStringSubmatch_shape s :
  Regexp.FindStringSubmatch s = [] ∨
  ∃ alt url,
    Regexp.FindStringSubmatch s = [ "![" +:+ alt +:+ "](" +:+ url +:+ ")"; alt; url ].
Proof.
  induction s as [| c s IH]; [left; reflexivity |].
  unfold Regexp.FindStringSubmatch; fold Regexp.FindStringSubmatch.
  destruct (Regexp.match_here (String c s)) as [[alt url] |];
    [right; eauto | exact IH].
Qed.

(** When the uploaded markup matches the pattern with groups [alt] and
    [url], the goroutine stores the rewritten markup under the identifier
    of the Jira attachment and returns nil. *)
Lemma relocate_task_stores cfg pid jiraAttachment s attachment whole alt url :
  convertJiraAttachmentToMarkdown E (trace s) pid jiraAttachment
  = inl attachment →
  Regexp.FindStringSubmatch (Markdown attachment) = [whole; alt; url] →
  run_task E (relocate_task cfg pid jiraAttachment) s
  = (store (jira.ID jiraAttachment) (relocated cfg attachment alt url)
       (log (EvUpload pid (jira.ID jiraAttachment) None) s),
     None).
Proof. intros Hup Hmatch. simpl. rewrite Hup, Hmatch. reflexivity. Qed.

(** X11: when the upload answers the plain markup [![alt](url)], with
    [alt] and [url] non-empty, on one line, and no closing bracket in
    [url], the groups of the pattern are [alt] and [url]: the goroutine
    returns nil and the map holds [![alt](host/project/url)], the uploaded
    name and creation time under the identifier of the Jira attachment. *)
Corollary relocated_plain_markup cfg pid jiraAttachment s attachment alt url :
  convertJiraAttachmentToMarkdown E (trace s) pid jiraAttachment
  = inl attachment →
  Markdown attachment = "![" +:+ alt +:+ "](" +:+ url +:+ ")" →
  alt ≠ "" → url ≠ "" →
  occurs "010" alt = false → occurs "010" url = false → occurs "]" url = false →
  let run := run_task E (relocate_task cfg pid jiraAttachment) s in
  run.2 = None ∧
  attachments run.1 !! jira.ID jiraAttachment
  = Some (relocated cfg attachment alt url).
Proof.
  intros Hup Hmd Halt Hurl Hna Hnu Hbr. simpl.
  rewrite Hup, Hmd, FindStringSubmatch_exact by assumption. simpl.
  split; [reflexivity | apply lookup_insert_eq].
Qed.

(** The test of line 64 fails exactly when the pattern matches. *)
Lemma three_matches_or_none s :
  length (Regexp.FindStringSubmatch s) ≠ 3%nat ↔ Regexp.FindStringSubmatch s = [].
Proof.
  destruct (FindStringSubmatch_shape s) as [-> | (alt & url & ->)]; simpl.
  - split; [reflexivity | discriminate].
  - split; [intros H; destruct H; reflexivity | discriminate].
Qed.

(** The other branch of line 64: markup the pattern does not match makes
    the goroutine return [errors.Wrap(nil, ...)], which is nil, and store
    nothing. *)
Lemma unmatched_markup_returns_nil cfg pid jiraAttachment s attachment :
  convertJiraAttachmentToMarkdown E (trace s) pid jiraAttachment
  = inl attachment →
  Regexp.FindStringSubmatch (Markdown attachment) = [] →
  run_task E (relocate_task cfg pid jiraAttachment) s
  = (log (EvUpload pid (jira.ID jiraAttachment) None) s, None).
Proof. intros Hup Hmatch. simpl. rewrite Hup, Hmatch. reflexivity. Qed.

End RelocationTask.

(** ** The relocated attachment at the barrier *)

Section Survives.
Context (E : Env) (cfg : config.Config) (pid : string).
Context (a : jira.Attachment) (attachment : Attachment) (whole alt url : string).
Hypothesis Hupload : ∀ tr, convertJiraAttachmentToMarkdown E tr pid a = inl attachment.
Hypothesis Hmatch :
  Regexp.FindStringSubmatch (Markdown attachment) = [whole; alt; url].

Let v := relocated cfg attachment alt url.

Lemma relocate_task_writes_only a' :
  (jira.ID a' = jira.ID a → a' = a) →
  writes_only E (jira.ID a) v (relocate_task cfg pid a').
Proof.
  intros Huniq tr. simpl.
  destruct (convertJiraAttachmentToMarkdown E tr pid a') as [att' | e] eqn:Hr;
    [| exact I].
  destruct (decide _); [exact I |]. simpl. split; [| exact I].
  intros Hid. specialize (Huniq Hid). subst a'.
  rewrite Hupload in Hr. injection Hr as <-. rewrite Hmatch. reflexivity.
Qed.

Lemma step_writes_only th s :
  thread_ok (writes_only E (jira.ID a) v) th →
  thread_ok (writes_only E (jira.ID a) v) (step_thread E th s).2 ∧
  (attachments s !! jira.ID a = Some v →
   attachments (step_thread E th s).1 !! jira.ID a = Some v).
Proof.
  destruct th as [t | r]; simpl; [| intros _; split; [exact I | auto]].
  destruct t as [r | pid' a' k | id v' k | gid eid body k | e k | k];
    simpl; intros H.
  1, 2, 4-6: split; [first [exact I | exact H | apply H] | auto].
  destruct H as [Hv Hk]. split; [exact Hk |]. intros Hs.
  destruct (decide (id = jira.ID a)) as [-> | Hne].
  - rewrite lookup_insert_eq, Hv by reflexivity. reflexivity.
  - rewrite lookup_insert_ne by exact Hne. exact Hs.
Qed.

Lemma step_on_its_way th s :
  on_its_way cfg pid a v (Some th) s →
  on_its_way cfg pid a v (Some (step_thread E th s).2) (step_thread E th s).1.
Proof.
  intros [[= ->] | [[= ->] | [[[= ->] | [= ->]] Hs]]]; simpl.
  - right. left. rewrite Hupload, Hmatch. reflexivity.
  - right. right. split; [left; reflexivity | apply lookup_insert_eq].
  - right. right. split; [right; reflexivity | exact Hs].
  - right. right. split; [right; reflexivity | exact Hs].
Qed.

(** The entry survives the phase: whatever the schedule, once every
    goroutine has returned the map holds the relocated attachment under
    the identifier of [a], provided no other attachment shares it. *)
Lemma relocated_markup_at_barrier sched (atts : list jira.Attachment) s :
  let run := run_group E sched (Running <$> (relocate_task cfg pid <$> atts)) s in
  a ∈ atts →
  (∀ a', a' ∈ atts → jira.ID a' = jira.ID a → a' = a) →
  all_finished run.1 = true →
  attachments run.2 !! jira.ID a = Some v.
Proof.
  intros run Hin Huniq Hfin. subst run.
  apply list_elem_of_lookup in Hin as [i Hi].
  cut (Forall (thread_ok (writes_only E (jira.ID a) v))
         (run_group E sched (Running <$> (relocate_task cfg pid <$> atts)) s).1 ∧
       on_its_way cfg pid a v
         ((run_group E sched (Running <$> (relocate_task cfg pid <$> atts)) s).1 !! i)
         (run_group E sched (Running <$> (relocate_task cfg pid <$> atts)) s).2).
  { intros [_ [H | [H | [_ H]]]]; [| | exact H];
      exfalso;
      apply (Forall_lookup_1 _ _ _ _
               (proj1 (forallb_True _ _) (Is_true_true_2 _ Hfin))) in H;
      exact H. }
  apply (run_group_ind E
           (fun p s' =>
              Forall (thread_ok (writes_only E (jira.ID a) v)) p ∧
              on_its_way cfg pid a v (p !! i) s')).
  - intros pool s' j th [Hsafe Hway] Hj _.
    pose proof (step_writes_only th s' (Forall_lookup_1 _ _ _ _ Hsafe Hj))
      as [Hth Hkeep].
    split; [apply Forall_insert; assumption |].
    destruct (decide (j = i)) as [-> | Hne].
    + rewrite list_lookup_insert_eq by (eapply lookup_lt_Some; eauto).
      rewrite Hj in Hway. apply step_on_its_way, Hway.
    + rewrite list_lookup_insert_ne by exact Hne.
      destruct Hway as [H | [H | [H Hs]]]; [left; exact H | right; left; exact H |].
      right. right. split; [exact H | apply Hkeep, Hs].
  - split.
    + apply Forall_fmap, Forall_fmap, Forall_forall. intros a' Ha'.
      apply relocate_task_writes_only. apply Huniq. exact Ha'.
    + left. rewrite !list_lookup_fmap, Hi. reflexivity.
Qed.
End Survives.

(** C5: when the upload of a Jira attachment answers markup that the
    pattern matches with groups [alt] and [url], its goroutine stores
    [![alt](host/project/url)] - host, staging project and [url] joined by
    ["/"] in that order - with the uploaded name and creation time under
    the identifier of the Jira attachment, and returns nil; and whatever
    the schedule, the entry is in the map when the phase reaches its
    barrier, provided no other attachment of the issue has the
    identifier. *)
Theorem relocated_markup_is_absolute (E : Env) cfg pid jiraAttachment
    attachment whole alt url :
  (∀ tr, convertJiraAttachmentToMarkdown E tr pid jiraAttachment
         = inl attachment) →
  Regexp.FindStringSubmatch (Markdown attachment) = [whole; alt; url] →
  let stored :=
    {| Markdown := "![" +:+ alt +:+ "](" +:+
                   (config.GitLab_Host cfg +:+ "/" +:+
                    config.Project_GitLab_Issue cfg +:+ "/" +:+ url) +:+ ")";
       Name := Name attachment;
       CreatedAt := CreatedAt attachment |} in
  (∀ s,
      let run := run_task E (relocate_task cfg pid jiraAttachment) s in
      run.2 = None ∧
      attachments run.1 = <[jira.ID jiraAttachment := stored]> (attachments s) ∧
      trace run.1 = trace s ++ [EvUpload pid (jira.ID jiraAttachment) None]) ∧
  (∀ sched (atts : list jira.Attachment) s,
      let run := run_group E sched
                   (Running <$> (relocate_task cfg pid <$> atts)) s in
      jiraAttachment ∈ atts →
      (∀ a', a' ∈ atts → jira.ID a' = jira.ID jiraAttachment →
             a' = jiraAttachment) →
      all_finished run.1 = true →
      attachments run.2 !! jira.ID jiraAttachment = Some stored).
Proof.
  intros Hup Hmatch stored. split.
  - intros s run. subst run.
    rewrite (relocate_task_stores E cfg pid jiraAttachment s attachment
               whole alt url (Hup _) Hmatch).
    repeat split; reflexivity.
  - intros sched atts s run Hin Huniq Hfin.
    exact (relocated_markup_at_barrier E cfg pid jiraAttachment attachment
             whole alt url Hup Hmatch sched atts s Hin Huniq Hfin).
Qed.

(** ** Schedules that reach the barrier *)

Section Progress.
Context (E : Env).

Lemma run_group_app sched sched' pool s :
  run_group E (sched ++ sched') pool s
  = run_group E sched' (run_group E sched pool s).1 (run_group E sched pool s).2.
Proof.
  unfold run_group. rewrite foldl_app.
  destruct (foldl (sched_step E) (pool, s) sched). reflexivity.
Qed.

Lemma run_group_cons i sched pool s :
  run_group E (i :: sched) pool s
  = run_group E sched (sched_step E (pool, s) i).1 (sched_step E (pool, s) i).2.
Proof.
  unfold run_group. cbn [foldl].
  destruct (sched_step E (pool, s) i). reflexivity.
Qed.

Lemma finished_stays m i pool s r :
  pool !! i = Some (Finished r) →
  run_group E (replicate m i) pool s = (pool, s).
Proof.
  intros Hi. induction m as [| m IH]; [reflexivity |].
  simpl. rewrite run_group_cons. simpl. rewrite Hi.
  destruct (admitted pool i); simpl; [| exact IH].
  rewrite list_insert_id by exact Hi. exact IH.
Qed.

Lemma admitted_insert pool i th :
  admitted (<[i := th]> pool) i = admitted pool i.
Proof. unfold admitted. rewrite take_insert_ge by lia. reflexivity. Qed.

(** Given its instants in a row, a goroutine runs to its return. *)
Lemma runs_to_return n : ∀ t pool s i,
  bounded n t →
  pool !! i = Some (Running t) →
  admitted pool i = true →
  ∃ r s', run_group E (replicate (S n) i) pool s = (<[i := Finished r]> pool, s').
Proof.
  induction n as [| n IH]; intros t pool s i Hb Hi Ha.
  - destruct t; simpl in Hb; try contradiction.
    exists r, (record_err r s). simpl. rewrite run_group_cons. simpl.
    rewrite Hi, Ha. reflexivity.
  - change (replicate (S (S n)) i) with (i :: replicate (S n) i).
    rewrite run_group_cons. simpl. rewrite Hi, Ha.
    destruct t as [r | pid a k | id a k | gid eid body k | e k | k];
      simpl in Hb |- *.
    1:{ exists r, (record_err r s).
        apply (finished_stays (S n) i _ _ r).
        apply list_lookup_insert_eq. eapply lookup_lt_Some; eauto. }
    all: match goal with
         | |- context [<[?j := Running ?t']> ?p] =>
             edestruct (IH t' (<[j := Running t']> p)) as (r & s' & Hrun);
               [first [apply Hb | exact Hb]
               | apply list_lookup_insert_eq; eapply lookup_lt_Some; eauto
               | rewrite admitted_insert; exact Ha
               | exists r, s'; rewrite Hrun, list_insert_insert_eq; reflexivity]
         end.
Qed.

Lemma absent_stays m i pool s :
  pool !! i = None → run_group E (replicate m i) pool s = (pool, s).
Proof.
  intros Hi. induction m as [| m IH]; [reflexivity |].
  simpl. rewrite run_group_cons. simpl. rewrite Hi. exact IH.
Qed.

Lemma none_running (l : list Thread) :
  Forall (fun th => running th = false) l →
  filter (fun th => running th = true) l = [].
Proof.
  induction 1 as [| th l Hth _ IH]; [reflexivity |].
  rewrite filter_cons_False by (rewrite Hth; discriminate). exact IH.
Qed.

Lemma served_admitted i pool : served i pool → admitted pool i = true.
Proof.
  intros H. unfold admitted. apply bool_decide_eq_true.
  rewrite none_running; [simpl; unfold limit; lia |].
  apply Forall_lookup_2. intros j th Hj.
  apply lookup_take_Some in Hj as [Hj Hlt]. apply (H j th Hj). exact Hlt.
Qed.

Lemma serve_one i pool s :
  served i pool →
  served (S i) (run_group E (replicate 4 i) pool s).1.
Proof.
  intros H. destruct (pool !! i) as [[t | r] |] eqn:Hi.
  - destruct (runs_to_return 3 t pool s i) as (r & s' & ->);
      [apply (H i _ Hi); lia | exact Hi | apply served_admitted, H |].
    simpl. intros j th Hj.
    destruct (decide (i = j)) as [<- | Hne].
    + rewrite list_lookup_insert_eq in Hj by (eapply lookup_lt_Some; eauto).
      injection Hj as <-. split; [reflexivity | intros _; exact I].
    + rewrite list_lookup_insert_ne in Hj by exact Hne.
      destruct (H j th Hj) as [H1 H2]. split; intros ?; [apply H1 | apply H2]; lia.
  - rewrite (finished_stays 4 i pool s r Hi). simpl. intros j th Hj.
    destruct (H j th Hj) as [H1 H2]. split; [| intros ?; apply H2; lia].
    intros Hlt. destruct (decide (i = j)) as [<- | Hne].
    + rewrite Hi in Hj. injection Hj as <-. reflexivity.
    + apply H1. lia.
  - rewrite (absent_stays 4 i pool s Hi). simpl. intros j th Hj.
    destruct (H j th Hj) as [H1 H2]. split; [| intros ?; apply H2; lia].
    intros Hlt. destruct (decide (i = j)) as [<- | Hne]; [congruence |].
    apply H1. lia.
Qed.

Lemma serve_all k : ∀ i pool s,
  served i pool →
  served (i + k)
    (run_group E (flat_map (fun i => replicate 4 i) (seq i k)) pool s).1.
Proof.
  induction k as [| k IH]; intros i pool s H.
  - simpl. rewrite Nat.add_0_r. exact H.
  - cbn [seq flat_map]. rewrite run_group_app.
    replace (i + S k)%nat with (S i + k)%nat by lia.
    apply IH, serve_one, H.
Qed.

(** The sequential schedule brings every goroutine of a phase to its
    return: [g.Wait] returns. *)
Lemma sequential_completes tasks n s :
  Forall (bounded 3) tasks →
  (length tasks ≤ n)%nat →
  all_finished (run_group E (sequential n) (Running <$> tasks) s).1 = true.
Proof.
  intros Hb Hn.
  assert (H0 : served 0 (Running <$> tasks)).
  { intros j th Hj. split; [lia | intros _].
    apply list_lookup_fmap_Some in Hj as (t & -> & Ht).
    exact (Forall_lookup_1 _ _ _ _ Hb Ht). }
  pose proof (serve_all n 0 _ s H0) as H. simpl in H. fold (sequential n) in H.
  pose proof (run_group_length E (sequential n) (Running <$> tasks) s) as Hlen.
  rewrite length_fmap in Hlen.
  apply Is_true_true, forallb_True, Forall_lookup_2. intros j th Hj.
  apply Is_true_true. apply negb_true_iff. apply (H j th Hj).
  apply lookup_lt_Some in Hj. lia.
Qed.

Lemma relocate_task_bounded cfg pid a : bounded 3 (relocate_task cfg pid a).
Proof.
  simpl. intros [att | e]; simpl; [| exact I].
  destruct (decide _); simpl; exact I.
Qed.

Lemma comment_task_bounded gid gitlabEpic jiraIssue userMap m c :
  bounded 3 (comment_task E gid gitlabEpic jiraIssue userMap m c).
Proof.
  unfold comment_task. destruct (formatNote _ _ _ _ _ _); simpl; [| exact I].
  intros r. exact I.
Qed.

Lemma orphan_task_bounded gid gitlabEpic a :
  bounded 3 (orphan_task gid gitlabEpic a).
Proof. simpl. intros r e. exact I. Qed.

Lemma tasks_bounded {A : Type} (f : A -> Task) (l : list A) :
  (∀ a, bounded 3 (f a)) → Forall (bounded 3) (f <$> l).
Proof. intros H. apply Forall_fmap, Forall_true. exact H. Qed.

(** Under the sequential schedules no barrier blocks, whatever the remote
    systems answer: the hypothesis that a call returns, which the
    statements about whole runs make, can be met.  An issue here has all
    its fields, and a remote call that succeeds gives a value; a nil
    pointer, on which the Go code panics, has no counterpart. *)
Lemma conversion_returns jiraIssue userMap tr0 :
  let sched1 := sequential (length (jira.Attachments jiraIssue)) in
  let sched2 := sequential (length (jira.Comments jiraIssue)) in
  let relocated := attachments (relocation_phase E sched1 jiraIssue tr0).2 in
  let sched3 := sequential (length (range_attachments E relocated)) in
  ∃ r, (ConvertJiraIssueToGitLabEpic E sched1 sched2 sched3 jiraIssue
          userMap tr0).1 = Return r.
Proof.
  intros sched1 sched2 relocated sched3. subst relocated.
  unfold ConvertJiraIssueToGitLabEpic, convert, relocation_phase,
    relocation_start in *.
  unfold_M. simpl in *.
  destruct (GetConfig E) as [cfg | e0]; simpl in *; [| eauto].
  destruct (convertJiraToGitLabLabels E tr0 _ jiraIssue true) as [labels | e0];
    simpl in *; [| eauto].
  match goal with
  | |- context [run_group E sched1 ?p ?s] =>
      pose proof (sequential_completes
                    (relocate_task cfg (config.Project_GitLab_Issue cfg)
                       <$> jira.Attachments jiraIssue)
                    (length (jira.Attachments jiraIssue)) s
                    (tasks_bounded _ _ (relocate_task_bounded cfg _))
                    ltac:(rewrite length_fmap; lia)) as Hfin1;
      fold sched1 in Hfin1;
      pose proof (run_group_usedAttachment E sched1 p s) as Hu1;
      destruct (run_group E sched1 p s) as [pool1 s1]
  end.
  simpl in *. rewrite Hfin1. simpl.
  destruct (g_err s1); simpl; [eauto |].
  destruct (formatDescription E jiraIssue userMap (attachments s1) true)
    as [description | e1]; simpl; [| eauto].
  match goal with
  | |- context [start_date E cfg jiraIssue ?o ?s] =>
      destruct (start_date_cases E cfg jiraIssue o s) as [[opt ->] | [e1 ->]]
  end; simpl; [| eauto].
  destruct (CreateEpic E _ _ (due_date jiraIssue opt)) as [ep | e1];
    simpl; [| eauto].
  match goal with
  | |- context [run_group E sched2 ?p ?s] =>
      pose proof (sequential_completes
                    (comment_task E (config.Project_GitLab_Epic cfg) ep
                       jiraIssue userMap (attachments s1)
                       <$> jira.Comments jiraIssue)
                    (length (jira.Comments jiraIssue)) s
                    (tasks_bounded _ _
                       (comment_task_bounded _ ep jiraIssue userMap _))
                    ltac:(rewrite length_fmap; lia)) as Hfin2;
      fold sched2 in Hfin2;
      pose proof (run_group_usedAttachment E sched2 p s) as Hu2;
      pose proof (run_group_no_store E sched2 p s
                    (pool_of_ok _ _ _
                       (comment_task_no_store E _ ep jiraIssue userMap _)))
        as Ha2;
      destruct (run_group E sched2 p s) as [pool2 s2]
  end.
  simpl in *. rewrite Hfin2. simpl.
  destruct (g_err s2); simpl; [eauto |].
  rewrite Hu2, Hu1, Ha2, remaining_all.
  match goal with
  | |- context [run_group E sched3 ?p ?s] =>
      pose proof (sequential_completes
                    (orphan_task (config.Project_GitLab_Epic cfg) ep
                       <$> (snd <$> range_attachments E (attachments s1)))
                    (length (range_attachments E (attachments s1))) s
                    (tasks_bounded _ _ (orphan_task_bounded _ ep))
                    ltac:(rewrite !length_fmap; lia)) as Hfin3;
      fold sched3 in Hfin3;
      destruct (run_group E sched3 p s) as [pool3 s3]
  end.
  simpl in *. rewrite Hfin3. simpl.
  destruct (g_err s3); simpl; [eauto |].
  destruct (jira.Resolution jiraIssue); simpl; eauto.
Qed.

End Progress.

(** ** The cached Jira client *)

Section CachedClient.
Context {Client User : Type}.
Context (NewClient : string -> string -> result Client).
Context (GetSelf : list Client -> Client -> result User).

Lemma GetJiraClient_caches jiraConfig p client p' :
  config.GetJiraClient NewClient GetSelf jiraConfig p
  = (config.Returned client, p') →
  config.jiraClient p' = Some client.
Proof.
  unfold config.GetJiraClient.
  destruct (config.jiraClient p) as [cached |] eqn:Hp.
  - intros [= <- <-]. exact Hp.
  - destruct (NewClient _ _) as [c | e]; [| discriminate].
    destruct (GetSelf _ c); [| discriminate].
    intros [= <- <-]. reflexivity.
Qed.

(** C10: once a call has returned a client, every later call returns
    that client, whatever configuration it is given, without creating a
    client or sending a request. *)
Theorem GetJiraClient_idempotent jiraConfig p client p' :
  config.GetJiraClient NewClient GetSelf jiraConfig p
  = (config.Returned client, p') →
  (∀ jiraConfig',
      config.GetJiraClient NewClient GetSelf jiraConfig' p'
      = (config.Returned client, p')) ∧
  (∀ configs,
      config.calls NewClient GetSelf configs p'
      = (config.Returned (Client := Client) <$> (const client <$> configs),
         p')).
Proof.
  intros H%GetJiraClient_caches.
  assert (Hone : ∀ jiraConfig',
             config.GetJiraClient NewClient GetSelf jiraConfig' p'
             = (config.Returned client, p'))
    by (intros jiraConfig'; unfold config.GetJiraClient; rewrite H;
        reflexivity).
  split; [exact Hone |]. intros configs.
  induction configs as [| jiraConfig' configs IH]; [reflexivity |].
  simpl. rewrite Hone, IH. reflexivity.
Qed.

End CachedClient.

(** ** The ways through the function *)

(** Every call takes one of the ways. *)
Lemma convert_story E sched1 sched2 sched3 jiraIssue userMap tr0 :
  let run := ConvertJiraIssueToGitLabEpic E sched1 sched2 sched3 jiraIssue
               userMap tr0 in
  run_story E sched1 sched2 sched3 jiraIssue userMap tr0 run.1 run.2.
Proof.
  intros run. subst run.
  destruct (GetConfig E) as [cfg | e0] eqn:Hcfg.
  2:{ unfold ConvertJiraIssueToGitLabEpic, convert. unfold_M. rewrite Hcfg.
      simpl. apply story_config. exact Hcfg. }
  destruct (convertJiraToGitLabLabels E tr0 (config.Project_GitLab_Epic cfg)
              jiraIssue true) as [labels | e0] eqn:Hlab.
  2:{ unfold ConvertJiraIssueToGitLabEpic, convert. unfold_M. rewrite Hcfg.
      simpl. rewrite Hlab. simpl. eapply story_labels; eassumption. }
  assert (HR : relocation_phase E sched1 jiraIssue tr0
               = run_group E sched1
                   (Running <$> (relocate_task cfg (config.Project_GitLab_Issue cfg)
                                   <$> jira.Attachments jiraIssue))
                   (log (EvConvertLabels (config.Project_GitLab_Epic cfg)
                           (jira.Key jiraIssue) None) (init_state tr0)))
    by (unfold relocation_phase; rewrite Hcfg, Hlab; reflexivity).
  unfold ConvertJiraIssueToGitLabEpic, convert. unfold_M. rewrite Hcfg.
  simpl. rewrite Hlab. simpl. rewrite <- HR.
  destruct (relocation_phase E sched1 jiraIssue tr0) as [pool1 s1] eqn:HR1.
  destruct (all_finished pool1) eqn:Hf1; simpl.
  2:{ eapply story_relocating; try eassumption; rewrite HR1; simpl;
        [reflexivity | left; split; [exact Hf1 | reflexivity]]. }
  destruct (g_err s1) as [e1 |] eqn:Hg1; simpl.
  { eapply story_relocating; try eassumption; rewrite HR1; simpl;
      [reflexivity | right; split; [exact Hf1 | eauto]]. }
  destruct (formatDescription E jiraIssue userMap (attachments s1) true)
    as [description | e1] eqn:Hdesc; simpl.
  2:{ eapply story_building; try eassumption; rewrite HR1; simpl;
        try assumption; [reflexivity | left; eauto]. }
  destruct (start_date_cases E cfg jiraIssue
              (with_description description (initial_options E jiraIssue labels))
              s1) as [[o' Hsd] | [e1 Hsd]]; rewrite Hsd; simpl.
  2:{ eapply story_building; try eassumption; rewrite HR1; simpl;
        try assumption; [reflexivity | right; eauto 6]. }
  eapply (story_creating E sched1 sched2 sched3 jiraIssue userMap tr0 cfg labels
            description o' (due_date jiraIssue o'));
    try eassumption; try reflexivity; rewrite ?HR1; simpl; try assumption.
  destruct (CreateEpic E (trace s1) _ (due_date jiraIssue o'))
    as [gitlabEpic | e1] eqn:Hcr; simpl.
  2:{ left. eauto. }
  right. exists gitlabEpic. split; [reflexivity |].
  unfold comments_phase, created_state. simpl.
  destruct (run_group E sched2 _ _) as [pool2 s2] eqn:HC. simpl.
  destruct (all_finished pool2) eqn:Hf2; simpl; [| left; auto].
  right. split; [reflexivity |].
  destruct (g_err s2) as [e2 |] eqn:Hg2; simpl; [left; eauto |].
  right. split; [reflexivity |].
  unfold orphans_phase.
  destruct (run_group E sched3 _ _) as [pool3 s3] eqn:HO. simpl.
  destruct (all_finished pool3) eqn:Hf3; simpl; [| left; auto].
  right. split; [reflexivity |].
  destruct (g_err s3) as [e3 |] eqn:Hg3; simpl; [left; eauto |].
  right. split; [reflexivity |].
  unfold closed_state. destruct (jira.Resolution jiraIssue); simpl; auto.
Qed.

(** ** Errors of a phase *)

Section Origin.
Context (E : Env).

Lemma step_thread_carried th s e :
  carried th = Some e → carried (step_thread E th s).2 = Some e.
Proof. destruct th as [[] | r]; simpl; done. Qed.

Lemma step_thread_g_err th s :
  g_err (step_thread E th s).1 = g_err s ∨
  g_err s = None ∧ g_err (step_thread E th s).1 = carried (step_thread E th s).2.
Proof.
  destruct th as [[] | r]; simpl; auto.
  destruct (g_err s); auto.
Qed.

(** The error a group keeps is the error one of its goroutines returned. *)
Lemma run_group_error_origin sched pool s e :
  g_err s = None →
  g_err (run_group E sched pool s).2 = Some e →
  ∃ j th, (run_group E sched pool s).1 !! j = Some th ∧ carried th = Some e.
Proof.
  intros H0.
  apply (run_group_ind E
           (fun p s' => g_err s' = Some e →
                        ∃ j th, p !! j = Some th ∧ carried th = Some e));
    [| congruence].
  clear. intros pool s i th HI Hi _ He.
  assert (Hlt : (i < length pool)%nat) by (eapply lookup_lt_Some; eauto).
  destruct (step_thread_g_err th s) as [Heq | [_ Heq]]; rewrite Heq in He.
  - destruct (HI He) as (j & thj & Hj & Hc).
    destruct (decide (i = j)) as [-> | Hne].
    + exists j, (step_thread E th s).2.
      rewrite list_lookup_insert_eq by done. split; [reflexivity |].
      apply step_thread_carried. congruence.
    + exists j, thj. rewrite list_lookup_insert_ne by done. done.
  - exists i, (step_thread E th s).2.
    rewrite list_lookup_insert_eq by done. done.
Qed.

Lemma carried_finished pool :
  all_finished pool = true →
  ∀ j th, pool !! j = Some th → th = Finished (carried th).
Proof.
  intros Hf. induction pool as [| th0 pool IH]; intros j th Hj;
    [rewrite lookup_nil in Hj; discriminate |].
  simpl in Hf. apply andb_prop in Hf as [H0 Hf].
  destruct j as [| j]; simpl in Hj.
  - injection Hj as <-. destruct th0; [discriminate | reflexivity].
  - exact (IH Hf j th Hj).
Qed.

End Origin.

(** ** The relocation phase, call by call *)

Section Relocation.
Context (E : Env) (cfg : config.Config) (pid : string).
Context (atts : list jira.Attachment).

Lemma step_relocation th s :
  relocation_thread E cfg pid atts th →
  relocation_thread E cfg pid atts (step_thread E th s).2 ∧
  pending_upload (step_thread E th s).2 = None ∧
  (∀ id v, attachments (step_thread E th s).1 !! id = Some v →
           attachments s !! id = Some v ∨ provenance E cfg pid atts id v) ∧
  ∃ d, trace (step_thread E th s).1 = trace s ++ d ∧
       Forall (upload_to pid) d ∧
       omap upload_id d = option_list (pending_upload th) ∧
       ((fun e =>
           ErrWrap e "Error converting Jira attachment to GitLab attachment")
          <$> omap answer d) ++ option_list (carried th)
       = option_list (carried (step_thread E th s).2).
Proof.
  intros [a Ha | id v Hv | r | r].
  - cbn [relocate_task step_thread step_task fst snd].
    destruct (convertJiraAttachmentToMarkdown E (trace s) pid a)
      as [attachment | e] eqn:Hup.
    + cbn [err_of].
      destruct (decide (length (Regexp.FindStringSubmatch
                                  (Markdown attachment)) ≠ 3%nat))
        as [Hn | Hn].
      * split; [constructor |]. split; [reflexivity |].
        split; [intros id v Hv; left; exact Hv |].
        eexists [_]. split; [reflexivity |].
        split; [repeat constructor; eexists _, _; reflexivity |].
        split; reflexivity.
      * destruct (Regexp.FindStringSubmatch (Markdown attachment))
          as [| whole [| alt [| url [| ? ?]]]] eqn:Hm; simpl in Hn;
          try (exfalso; apply Hn; discriminate).
        assert (Hp : provenance E cfg pid atts (jira.ID a)
                       (relocated cfg attachment alt url))
          by (exists a, (trace s), attachment, whole, alt, url; done).
        split; [apply rt_store; exact Hp |]. split; [reflexivity |].
        split; [intros id v Hv; left; exact Hv |].
        eexists [_]. split; [reflexivity |].
        split; [repeat constructor; eexists _, _; reflexivity |].
        split; reflexivity.
    + split; [constructor |]. split; [reflexivity |].
      split; [intros id v Hv; left; exact Hv |].
      eexists [_]. split; [reflexivity |].
      split; [repeat constructor; eexists _, _; reflexivity |].
      split; reflexivity.
  - simpl. split; [constructor |]. split; [reflexivity |].
    split.
    { intros id' v' H. destruct (decide (id = id')) as [<- | Hne].
      - rewrite lookup_insert_eq in H. injection H as <-. right. exact Hv.
      - rewrite lookup_insert_ne in H by done. left. exact H. }
    exists []. rewrite app_nil_r. repeat split; constructor.
  - simpl. split; [constructor |]. split; [reflexivity |].
    split; [intros id v Hv; left; exact Hv |].
    exists []. rewrite app_nil_r. repeat split; constructor.
  - simpl. split; [constructor |]. split; [reflexivity |].
    split; [intros id v Hv; left; exact Hv |].
    exists []. rewrite app_nil_r. repeat split; constructor.
Qed.

(** Under every schedule: one upload per goroutine moved, to the project
    [pid]; as many errors carried as uploads refused; and nothing in the
    map but what an accepted upload gave. *)
Lemma run_group_relocation sched s :
  let run := run_group E sched (Running <$> (relocate_task cfg pid <$> atts)) s in
  (∀ id v, attachments run.2 !! id = Some v →
           attachments s !! id = Some v ∨ provenance E cfg pid atts id v) ∧
  ∃ d, trace run.2 = trace s ++ d ∧
       Forall (upload_to pid) d ∧
       omap upload_id d ++ omap pending_upload run.1 ≡ₚ jira.ID <$> atts ∧
       (fun e =>
          ErrWrap e "Error converting Jira attachment to GitLab attachment")
         <$> omap answer d
       ≡ₚ omap carried run.1.
Proof.
  intros run. subst run.
  cut (Forall (relocation_thread E cfg pid atts)
         (run_group E sched (Running <$> (relocate_task cfg pid <$> atts)) s).1 ∧
       (∀ id v,
           attachments
             (run_group E sched (Running <$> (relocate_task cfg pid <$> atts)) s).2
             !! id = Some v →
           attachments s !! id = Some v ∨ provenance E cfg pid atts id v) ∧
       ∃ d, trace
              (run_group E sched (Running <$> (relocate_task cfg pid <$> atts)) s).2
            = trace s ++ d ∧
            Forall (upload_to pid) d ∧
            omap upload_id d ++
            omap pending_upload
              (run_group E sched (Running <$> (relocate_task cfg pid <$> atts)) s).1
            ≡ₚ jira.ID <$> atts ∧
            (fun e =>
               ErrWrap e
                 "Error converting Jira attachment to GitLab attachment")
              <$> omap answer d
            ≡ₚ omap carried
                 (run_group E sched (Running <$> (relocate_task cfg pid <$> atts)) s).1);
    [tauto |].
  apply (run_group_ind E
           (fun p s' =>
              Forall (relocation_thread E cfg pid atts) p ∧
              (∀ id v, attachments s' !! id = Some v →
                       attachments s !! id = Some v ∨
                       provenance E cfg pid atts id v) ∧
              ∃ d, trace s' = trace s ++ d ∧
                   Forall (upload_to pid) d ∧
                   omap upload_id d ++ omap pending_upload p ≡ₚ jira.ID <$> atts ∧
                   (fun e =>
                      ErrWrap e
                        "Error converting Jira attachment to GitLab attachment")
                     <$> omap answer d
                   ≡ₚ omap carried p)).
  - intros pool s' i th (Hp & Hmap & d & Hd & Hup & Hids & Herr) Hi _.
    destruct (step_relocation th s' (Forall_lookup_1 _ _ _ _ Hp Hi))
      as (Hth & Hnone & Hmap' & dd & Hdd & Hupd & Hidd & Herrd).
    split; [apply Forall_insert; assumption |].
    split.
    { intros id v Hv. destruct (Hmap' id v Hv) as [H | H]; [auto | right; exact H]. }
    exists (d ++ dd). rewrite Hdd, Hd, app_assoc. split; [reflexivity |].
    split; [apply Forall_app; split; assumption |].
    split.
    + rewrite omap_app, Hidd, <- app_assoc.
      rewrite (Permutation_app_comm (option_list (pending_upload th))).
      rewrite (omap_insert_perm pending_upload pool i th _ Hi).
      rewrite Hnone. simpl. rewrite app_nil_r. exact Hids.
    + apply (Permutation_app_inv_r (option_list (carried th))).
      rewrite (omap_insert_perm carried pool i th _ Hi).
      rewrite <- Herrd, omap_app, fmap_app, <- app_assoc.
      apply Permutation_app; [exact Herr | reflexivity].
  - split; [| split].
    + apply Forall_fmap, Forall_fmap. apply Forall_forall.
      intros a Ha. simpl. apply (rt_call E cfg pid atts a Ha).
    + auto.
    + exists []. rewrite app_nil_r. split; [reflexivity |].
      split; [constructor |]. simpl. split.
      * clear. induction atts as [| a l IH]; simpl; [reflexivity |].
        constructor. exact IH.
      * clear. induction atts as [| a l IH]; simpl; [reflexivity |]. exact IH.
Qed.

End Relocation.

(** ** The comment phase, call by call *)

Section Comments.
Context (E : Env) (gid : string) (gitlabEpic : gitlab.Epic).
Context (jiraIssue : jira.Issue) (userMap : UserMap).
Context (m : gmap string Attachment).

Lemma step_comment th s :
  comment_thread gid (gitlab.ID gitlabEpic) th →
  comment_thread gid (gitlab.ID gitlabEpic) (step_thread E th s).2 ∧
  pending_body (step_thread E th s).2 = None ∧
  attachments (step_thread E th s).1 = attachments s ∧
  err (step_thread E th s).1 = err s ∧
  ∃ d, trace (step_thread E th s).1 = trace s ++ d ∧
       Forall (note_on gid gitlabEpic) d ∧
       body_of <$> d = option_list (pending_body th) ∧
       ((fun e => ErrWrap e "Error creating note") <$> omap answer d) ++
       option_list (carried th)
       = option_list (carried (step_thread E th s).2).
Proof.
  intros [body | r | r]; simpl;
    (split; [constructor |]); (split; [reflexivity |]);
    (split; [reflexivity |]); (split; [reflexivity |]);
    try (exists []; rewrite app_nil_r; repeat split; constructor).
  eexists [_]. split; [reflexivity |].
  split; [repeat constructor; eexists _, _; reflexivity |].
  split; [reflexivity |]. simpl.
  destruct (CreateEpicNote E (trace s) gid (gitlab.ID gitlabEpic) body);
    reflexivity.
Qed.

(** Under every schedule: one note per goroutine moved whose comment
    could be formatted, and as many errors carried as comments not
    formatted and notes refused. *)
Lemma run_group_comments sched (comments : list jira.Comment) s :
  let run := run_group E sched
               (Running <$> (comment_task E gid gitlabEpic jiraIssue userMap m
                               <$> comments)) s in
  attachments run.2 = attachments s ∧
  err run.2 = err s ∧
  ∃ d, trace run.2 = trace s ++ d ∧
       Forall (note_on gid gitlabEpic) d ∧
       (body_of <$> d) ++ omap pending_body run.1
       ≡ₚ omap
            (fun c =>
               val_of (formatNote E (jira.Key jiraIssue) c userMap m true))
            comments ∧
       omap carried run.1
       ≡ₚ ((fun e => ErrWrap e "Error formatting comment")
             <$> omap
                   (fun c =>
                      err_of (formatNote E (jira.Key jiraIssue) c userMap m true))
                   comments) ++
          ((fun e => ErrWrap e "Error creating note") <$> omap answer d).
Proof.
  intros run. subst run.
  set (pool0 := Running <$> (comment_task E gid gitlabEpic jiraIssue userMap m
                               <$> comments)).
  cut (Forall (comment_thread gid (gitlab.ID gitlabEpic))
         (run_group E sched pool0 s).1 ∧
       attachments (run_group E sched pool0 s).2 = attachments s ∧
       err (run_group E sched pool0 s).2 = err s ∧
       ∃ d, trace (run_group E sched pool0 s).2 = trace s ++ d ∧
            Forall (note_on gid gitlabEpic) d ∧
            (body_of <$> d) ++ omap pending_body (run_group E sched pool0 s).1
            ≡ₚ omap
                 (fun c =>
                    val_of (formatNote E (jira.Key jiraIssue) c userMap m true))
                 comments ∧
            omap carried (run_group E sched pool0 s).1
            ≡ₚ ((fun e => ErrWrap e "Error formatting comment")
                  <$> omap
                        (fun c =>
                           err_of (formatNote E (jira.Key jiraIssue) c userMap m true))
                        comments) ++
               ((fun e => ErrWrap e "Error creating note") <$> omap answer d));
    [tauto |].
  apply (run_group_ind E
           (fun p s' =>
              Forall (comment_thread gid (gitlab.ID gitlabEpic)) p ∧
              attachments s' = attachments s ∧
              err s' = err s ∧
              ∃ d, trace s' = trace s ++ d ∧
                   Forall (note_on gid gitlabEpic) d ∧
                   (body_of <$> d) ++ omap pending_body p
                   ≡ₚ omap
                        (fun c =>
                           val_of (formatNote E (jira.Key jiraIssue) c userMap m true))
                        comments ∧
                   omap carried p
                   ≡ₚ ((fun e => ErrWrap e "Error formatting comment")
                         <$> omap
                               (fun c =>
                                  err_of (formatNote E (jira.Key jiraIssue) c userMap m true))
                               comments) ++
                      ((fun e => ErrWrap e "Error creating note")
                         <$> omap answer d))).
  - intros pool s' i th (Hp & Hatt & Herr & d & Hd & Hon & Hb & Hc) Hi _.
    destruct (step_comment th s' (Forall_lookup_1 _ _ _ _ Hp Hi))
      as (Hth & Hnone & Hatt' & Herr' & dd & Hdd & Hond & Hbd & Hcd).
    split; [apply Forall_insert; assumption |].
    split; [congruence |]. split; [congruence |].
    exists (d ++ dd). rewrite Hdd, Hd, app_assoc. split; [reflexivity |].
    split; [apply Forall_app; split; assumption |].
    split.
    + rewrite fmap_app, Hbd, <- app_assoc.
      rewrite (Permutation_app_comm (option_list (pending_body th))).
      rewrite (omap_insert_perm pending_body pool i th _ Hi).
      rewrite Hnone. simpl. rewrite app_nil_r. exact Hb.
    + apply (Permutation_app_inv_r (option_list (carried th))).
      rewrite (omap_insert_perm carried pool i th _ Hi).
      rewrite <- Hcd, omap_app, fmap_app, <- !app_assoc.
      rewrite Hc, <- app_assoc. reflexivity.
  - split; [| split; [reflexivity | split; [reflexivity |]]].
    + subst pool0. apply Forall_fmap, Forall_fmap, Forall_true. intros c.
      simpl. unfold comment_task.
      destruct (formatNote _ _ _ _ _ _); constructor.
    + exists []. rewrite app_nil_r. split; [reflexivity |].
      split; [constructor |]. simpl. rewrite app_nil_r. subst pool0.
      split.
      * clear. induction comments as [| c l IH]; simpl; [reflexivity |].
        unfold comment_task at 1.
        destruct (formatNote _ _ _ _ _ _); simpl; [constructor |]; exact IH.
      * clear. induction comments as [| c l IH]; simpl; [reflexivity |].
        unfold comment_task at 1.
        destruct (formatNote _ _ _ _ _ _); simpl; [| constructor]; exact IH.
Qed.

End Comments.

(** ** The last phase: where its errors come from *)

Section OrphanErrors.
Context (E : Env).

Lemma answered_app d d' e : answered d e → answered (d ++ d') e.
Proof. intros (ev & Hin & Ha). exists ev. rewrite elem_of_app. auto. Qed.

Lemma orphan_holds_app d d' th : orphan_holds d th → orphan_holds (d ++ d') th.
Proof.
  destruct th as [[[e |] | | | | [e |] k |] | [e |]]; simpl; try done.
  - intros (e' & -> & H). eauto using answered_app.
  - apply answered_app.
  - intros (e' & -> & H). eauto using answered_app.
Qed.

Lemma step_orphan_holds th s d0 :
  orphan_thread th → orphan_holds d0 th →
  (∀ e, err s = Some e → answered d0 e) →
  ∃ d, trace (step_thread E th s).1 = trace s ++ d ∧
       orphan_holds (d0 ++ d) (step_thread E th s).2 ∧
       (∀ e, err (step_thread E th s).1 = Some e → answered (d0 ++ d) e).
Proof.
  intros [gid eid body | r | | r | r] Hh Herr; simpl.
  - eexists [_]. split; [reflexivity |]. split.
    + destruct (CreateEpicNote E (trace s) gid eid body) as [e |] eqn:Hr;
        simpl; [| exact I].
      eexists. split; [apply elem_of_app; right; apply list_elem_of_singleton;
                       reflexivity |].
      reflexivity.
    + intros e He. apply answered_app. auto.
  - exists []. rewrite !app_nil_r. split; [reflexivity |]. split; [exact I |].
    intros e ->. exact Hh.
  - exists []. rewrite !app_nil_r. split; [reflexivity |]. split; [| exact Herr].
    unfold orphan_ret. destruct (err s) as [e |] eqn:He; simpl; [| exact I].
    exists e. split; [reflexivity | auto].
  - exists []. rewrite !app_nil_r. split; [reflexivity |]. split; [| exact Herr].
    exact Hh.
  - exists []. rewrite !app_nil_r. split; [reflexivity |]. split; [| exact Herr].
    exact Hh.
Qed.

(** Under every schedule, an error a goroutine of the last phase returns
    is the wrapped answer of a note of the phase - its own or another
    goroutine's. *)
Lemma run_group_orphan_errors sched gid gitlabEpic (atts : list Attachment) s :
  let run := run_group E sched
               (Running <$> (orphan_task gid gitlabEpic <$> atts)) s in
  err s = None →
  ∃ d, trace run.2 = trace s ++ d ∧
       Forall (note_on gid gitlabEpic) d ∧
       Forall (orphan_holds d) run.1.
Proof.
  intros run H0. subst run.
  set (pool0 := Running <$> (orphan_task gid gitlabEpic <$> atts)).
  cut (Forall orphan_thread (run_group E sched pool0 s).1 ∧
       Forall (thread_ok (emits (note_on gid gitlabEpic)))
         (run_group E sched pool0 s).1 ∧
       ∃ d, trace (run_group E sched pool0 s).2 = trace s ++ d ∧
            Forall (note_on gid gitlabEpic) d ∧
            Forall (orphan_holds d) (run_group E sched pool0 s).1 ∧
            (∀ e, err (run_group E sched pool0 s).2 = Some e → answered d e)).
  { intros (_ & _ & d & Hd & Hon & Hh & _). eauto. }
  apply (run_group_ind E
           (fun p s' =>
              Forall orphan_thread p ∧
              Forall (thread_ok (emits (note_on gid gitlabEpic))) p ∧
              ∃ d, trace s' = trace s ++ d ∧
                   Forall (note_on gid gitlabEpic) d ∧
                   Forall (orphan_holds d) p ∧
                   (∀ e, err s' = Some e → answered d e))).
  - intros pool s' i th (Hp & Hem & d & Hd & Hon & Hh & Herr) Hi _.
    destruct (step_orphan E th s' (Forall_lookup_1 _ _ _ _ Hp Hi))
      as (Hth & _).
    destruct (step_thread_emits E _ th s' (Forall_lookup_1 _ _ _ _ Hem Hi))
      as (Hem' & dd' & Hdd' & Hon').
    destruct (step_orphan_holds th s' d (Forall_lookup_1 _ _ _ _ Hp Hi)
                (Forall_lookup_1 _ _ _ _ Hh Hi) Herr)
      as (dd & Hdd & Hh' & Herr').
    assert (dd' = dd) by (rewrite Hdd in Hdd'; eapply app_inv_head; eauto).
    subst dd'.
    split; [apply Forall_insert; assumption |].
    split; [apply Forall_insert; assumption |].
    exists (d ++ dd). rewrite Hdd, Hd, app_assoc. split; [reflexivity |].
    split; [apply Forall_app; split; assumption |].
    split; [| exact Herr'].
    apply Forall_insert; [| exact Hh'].
    eapply Forall_impl; [exact Hh |]. intros th0. apply orphan_holds_app.
  - split; [| split].
    + subst pool0. apply Forall_fmap, Forall_fmap, Forall_true. intros a.
      constructor.
    + subst pool0. apply pool_of_ok. intros a. apply orphan_task_emits.
    + exists []. rewrite app_nil_r. split; [reflexivity |].
      split; [constructor |]. split; [| intros e; rewrite H0; discriminate].
      subst pool0. apply Forall_fmap, Forall_fmap, Forall_true. intros a.
      exact I.
Qed.

End OrphanErrors.

(** ** The phases at their barriers *)

Lemma omap_nil_Forall {A B : Type} (f : A -> option B) (l : list A) :
  omap f l = [] → Forall (fun x => f x = None) l.
Proof.
  induction l as [| x l IH]; simpl; [constructor |].
  destruct (f x) eqn:Hx; [discriminate |]. intros H. constructor; auto.
Qed.

Lemma omap_None_nil {A B : Type} (f : A -> option B) (l : list A) :
  (∀ j x, l !! j = Some x → f x = None) → omap f l = [].
Proof.
  induction l as [| x l IH]; intros H; simpl; [reflexivity |].
  rewrite (H 0%nat x eq_refl). apply IH. intros j y Hj. exact (H (S j) y Hj).
Qed.

Lemma pending_upload_finished pool :
  all_finished pool = true → omap pending_upload pool = [].
Proof.
  induction pool as [| [t | r] pool IH]; simpl; [reflexivity | discriminate |].
  exact IH.
Qed.

Section Barriers.
Context (E : Env).

(** A group that has kept no error has goroutines that returned nil only. *)
Lemma nothing_carried sched pool s :
  errors_recorded pool s →
  all_finished (run_group E sched pool s).1 = true →
  g_err (run_group E sched pool s).2 = None →
  omap carried (run_group E sched pool s).1 = [].
Proof.
  intros H0 Hf Hg. apply omap_None_nil. intros j th Hj.
  pose proof (run_group_errors_recorded E sched pool s H0) as Hrec.
  rewrite (carried_finished _ Hf j th Hj) in Hj.
  destruct (carried th) as [e |] eqn:Hc; [| reflexivity].
  destruct (Hrec j e Hj) as [e' He']. congruence.
Qed.

(** The error a group has kept is among those its goroutines carry. *)
Lemma kept_is_carried sched pool s e :
  g_err s = None →
  g_err (run_group E sched pool s).2 = Some e →
  e ∈ omap carried (run_group E sched pool s).1.
Proof.
  intros H0 Hg.
  destruct (run_group_error_origin E sched pool s e H0 Hg) as (j & th & Hj & Hc).
  apply list_elem_of_omap. exists th. split; [| exact Hc].
  eapply list_elem_of_lookup_2. exact Hj.
Qed.

Lemma relocation_barrier sched1 jiraIssue tr0 cfg labels :
  let R := relocation_phase E sched1 jiraIssue tr0 in
  let gid := config.Project_GitLab_Epic cfg in
  let pid := config.Project_GitLab_Issue cfg in
  GetConfig E = inl cfg →
  convertJiraToGitLabLabels E tr0 gid jiraIssue true = inl labels →
  (∀ id v, attachments R.2 !! id = Some v →
           provenance E cfg pid (jira.Attachments jiraIssue) id v) ∧
  ∃ d, trace R.2 = tr0 ++ EvConvertLabels gid (jira.Key jiraIssue) None :: d ∧
       Forall (upload_to pid) d ∧
       (all_finished R.1 = true →
        omap upload_id d ≡ₚ jira.ID <$> jira.Attachments jiraIssue ∧
        (∀ e, g_err R.2 = Some e →
              ∃ e', answered d e' ∧
                    e = ErrWrap e'
                          "Error converting Jira attachment to GitLab attachment") ∧
        (g_err R.2 = None → Forall (fun ev => answer ev = None) d)).
Proof.
  intros R gid pid Hcfg Hlab. subst R. unfold relocation_phase.
  rewrite Hcfg. fold gid. rewrite Hlab. fold pid.
  set (pool0 := Running <$> (relocate_task cfg pid <$> jira.Attachments jiraIssue)).
  set (s0 := relocation_start gid jiraIssue tr0).
  destruct (run_group_relocation E cfg pid (jira.Attachments jiraIssue) sched1 s0)
    as (Hmap & d & Hd & Hup & Hids & Herr).
  fold pool0 in Hmap, Hd, Hids, Herr.
  split.
  { intros id v Hv. destruct (Hmap id v Hv) as [H | H]; [| exact H].
    simpl in H. rewrite lookup_empty in H. discriminate. }
  exists d. split; [rewrite Hd; simpl; rewrite <- app_assoc; reflexivity |].
  split; [exact Hup |]. intros Hf. split; [| split].
  - rewrite (pending_upload_finished _ Hf), app_nil_r in Hids. exact Hids.
  - intros e He.
    pose proof (kept_is_carried sched1 pool0 s0 e eq_refl He) as Hin.
    rewrite <- Herr in Hin. apply list_elem_of_fmap in Hin as (e' & -> & Hin).
    apply list_elem_of_omap in Hin as (ev & Hev & Ha).
    exists e'. split; [exists ev; auto | reflexivity].
  - intros Hg.
    rewrite (nothing_carried sched1 pool0 s0 (errors_recorded_start _ _) Hf Hg)
      in Herr.
    apply Permutation_nil_r, fmap_nil_inv in Herr.
    apply omap_nil_Forall. exact Herr.
Qed.

Lemma note_on_accepted gid gitlabEpic notes :
  Forall (note_on gid gitlabEpic) notes →
  Forall (fun ev => answer ev = None) notes →
  notes = accepted_note gid (gitlab.ID gitlabEpic) <$> (body_of <$> notes).
Proof.
  induction 1 as [| ev notes (body & r & ->) _ IH]; intros Ha;
    [reflexivity |].
  apply Forall_cons in Ha as [Hr Ha]. simpl in Hr. subst r.
  simpl. f_equal. exact (IH Ha).
Qed.

Lemma all_formatted {A B : Type} (f : A -> result B) (l : list A) :
  omap (fun c => err_of (f c)) l = [] →
  f <$> l = inl <$> omap (fun c => val_of (f c)) l.
Proof.
  induction l as [| c l IH]; simpl; [reflexivity |].
  destruct (f c); simpl; [| discriminate]. intros H. f_equal. exact (IH H).
Qed.

Lemma comments_barrier sched2 cfg jiraIssue userMap gitlabEpic opt s1 :
  let C := comments_phase E sched2 cfg jiraIssue userMap gitlabEpic opt s1 in
  let gid := config.Project_GitLab_Epic cfg in
  g_err s1 = None →
  attachments C.2 = attachments s1 ∧
  err C.2 = None ∧
  ∃ notes, trace C.2 = trace s1 ++ EvCreateEpic gid opt None :: notes ∧
           Forall (note_on gid gitlabEpic) notes ∧
           (all_finished C.1 = true →
            (∀ e, g_err C.2 = Some e →
                  comment_failure E jiraIssue userMap (attachments s1) notes e) ∧
            (g_err C.2 = None →
             comments_posted E gid gitlabEpic jiraIssue userMap
               (attachments s1) notes)).
Proof.
  intros C gid H0. subst C. unfold comments_phase. fold gid.
  set (s0 := created_state gid opt s1).
  set (pool0 := Running <$> _).
  destruct (run_group_comments E gid gitlabEpic jiraIssue userMap
              (attachments s1) sched2 (jira.Comments jiraIssue) s0)
    as (Hatt & Herr & notes & Hd & Hon & Hb & Hc).
  fold pool0 in Hatt, Herr, Hd, Hb, Hc.
  split; [exact Hatt |]. split; [exact Herr |].
  exists notes. split; [rewrite Hd; simpl; rewrite <- app_assoc; reflexivity |].
  split; [exact Hon |]. intros Hf. split.
  - intros e He.
    pose proof (kept_is_carried sched2 pool0 s0 e H0 He) as Hin.
    rewrite Hc in Hin. apply elem_of_app in Hin as [Hin | Hin];
      apply list_elem_of_fmap in Hin as (e' & -> & Hin);
      apply list_elem_of_omap in Hin as (x & Hx & Hfx).
    + left. exists x, e'. split; [exact Hx |]. split; [| reflexivity].
      destruct (formatNote E (jira.Key jiraIssue) x userMap (attachments s1) true);
        [discriminate | simpl in Hfx; congruence].
    + right. exists e'. split; [exists x; auto | reflexivity].
  - intros Hg.
    rewrite (nothing_carried sched2 pool0 s0 (errors_recorded_start _ _) Hf Hg)
      in Hc.
    symmetry in Hc. apply Permutation_nil_r, app_eq_nil in Hc as [HF HN].
    apply fmap_nil_inv in HF, HN.
    rewrite (pending_finished _ Hf), app_nil_r in Hb.
    eexists. split; [apply all_formatted; exact HF |].
    rewrite (note_on_accepted gid gitlabEpic notes Hon (omap_nil_Forall _ _ HN)).
    apply fmap_Permutation. exact Hb.
Qed.

Lemma orphans_barrier sched3 cfg gitlabEpic s2 :
  let O := orphans_phase E sched3 cfg gitlabEpic s2 in
  let gid := config.Project_GitLab_Epic cfg in
  err s2 = None →
  g_err s2 = None →
  ∃ notes, trace O.2 = trace s2 ++ notes ∧
           Forall (note_on gid gitlabEpic) notes ∧
           ∀ e, g_err O.2 = Some e →
                ∃ e', answered notes e' ∧ e = ErrWrap e' "Error creating note".
Proof.
  intros O gid He0 Hg0. subst O. unfold orphans_phase. fold gid.
  destruct (run_group_orphan_errors E sched3 gid gitlabEpic
              (remaining E (attachments s2) (usedAttachment s2)) s2 He0)
    as (notes & Hd & Hon & Hh).
  exists notes. split; [exact Hd |]. split; [exact Hon |].
  intros e He.
  destruct (run_group_error_origin E sched3 _ s2 e Hg0 He) as (j & th & Hj & Hc).
  pose proof (Forall_lookup_1 _ _ _ _ Hh Hj) as Hth.
  destruct th as [[[x |] | | | | |] | [x |]]; simpl in Hc; try discriminate;
    injection Hc as ->; simpl in Hth; destruct Hth as (e' & -> & Ha); eauto.
Qed.

End Barriers.

(** ** Every run, call by call *)

Section Anatomy.
Context (E : Env).

Lemma assert_string_true v str :
  assert_string v = (str, true) → v = Some (AString str).
Proof.
  destruct v as [[] |]; simpl; intros H; try discriminate; congruence.
Qed.

(** The ways through lines 98-111. *)
Lemma start_date_result cfg jiraIssue o s :
  let field := config.Project_Jira_CustomField_EpicStartDate cfg in
  (start_date E cfg jiraIssue o s = (Next o, s) ∧
   (field = "" ∨ jira.Unknowns jiraIssue !! field = None ∨
    ∃ v, jira.Unknowns jiraIssue !! field = Some v ∧ ∀ str, v ≠ AString str)) ∨
  (∃ str, field ≠ "" ∧
          jira.Unknowns jiraIssue !! field = Some (AString str) ∧
          match time_Parse E "2006-01-02" str with
          | inl t => start_date E cfg jiraIssue o s = (Next (with_start_date t o), s)
          | inr e =>
              start_date E cfg jiraIssue o s
              = (Exit (Return (inr (ErrWrap e "Error parsing time"))), s)
          end).
Proof.
  intros field. unfold start_date. fold field.
  destruct (decide (field ≠ "")) as [Hf | Hf].
  2:{ left. split; [reflexivity |]. left.
      destruct (decide (field = "")); [assumption | contradiction]. }
  destruct (jira.Unknowns jiraIssue !! field) as [v |] eqn:Hv.
  2:{ left. split; [reflexivity | auto]. }
  destruct v as [| b | n | str | l | l];
    try (left; split; [reflexivity |]; right; right; eexists; split;
         [reflexivity | intros str; discriminate]).
  right. exists str. split; [exact Hf |]. split; [reflexivity |].
  simpl. unfold_M. destruct (time_Parse E "2006-01-02" str); reflexivity.
Qed.

Lemma convert_anatomy sched1 sched2 sched3 jiraIssue userMap tr0 cfg labels :
  let run := ConvertJiraIssueToGitLabEpic E sched1 sched2 sched3 jiraIssue
               userMap tr0 in
  let R := relocation_phase E sched1 jiraIssue tr0 in
  GetConfig E = inl cfg →
  convertJiraToGitLabLabels E tr0 (config.Project_GitLab_Epic cfg) jiraIssue true
  = inl labels →
  ∃ rest, trace run.2 = trace R.2 ++ rest ∧
          run_anatomy E cfg jiraIssue userMap labels R run.1 rest.
Proof.
  intros run R Hcfg Hlab.
  pose proof (convert_story E sched1 sched2 sched3 jiraIssue userMap tr0) as H.
  fold run in H. simpl in H. subst R.
  destruct H as
    [ e0 Hc | cfg0 e0 Hc Hl | cfg0 labels0 o s R0 Hc Hl Hs Hcase
    | cfg0 labels0 o s R0 Hc Hl Hf1 Hg1 Hs Hcase
    | cfg0 labels0 description o' opt o s R0 gid Hc Hl Hf1 Hg1 Hdesc Hsd Hopt Hcase ];
    try congruence; try subst gid;
    assert (cfg0 = cfg) by congruence; subst cfg0;
    try (assert (labels0 = labels) by congruence; subst labels0);
    try congruence; subst R0;
    set (R := relocation_phase E sched1 jiraIssue tr0) in *.
  - subst s. exists []. rewrite app_nil_r. split; [reflexivity |].
    destruct Hcase as [[Hf ->] | [Hf (e & Hg & ->)]].
    + apply an_relocating. exact Hf.
    + apply an_relocation_error; assumption.
  - subst s. exists []. rewrite app_nil_r. split; [reflexivity |].
    destruct Hcase as [(e & Hd & ->) | (description & e & Hd & Hsd & ->)].
    + apply an_description_error; assumption.
    + destruct (start_date_result cfg jiraIssue
                  (with_description description
                     (initial_options E jiraIssue labels)) R.2)
        as [[Heq _] | (str & Hfield & Hv & Hp)]; [congruence |].
      destruct (time_Parse E "2006-01-02" str) as [t | e'] eqn:Ht;
        [congruence |].
      assert (e = ErrWrap e' "Error parsing time") by congruence. subst e.
      eapply an_start_date_error; eassumption.
  - assert (Hco : creation_options E cfg jiraIssue userMap labels R.2 = Some opt).
    { unfold creation_options. rewrite Hdesc, Hsd, Hopt. reflexivity. }
    clear Hdesc Hsd Hopt.
    destruct Hcase as [(e & Hcr & -> & ->) | (gitlabEpic & Hcr & Hcase)].
    { exists [EvCreateEpic (config.Project_GitLab_Epic cfg) opt (Some e)].
      split; [reflexivity |]. apply an_create_error; assumption. }
    cbv zeta in Hcase.
    destruct (comments_barrier E sched2 cfg jiraIssue userMap gitlabEpic opt
                R.2 Hg1) as (Hatt2 & Herr2 & notes & Htr2 & Hon2 & Hbar2).
    set (C := comments_phase E sched2 cfg jiraIssue userMap gitlabEpic opt R.2)
      in *.
    destruct Hcase as [(Hf2 & -> & ->) | (Hf2 & Hcase)].
    { exists (EvCreateEpic (config.Project_GitLab_Epic cfg) opt None :: notes).
      split; [exact Htr2 |]. eapply an_commenting; eassumption. }
    destruct (Hbar2 Hf2) as [Hfail Hposted].
    destruct Hcase as [(e & Hg2 & -> & ->) | (Hg2 & Hcase)].
    { exists (EvCreateEpic (config.Project_GitLab_Epic cfg) opt None :: notes).
      split; [exact Htr2 |]. eapply an_comment_error; eauto. }
    specialize (Hposted Hg2).
    destruct (orphans_barrier E sched3 cfg gitlabEpic C.2 Herr2 Hg2)
      as (orphans & Htr3 & Hon3 & Horigin).
    set (O := orphans_phase E sched3 cfg gitlabEpic C.2) in *.
    assert (Htr : trace O.2
                  = trace R.2 ++ EvCreateEpic (config.Project_GitLab_Epic cfg)
                                   opt None :: notes ++ orphans).
    { rewrite Htr3, Htr2, <- app_assoc. reflexivity. }
    destruct Hcase as [(Hf3 & -> & ->) | (Hf3 & Hcase)].
    { eexists. split; [exact Htr |]. eapply an_orphans; eauto. }
    destruct Hcase as [(e & Hg3 & -> & ->) | (Hg3 & -> & ->)].
    { destruct (Horigin e Hg3) as (e' & Ha & ->).
      eexists. split; [exact Htr |]. eapply an_orphans; eauto. }
    exists (EvCreateEpic (config.Project_GitLab_Epic cfg) opt None ::
            notes ++ orphans ++
            close_events E (config.Project_GitLab_Epic cfg) jiraIssue gitlabEpic
              (trace R.2 ++ EvCreateEpic (config.Project_GitLab_Epic cfg)
                              opt None :: notes ++ orphans)).
    split; [| eapply an_done; eauto].
    unfold closed_state, close_events.
    destruct (jira.Resolution jiraIssue); simpl.
    + rewrite Htr, <- !app_assoc. simpl. rewrite <- !app_assoc. reflexivity.
    + rewrite Htr, !app_nil_r. reflexivity.
Qed.

End Anatomy.

(** ** What every run does *)

Section EveryRun.
Context (E : Env).

Lemma note_on_not_upload gid gitlabEpic d :
  Forall (note_on gid gitlabEpic) d → Forall (fun e => upload_id e = None) d.
Proof.
  intros H. eapply Forall_impl; [exact H |]. intros e (b & r & ->). done.
Qed.

Lemma close_events_not_upload gid jiraIssue gitlabEpic tr :
  Forall (fun e => upload_id e = None)
    (close_events E gid jiraIssue gitlabEpic tr).
Proof.
  unfold close_events. destruct (jira.Resolution jiraIssue); repeat constructor.
Qed.

(** After the first phase a call uploads nothing. *)
Lemma anatomy_no_upload cfg jiraIssue userMap labels R o rest :
  run_anatomy E cfg jiraIssue userMap labels R o rest →
  Forall (fun e => upload_id e = None) rest.
Proof.
  intros [| | | | | opt ep notes gid _ _ _ _ Hn
          | opt ep notes e gid _ _ _ _ Hn _
          | opt ep comments orphans o' gid _ _ _ _ (bodies & _ & Hc) Ho _
          | opt ep comments orphans gid _ _ _ _ (bodies & _ & Hc) Ho];
    repeat constructor;
    try (eapply note_on_not_upload; eassumption).
  - apply Forall_app. split; [| eapply note_on_not_upload; eassumption].
    rewrite Hc. apply Forall_fmap, Forall_true. intros b. reflexivity.
  - apply Forall_app. split.
    + rewrite Hc. apply Forall_fmap, Forall_true. intros b. reflexivity.
    + apply Forall_app. split; [eapply note_on_not_upload; eassumption |].
      apply close_events_not_upload.
Qed.

(** A run that gets to the first phase: the label conversion, the
    uploads of the phase, and what [run_anatomy] tells of the rest. *)
Lemma run_events sched1 sched2 sched3 jiraIssue userMap tr0 cfg labels :
  let run := ConvertJiraIssueToGitLabEpic E sched1 sched2 sched3 jiraIssue
               userMap tr0 in
  let R := relocation_phase E sched1 jiraIssue tr0 in
  let gid := config.Project_GitLab_Epic cfg in
  let pid := config.Project_GitLab_Issue cfg in
  GetConfig E = inl cfg →
  convertJiraToGitLabLabels E tr0 gid jiraIssue true = inl labels →
  ∃ uploads rest,
    trace R.2 = tr0 ++ EvConvertLabels gid (jira.Key jiraIssue) None :: uploads ∧
    new_events tr0 run.2
    = EvConvertLabels gid (jira.Key jiraIssue) None :: uploads ++ rest ∧
    Forall (upload_to pid) uploads ∧
    (all_finished R.1 = true →
     omap upload_id uploads ≡ₚ jira.ID <$> jira.Attachments jiraIssue ∧
     (∀ e, g_err R.2 = Some e →
           ∃ e', answered uploads e' ∧
                 e = ErrWrap e'
                       "Error converting Jira attachment to GitLab attachment") ∧
     (g_err R.2 = None → Forall (fun ev => answer ev = None) uploads)) ∧
    run_anatomy E cfg jiraIssue userMap labels R run.1 rest.
Proof.
  intros run R gid pid Hcfg Hlab.
  destruct (relocation_barrier E sched1 jiraIssue tr0 cfg labels Hcfg Hlab)
    as (_ & uploads & Htr1 & Hup & Hbar).
  destruct (convert_anatomy E sched1 sched2 sched3 jiraIssue userMap tr0
              cfg labels Hcfg Hlab) as (rest & Htr & Han).
  exists uploads, rest. split; [exact Htr1 |].
  split; [| split; [exact Hup | split; [exact Hbar | exact Han]]].
  apply new_events_app. subst run R. simpl in Htr, Htr1. rewrite Htr, Htr1.
  rewrite <- app_assoc. reflexivity.
Qed.

(** A call that does not get to the first phase. *)
Lemma run_without_labels sched1 sched2 sched3 jiraIssue userMap tr0 :
  let run := ConvertJiraIssueToGitLabEpic E sched1 sched2 sched3 jiraIssue
               userMap tr0 in
  (∃ e, GetConfig E = inr e ∧
        run = (Return (inr (ErrWrap e "Error getting config")), init_state tr0)) ∨
  (∃ cfg e, GetConfig E = inl cfg ∧
            convertJiraToGitLabLabels E tr0 (config.Project_GitLab_Epic cfg)
              jiraIssue true = inr e ∧
            run = (Return (inr (ErrWrap e
                     "Error converting Jira labels to GitLab labels")),
                   log (EvConvertLabels (config.Project_GitLab_Epic cfg)
                          (jira.Key jiraIssue) (Some e)) (init_state tr0))) ∨
  (∃ cfg labels, GetConfig E = inl cfg ∧
                 convertJiraToGitLabLabels E tr0 (config.Project_GitLab_Epic cfg)
                   jiraIssue true = inl labels).
Proof.
  intros run. subst run.
  destruct (GetConfig E) as [cfg | e] eqn:Hcfg.
  2:{ left. exists e. split; [reflexivity |].
      unfold ConvertJiraIssueToGitLabEpic, convert. unfold_M.
      rewrite Hcfg. reflexivity. }
  right.
  destruct (convertJiraToGitLabLabels E tr0 (config.Project_GitLab_Epic cfg)
              jiraIssue true) as [labels | e] eqn:Hlab.
  2:{ left. exists cfg, e. split; [reflexivity |]. split; [exact Hlab |].
      unfold ConvertJiraIssueToGitLabEpic, convert. unfold_M.
      rewrite Hcfg. simpl. rewrite Hlab. reflexivity. }
  right. eauto.
Qed.

Lemma upload_in_events gid key uploads rest pid id r :
  Forall (fun e => upload_id e = None) rest →
  EvUpload pid id r ∈ EvConvertLabels gid key None :: uploads ++ rest →
  EvUpload pid id r ∈ uploads.
Proof.
  intros Hrest Hin. apply elem_of_cons in Hin as [Hin | Hin]; [discriminate |].
  apply elem_of_app in Hin as [Hin | Hin]; [exact Hin |].
  rewrite Forall_forall in Hrest. specialize (Hrest _ Hin). discriminate.
Qed.

(** X1: a call that gets past the label conversion and returns - the
    epic or an error - has uploaded every attachment of the issue exactly
    once, to the project [cfg.Project.GitLab.Issue], before any other call
    to the target system; it uploads nothing afterwards. *)
Theorem every_attachment_is_uploaded_once sched1 sched2 sched3 jiraIssue
    userMap tr0 cfg labels r :
  let run := ConvertJiraIssueToGitLabEpic E sched1 sched2 sched3 jiraIssue
               userMap tr0 in
  let gid := config.Project_GitLab_Epic cfg in
  GetConfig E = inl cfg →
  convertJiraToGitLabLabels E tr0 gid jiraIssue true = inl labels →
  run.1 = Return r →
  ∃ uploads rest,
    new_events tr0 run.2
    = EvConvertLabels gid (jira.Key jiraIssue) None :: uploads ++ rest ∧
    Forall (upload_to (config.Project_GitLab_Issue cfg)) uploads ∧
    omap upload_id uploads ≡ₚ jira.ID <$> jira.Attachments jiraIssue ∧
    Forall (fun e => is_prepare e = false) rest.
Proof.
  intros run gid Hcfg Hlab Hret.
  destruct (run_events sched1 sched2 sched3 jiraIssue userMap tr0 cfg labels
              Hcfg Hlab) as (uploads & rest & _ & Hnew & Hup & Hbar & Han).
  fold run in Hnew, Han. exists uploads, rest.
  split; [exact Hnew |]. split; [exact Hup |].
  assert (Hf : all_finished (relocation_phase E sched1 jiraIssue tr0).1 = true).
  { rewrite Hret in Han. inversion Han; assumption. }
  split; [exact (proj1 (Hbar Hf)) |].
  clear Hbar Hnew.
  destruct Han as [| | | | | opt ep notes gid' _ _ _ _ Hn
          | opt ep notes e gid' _ _ _ _ Hn _
          | opt ep comments orphans o' gid' _ _ _ _ (bodies & _ & Hc) Ho _
          | opt ep comments orphans gid' _ _ _ _ (bodies & _ & Hc) Ho];
    repeat constructor;
    try (eapply Forall_impl; [eassumption |]; intros ? (? & ? & ->); reflexivity).
  - apply Forall_app. split.
    + rewrite Hc. apply Forall_fmap, Forall_true. intros b. reflexivity.
    + eapply Forall_impl; [eassumption |]; intros ? (? & ? & ->); reflexivity.
  - apply Forall_app. split.
    + rewrite Hc. apply Forall_fmap, Forall_true. intros b. reflexivity.
    + apply Forall_app. split.
      * eapply Forall_impl; [eassumption |]; intros ? (? & ? & ->); reflexivity.
      * unfold close_events. destruct (jira.Resolution jiraIssue);
          repeat constructor.
Qed.

(** X2: for a call that gets past the label conversion and returns: an
    upload was refused if and only if the call returns the error of the
    first barrier; and that error is the error of a refused upload of this
    call, wrapped by the goroutine and once more by the caller with the
    same message. *)
Theorem relocation_error_iff_upload_refused sched1 sched2 sched3 jiraIssue
    userMap tr0 cfg labels r :
  let run := ConvertJiraIssueToGitLabEpic E sched1 sched2 sched3 jiraIssue
               userMap tr0 in
  let msg := "Error converting Jira attachment to GitLab attachment" in
  GetConfig E = inl cfg →
  convertJiraToGitLabLabels E tr0 (config.Project_GitLab_Epic cfg) jiraIssue true
  = inl labels →
  run.1 = Return r →
  ((∃ pid id e, EvUpload pid id (Some e) ∈ new_events tr0 run.2) ↔
   (∃ e, r = inr (ErrWrap e msg))) ∧
  (∀ e, r = inr (ErrWrap e msg) →
        ∃ id e', EvUpload (config.Project_GitLab_Issue cfg) id (Some e')
                 ∈ new_events tr0 run.2 ∧
                 e = ErrWrap e' msg).
Proof.
  intros run msg Hcfg Hlab Hret.
  destruct (run_events sched1 sched2 sched3 jiraIssue userMap tr0 cfg labels
              Hcfg Hlab) as (uploads & rest & _ & Hnew & Hup & Hbar & Han).
  fold run in Hnew, Han. rewrite Hnew. rewrite Hret in Han.
  pose proof (anatomy_no_upload _ _ _ _ _ _ _ Han) as Hrest.
  assert (Hf : all_finished (relocation_phase E sched1 jiraIssue tr0).1 = true)
    by (inversion Han; assumption).
  destruct (Hbar Hf) as (_ & Hsome & Hnone). clear Hbar.
  assert (Hcause : ∀ e, r = inr (ErrWrap e msg) →
            ∃ id e', EvUpload (config.Project_GitLab_Issue cfg) id (Some e')
                     ∈ EvConvertLabels (config.Project_GitLab_Epic cfg)
                         (jira.Key jiraIssue) None :: uploads ++ rest ∧
                     e = ErrWrap e' msg).
  { intros e ->. inversion Han as [| e0 _ Hg | | | | |
        opt ep notes e0 gid _ _ _ _ _ _ Hmsg | opt ep comments orphans o gid
        _ _ _ _ _ _ [Ho | (e0 & _ & Ho)] |]; subst; try discriminate.
    destruct (Hsome _ Hg) as (e' & (ev & Hin & Hev) & ->).
    rewrite Forall_forall in Hup. destruct (Hup _ Hin) as (id & res & ->).
    simpl in Hev. subst res. exists id, e'. split; [| reflexivity].
    apply list_elem_of_further, elem_of_app. left. exact Hin. }
  split; [| exact Hcause]. split.
  - intros (pid & id & e & Hin).
    apply upload_in_events in Hin; [| exact Hrest].
    destruct (g_err (relocation_phase E sched1 jiraIssue tr0).2) as [e0 |] eqn:Hg.
    + inversion Han; subst; try congruence. eauto.
    + specialize (Hnone eq_refl). rewrite Forall_forall in Hnone.
      specialize (Hnone _ Hin). discriminate.
  - intros (e & He). destruct (Hcause e He) as (id & e' & Hin & _). eauto.
Qed.

(** X3: whatever the schedules, every entry the map [attachments] holds
    when the call ends was made by a goroutine of the first phase from an
    accepted upload of an attachment of the issue: its key is the
    identifier of that attachment, the pattern matched the uploaded
    markup, and the entry is the rewritten markup with the uploaded name
    and creation time. *)
Theorem relocated_entries_come_from_uploads sched1 sched2 sched3 jiraIssue
    userMap tr0 cfg id v :
  let run := ConvertJiraIssueToGitLabEpic E sched1 sched2 sched3 jiraIssue
               userMap tr0 in
  GetConfig E = inl cfg →
  attachments run.2 !! id = Some v →
  ∃ a tr attachment pre alt url post,
    a ∈ jira.Attachments jiraIssue ∧ jira.ID a = id ∧
    convertJiraAttachmentToMarkdown E tr (config.Project_GitLab_Issue cfg) a
    = inl attachment ∧
    Markdown attachment
    = pre +:+ "![" +:+ alt +:+ "](" +:+ url +:+ ")" +:+ post ∧
    alt ≠ "" ∧ url ≠ "" ∧
    v = relocated cfg attachment alt url.
Proof.
  intros run Hcfg Hv.
  destruct (convert_shape E sched1 sched2 sched3 jiraIssue userMap tr0)
    as (_ & Hatt & _).
  fold run in Hatt. rewrite Hatt in Hv. clear Hatt.
  destruct (convertJiraToGitLabLabels E tr0 (config.Project_GitLab_Epic cfg)
              jiraIssue true) as [labels | e] eqn:Hlab.
  2:{ unfold relocation_phase in Hv. rewrite Hcfg, Hlab in Hv. simpl in Hv.
      rewrite lookup_empty in Hv. discriminate. }
  destruct (relocation_barrier E sched1 jiraIssue tr0 cfg labels Hcfg Hlab)
    as (Hmap & _).
  destruct (Hmap id v Hv)
    as (a & tr & attachment & whole & alt & url & Ha & Hid & Hup & Hm & ->).
  destruct (FindStringSubmatch_sound _ _ _ _ Hm)
    as (_ & Halt & Hurl & _ & _ & pre & post & Hmd).
  exists a, tr, attachment, pre, alt, url, post. done.
Qed.

Lemma prepare_not_create d :
  Forall (fun e => is_prepare e = true) d →
  filter (fun e => is_create_epic e = true) d = [].
Proof.
  induction 1 as [| e d He _ IH]; [reflexivity |].
  rewrite filter_cons_False; [exact IH |]. destruct e; done.
Qed.

Lemma note_not_create gid gitlabEpic d :
  Forall (note_on gid gitlabEpic) d →
  filter (fun e => is_create_epic e = true) d = [].
Proof.
  induction 1 as [| e d (b & r & ->) _ IH]; [reflexivity |].
  rewrite filter_cons_False; [exact IH | done].
Qed.

Lemma close_not_create gid jiraIssue gitlabEpic tr :
  filter (fun e => is_create_epic e = true)
    (close_events E gid jiraIssue gitlabEpic tr) = [].
Proof. unfold close_events. destruct (jira.Resolution jiraIssue); reflexivity. Qed.

(** X4: no call makes more than one creation call, whatever the schedules
    and the answers of the remote systems; a call that returns the epic
    has made exactly one. *)
Theorem at_most_one_creation_call sched1 sched2 sched3 jiraIssue userMap tr0 :
  let run := ConvertJiraIssueToGitLabEpic E sched1 sched2 sched3 jiraIssue
               userMap tr0 in
  let creations :=
    filter (fun e => is_create_epic e = true) (new_events tr0 run.2) in
  (length creations ≤ 1)%nat ∧
  (∀ gitlabEpic, run.1 = Return (inl gitlabEpic) → length creations = 1%nat).
Proof.
  intros run creations. subst creations.
  destruct (convert_shape E sched1 sched2 sched3 jiraIssue userMap tr0)
    as (_ & _ & Hshape).
  fold run in Hshape.
  destruct Hshape as [o s d Hnd Htr Hd | s d gid opt e Htr Hd
                     | o s cfg d opt ep notes Hnd Hcfg Htr Hd Hn
                     | s cfg d opt ep comments orphans gid before Hcfg Hcr Htr
                         Hd Hc Ho Hperm].
  - rewrite (new_events_app _ _ _ Htr), (prepare_not_create _ Hd).
    split; [simpl; lia |]. intros ep ->. exfalso. eapply Hnd. reflexivity.
  - rewrite (new_events_app _ _ _ Htr), filter_app, (prepare_not_create _ Hd).
    split; [simpl; lia |]. intros ep [=].
  - rewrite (new_events_app _ _ _ Htr), filter_app, (prepare_not_create _ Hd).
    rewrite filter_cons_True by reflexivity.
    rewrite (note_not_create _ _ _ Hn). split; [simpl; lia |].
    intros ep' ->. exfalso. eapply Hnd. reflexivity.
  - subst before.
    assert (Hnew : new_events tr0 s
                   = d ++ EvCreateEpic gid opt None :: comments ++ orphans ++
                     close_events E gid jiraIssue ep
                       (tr0 ++ d ++ EvCreateEpic gid opt None ::
                        comments ++ orphans)).
    { apply new_events_app. rewrite Htr, <- !app_assoc. simpl.
      rewrite <- !app_assoc. reflexivity. }
    rewrite Hnew, filter_app, (prepare_not_create _ Hd).
    rewrite filter_cons_True by reflexivity.
    rewrite !filter_app, (note_not_create _ _ _ Hc), (note_not_create _ _ _ Ho),
      close_not_create.
    split; [simpl; lia | intros; reflexivity].
Qed.

(** X5: a call that does not return the epic - it returns an error, or a
    barrier never opens - makes no state update: what it created is left
    as it is, open. *)
Theorem no_update_unless_epic_returned sched1 sched2 sched3 jiraIssue
    userMap tr0 :
  let run := ConvertJiraIssueToGitLabEpic E sched1 sched2 sched3 jiraIssue
               userMap tr0 in
  not_done run.1 →
  Forall (fun e => is_update e = false) (new_events tr0 run.2).
Proof.
  intros run Hnd.
  destruct (convert_shape E sched1 sched2 sched3 jiraIssue userMap tr0)
    as (_ & _ & Hshape).
  fold run in Hshape.
  destruct Hshape as [o s d _ Htr Hd | s d gid opt e Htr Hd
                     | o s cfg d opt ep notes _ Hcfg Htr Hd Hn
                     | s cfg d opt ep comments orphans gid before Hcfg Hcr Htr
                         Hd Hc Ho Hperm].
  - rewrite (new_events_app _ _ _ Htr). apply prepare_not_update. exact Hd.
  - rewrite (new_events_app _ _ _ Htr). apply Forall_app. split.
    + apply prepare_not_update. exact Hd.
    + repeat constructor.
  - rewrite (new_events_app _ _ _ Htr). apply Forall_app. split.
    + apply prepare_not_update. exact Hd.
    + constructor; [reflexivity |]. eapply note_not_update. exact Hn.
  - exfalso. eapply Hnd. reflexivity.
Qed.

Lemma uploads_prepare pid d :
  Forall (upload_to pid) d → Forall (fun e => is_prepare e = true) d.
Proof.
  intros H. eapply Forall_impl; [exact H |]. intros e (id & r & ->). done.
Qed.

Lemma posted_note_on gid gitlabEpic jiraIssue userMap m comments :
  comments_posted E gid gitlabEpic jiraIssue userMap m comments →
  Forall (note_on gid gitlabEpic) comments.
Proof.
  intros (bodies & _ & Hperm). rewrite Hperm.
  apply Forall_fmap, Forall_true. intros b. eexists _, _. reflexivity.
Qed.

Lemma close_events_update gid jiraIssue gitlabEpic tr :
  Forall (fun e => is_update e = true)
    (close_events E gid jiraIssue gitlabEpic tr).
Proof.
  unfold close_events. destruct (jira.Resolution jiraIssue); repeat constructor.
Qed.

(** What follows the first phase is nothing, or the one creation call and
    then notes on the epic it returned and the state update. *)
Lemma anatomy_rest cfg jiraIssue userMap labels R o rest :
  let gid := config.Project_GitLab_Epic cfg in
  run_anatomy E cfg jiraIssue userMap labels R o rest →
  rest = [] ∨
  ∃ opt tail,
    creation_options E cfg jiraIssue userMap labels R.2 = Some opt ∧
    rest = EvCreateEpic gid opt (err_of (CreateEpic E (trace R.2) gid opt))
           :: tail ∧
    (tail = [] ∨
     ∃ gitlabEpic notes close,
       CreateEpic E (trace R.2) gid opt = inl gitlabEpic ∧
       tail = notes ++ close ∧
       Forall (note_on gid gitlabEpic) notes ∧
       Forall (fun e => is_update e = true) close).
Proof.
  intros gid.
  intros [| | | | opt e gid' _ _ Hco Hcr
          | opt ep notes gid' _ _ Hco Hcr Hn
          | opt ep notes e gid' _ _ Hco Hcr Hn _
          | opt ep comments orphans o' gid' _ _ Hco Hcr Hc Ho _
          | opt ep comments orphans gid' _ _ Hco Hcr Hc Ho];
    auto; subst gid'; fold gid in Hcr |- *; right; exists opt;
    eexists; (split; [exact Hco |]); rewrite Hcr; simpl;
    (split; [reflexivity |]); auto; right; exists ep.
  - exists notes, []. rewrite app_nil_r. auto.
  - exists notes, []. rewrite app_nil_r. auto.
  - exists (comments ++ orphans), []. rewrite app_nil_r.
    split; [reflexivity |]. split; [reflexivity |]. split; [| constructor].
    apply Forall_app. split; [| exact Ho].
    eapply posted_note_on. exact Hc.
  - eexists (comments ++ orphans), _. split; [reflexivity |].
    split; [rewrite <- app_assoc; reflexivity |]. split.
    + apply Forall_app. split; [| exact Ho]. eapply posted_note_on. exact Hc.
    + apply close_events_update.
Qed.


(** The fields lines 37-43 and 91-117 give the options. *)
Lemma creation_options_fields cfg jiraIssue userMap labels s1 opt :
  let field := config.Project_Jira_CustomField_EpicStartDate cfg in
  creation_options E cfg jiraIssue userMap labels s1 = Some opt →
  gitlabx.Title opt = Some (jira.Summary jiraIssue) ∧
  gitlabx.Color opt = RandomColor E ∧
  gitlabx.CreatedAt opt = Some (jira.Created jiraIssue) ∧
  gitlabx.Labels opt = Some labels ∧
  (∃ description,
      formatDescription E jiraIssue userMap (attachments s1) true
      = inl description ∧
      gitlabx.Description opt = Some description) ∧
  gitlabx.DueDateFixed opt = Some (jira.Duedate jiraIssue) ∧
  gitlabx.DueDateIsFixed opt
  = (if decide (jira.Duedate jiraIssue = zero_time) then None else Some true) ∧
  (∀ str, field ≠ "" →
          jira.Unknowns jiraIssue !! field = Some (AString str) →
          ∃ t, time_Parse E "2006-01-02" str = inl t ∧
               gitlabx.StartDateIsFixed opt = Some true ∧
               gitlabx.StartDateFixed opt = Some t) ∧
  (field = "" ∨ jira.Unknowns jiraIssue !! field = None ∨
   (∃ v, jira.Unknowns jiraIssue !! field = Some v ∧ ∀ str, v ≠ AString str) →
   gitlabx.StartDateIsFixed opt = None ∧ gitlabx.StartDateFixed opt = None).
Proof.
  intros field. unfold creation_options.
  destruct (formatDescription E jiraIssue userMap (attachments s1) true)
    as [description | e] eqn:Hdesc; [| discriminate].
  set (o0 := with_description description (initial_options E jiraIssue labels)).
  assert (Hdue : ∀ o,
            gitlabx.Title (due_date jiraIssue o) = gitlabx.Title o ∧
            gitlabx.Color (due_date jiraIssue o) = gitlabx.Color o ∧
            gitlabx.CreatedAt (due_date jiraIssue o) = gitlabx.CreatedAt o ∧
            gitlabx.Labels (due_date jiraIssue o) = gitlabx.Labels o ∧
            gitlabx.Description (due_date jiraIssue o) = gitlabx.Description o ∧
            gitlabx.StartDateIsFixed (due_date jiraIssue o)
            = gitlabx.StartDateIsFixed o ∧
            gitlabx.StartDateFixed (due_date jiraIssue o)
            = gitlabx.StartDateFixed o ∧
            (gitlabx.DueDateFixed o = Some (jira.Duedate jiraIssue) →
             gitlabx.DueDateFixed (due_date jiraIssue o)
             = Some (jira.Duedate jiraIssue)) ∧
            (gitlabx.DueDateIsFixed o = None →
             gitlabx.DueDateIsFixed (due_date jiraIssue o)
             = (if decide (jira.Duedate jiraIssue = zero_time)
                then None else Some true))).
  { intros o. unfold due_date.
    destruct (decide (jira.Duedate jiraIssue ≠ zero_time)) as [Hz | Hz];
      destruct (decide (jira.Duedate jiraIssue = zero_time)) as [Hz' | Hz'];
      simpl; try tauto; repeat split; auto. }
  destruct (start_date_result E cfg jiraIssue o0 s1)
    as [[Heq Hno] | (str & Hfield & Hv & Hp)]; fold field in Hno || idtac.
  - rewrite Heq. intros [= <-].
    destruct (Hdue o0) as (-> & -> & -> & -> & -> & -> & -> & Hd1 & Hd2).
    rewrite Hd1, Hd2 by reflexivity. simpl.
    repeat (split; [reflexivity |]). split; [eauto |].
    repeat (split; [reflexivity |]). split; [| auto].
    intros str Hf Hv. exfalso. fold field in Hno.
    destruct Hno as [Hno | [Hno | (v & Hno & Hns)]]; try congruence.
  - fold field in Hfield, Hv.
    destruct (time_Parse E "2006-01-02" str) as [t | e] eqn:Ht;
      rewrite Hp; [| discriminate].
    intros [= <-].
    destruct (Hdue (with_start_date t o0))
      as (-> & -> & -> & -> & -> & -> & -> & Hd1 & Hd2).
    rewrite Hd1, Hd2 by reflexivity. simpl.
    repeat (split; [reflexivity |]). split; [eauto |].
    repeat (split; [reflexivity |]). split.
    + intros str' _ Hv'. rewrite Hv in Hv'. injection Hv' as <-.
      exists t. auto.
    + intros [Hno | [Hno | (v & Hno & Hns)]]; try congruence.
Qed.

Lemma not_created_in (P : Event -> Prop) gid opt res l :
  Forall P l → (¬ P (EvCreateEpic gid opt res)) → EvCreateEpic gid opt res ∉ l.
Proof. intros Hl Hn Hin. rewrite Forall_forall in Hl. exact (Hn (Hl _ Hin)). Qed.

(** X7: the creation call of a run is made on the group
    [cfg.Project.GitLab.Epic] with the summary as title, the random
    colour, the creation time and the converted labels of the issue, the
    description [formatDescription] gives for the map of relocated
    attachments, the due date always set and marked fixed exactly when it
    is not the zero time, and the start date set and marked fixed exactly
    when the configured field holds a string, which [time.Parse] accepted. *)
Theorem creation_call_fields sched1 sched2 sched3 jiraIssue userMap tr0 cfg
    gid opt res :
  let run := ConvertJiraIssueToGitLabEpic E sched1 sched2 sched3 jiraIssue
               userMap tr0 in
  let field := config.Project_Jira_CustomField_EpicStartDate cfg in
  GetConfig E = inl cfg →
  EvCreateEpic gid opt res ∈ new_events tr0 run.2 →
  gid = config.Project_GitLab_Epic cfg ∧
  gitlabx.Title opt = Some (jira.Summary jiraIssue) ∧
  gitlabx.Color opt = RandomColor E ∧
  gitlabx.CreatedAt opt = Some (jira.Created jiraIssue) ∧
  (∃ labels,
      convertJiraToGitLabLabels E tr0 (config.Project_GitLab_Epic cfg)
        jiraIssue true = inl labels ∧
      gitlabx.Labels opt = Some labels) ∧
  (∃ description,
      formatDescription E jiraIssue userMap (attachments run.2) true
      = inl description ∧
      gitlabx.Description opt = Some description) ∧
  gitlabx.DueDateFixed opt = Some (jira.Duedate jiraIssue) ∧
  gitlabx.DueDateIsFixed opt
  = (if decide (jira.Duedate jiraIssue = zero_time) then None else Some true) ∧
  (∀ str, field ≠ "" →
          jira.Unknowns jiraIssue !! field = Some (AString str) →
          ∃ t, time_Parse E "2006-01-02" str = inl t ∧
               gitlabx.StartDateIsFixed opt = Some true ∧
               gitlabx.StartDateFixed opt = Some t) ∧
  (field = "" ∨ jira.Unknowns jiraIssue !! field = None ∨
   (∃ v, jira.Unknowns jiraIssue !! field = Some v ∧ ∀ str, v ≠ AString str) →
   gitlabx.StartDateIsFixed opt = None ∧ gitlabx.StartDateFixed opt = None).
Proof.
  intros run field Hcfg Hin.
  destruct (convert_shape E sched1 sched2 sched3 jiraIssue userMap tr0)
    as (_ & Hatt & _).
  fold run in Hatt. rewrite Hatt. clear Hatt.
  destruct (run_without_labels sched1 sched2 sched3 jiraIssue userMap tr0)
    as [(e & He & _) | [(cfg' & e & Hcfg' & _ & Hrun)
                       | (cfg' & labels & Hcfg' & Hlab)]];
    [congruence | |]; assert (cfg' = cfg) by congruence; subst cfg'.
  { exfalso. fold run in Hrun. rewrite Hrun in Hin. unfold new_events in Hin.
    simpl in Hin. rewrite drop_app_length in Hin.
    apply list_elem_of_singleton in Hin. discriminate. }
  destruct (run_events sched1 sched2 sched3 jiraIssue userMap tr0 cfg labels
              Hcfg Hlab) as (uploads & rest & _ & Hnew & Hup & _ & Han).
  fold run in Hnew, Han. rewrite Hnew in Hin.
  apply elem_of_cons in Hin as [Hin | Hin]; [discriminate |].
  apply elem_of_app in Hin as [Hin | Hin].
  { exfalso. revert Hin. eapply not_created_in; [exact Hup |].
    intros (id & r & [=]). }
  destruct (anatomy_rest _ _ _ _ _ _ _ Han)
    as [-> | (opt' & tail & Hco & -> & Htail)];
    [apply elem_of_nil in Hin; contradiction |].
  assert (Hhead : EvCreateEpic gid opt res ∉ tail).
  { destruct Htail as [-> | (ep & notes & close & _ & -> & Hn & Hc)];
      [apply not_elem_of_nil |].
    apply not_elem_of_app. split.
    - eapply not_created_in; [exact Hn |]. intros (b & r & [=]).
    - eapply not_created_in; [exact Hc |]. discriminate. }
  apply elem_of_cons in Hin as [Hin | Hin]; [| contradiction].
  injection Hin as -> -> _.
  destruct (creation_options_fields cfg jiraIssue userMap labels _ _ Hco)
    as (H1 & H2 & H3 & H4 & H5 & H6 & H7 & H8 & H9).
  split; [reflexivity |]. repeat (split; [assumption |]).
  split; [eauto |]. repeat (split; [assumption |]). assumption.
Qed.

(** X8: every note a call posts - for a comment or for a remaining
    attachment - comes after the one creation call of the call, which the
    target system accepted, and is addressed to the epic that call
    returned, by its [ID], in the group [cfg.Project.GitLab.Epic]. *)
Theorem notes_are_on_the_created_epic sched1 sched2 sched3 jiraIssue userMap
    tr0 gid eid body res :
  let run := ConvertJiraIssueToGitLabEpic E sched1 sched2 sched3 jiraIssue
               userMap tr0 in
  EvCreateEpicNote gid eid body res ∈ new_events tr0 run.2 →
  ∃ cfg d opt gitlabEpic rest,
    GetConfig E = inl cfg ∧
    new_events tr0 run.2 = d ++ EvCreateEpic gid opt None :: rest ∧
    Forall (fun e => is_prepare e = true) d ∧
    EvCreateEpicNote gid eid body res ∈ rest ∧
    CreateEpic E (tr0 ++ d) gid opt = inl gitlabEpic ∧
    gid = config.Project_GitLab_Epic cfg ∧
    eid = gitlab.ID gitlabEpic.
Proof.
  intros run Hin.
  destruct (run_without_labels sched1 sched2 sched3 jiraIssue userMap tr0)
    as [(e & _ & Hrun) | [(cfg & e & _ & _ & Hrun)
                         | (cfg & labels & Hcfg & Hlab)]];
    try (exfalso; fold run in Hrun; rewrite Hrun in Hin;
         unfold new_events in Hin; simpl in Hin).
  { rewrite drop_all in Hin. apply elem_of_nil in Hin. exact Hin. }
  { rewrite drop_app_length in Hin. apply list_elem_of_singleton in Hin.
    discriminate. }
  destruct (run_events sched1 sched2 sched3 jiraIssue userMap tr0 cfg labels
              Hcfg Hlab) as (uploads & rest & Htr1 & Hnew & Hup & _ & Han).
  fold run in Hnew, Han. rewrite Hnew in Hin.
  apply elem_of_cons in Hin as [Hin | Hin]; [discriminate |].
  apply elem_of_app in Hin as [Hin | Hin].
  { exfalso. rewrite Forall_forall in Hup.
    destruct (Hup _ Hin) as (id & r & [=]). }
  destruct (anatomy_rest _ _ _ _ _ _ _ Han)
    as [-> | (opt & tail & Hco & -> & Htail)];
    [apply elem_of_nil in Hin; contradiction |].
  apply elem_of_cons in Hin as [Hin | Hin]; [discriminate |].
  destruct Htail as [-> | (ep & notes & close & Hcr & -> & Hn & Hc)];
    [apply elem_of_nil in Hin; contradiction |].
  assert (Hnote : EvCreateEpicNote gid eid body res ∈ notes).
  { apply elem_of_app in Hin as [Hin' | Hin']; [exact Hin' |].
    rewrite Forall_forall in Hc. specialize (Hc _ Hin'). discriminate. }
  rewrite Forall_forall in Hn. destruct (Hn _ Hnote) as (b & r & [= -> -> _ _]).
  exists cfg, (EvConvertLabels (config.Project_GitLab_Epic cfg)
                 (jira.Key jiraIssue) None :: uploads), opt, ep,
    (notes ++ close).
  split; [exact Hcfg |].
  split; [rewrite Hnew, Hcr; reflexivity |].
  split; [constructor; [reflexivity | eapply uploads_prepare; exact Hup] |].
  split; [exact Hin |].
  split; [| split; reflexivity].
  rewrite <- Hcr. f_equal. symmetry. exact Htr1.
Qed.

(** X9: the errors a call returns and what causes each: a call that
    returns an error returns one of eight wrapped errors, each named by
    its message - the configuration could not be read; the labels could
    not be converted; an upload was refused; the description could not be
    formatted; the start date could not be parsed; the creation was
    refused; a comment could not be formatted or its note was refused; a
    note of a remaining attachment was refused. *)
Theorem returned_errors_and_their_causes sched1 sched2 sched3 jiraIssue
    userMap tr0 err :
  let run := ConvertJiraIssueToGitLabEpic E sched1 sched2 sched3 jiraIssue
               userMap tr0 in
  run.1 = Return (inr err) →
  (∃ e, GetConfig E = inr e ∧ err = ErrWrap e "Error getting config") ∨
  ∃ cfg,
    GetConfig E = inl cfg ∧
    let gid := config.Project_GitLab_Epic cfg in
    let pid := config.Project_GitLab_Issue cfg in
    let field := config.Project_Jira_CustomField_EpicStartDate cfg in
    ((∃ e, convertJiraToGitLabLabels E tr0 gid jiraIssue true = inr e ∧
           err = ErrWrap e "Error converting Jira labels to GitLab labels") ∨
     (∃ id e,
         EvUpload pid id (Some e) ∈ new_events tr0 run.2 ∧
         err = ErrWrap
                 (ErrWrap e "Error converting Jira attachment to GitLab attachment")
                 "Error converting Jira attachment to GitLab attachment") ∨
     (∃ e, formatDescription E jiraIssue userMap (attachments run.2) true
           = inr e ∧
           err = ErrWrap e "Error formatting description") ∨
     (∃ str e,
         field ≠ "" ∧
         jira.Unknowns jiraIssue !! field = Some (AString str) ∧
         time_Parse E "2006-01-02" str = inr e ∧
         err = ErrWrap e "Error parsing time") ∨
     (∃ opt e,
         EvCreateEpic gid opt (Some e) ∈ new_events tr0 run.2 ∧
         err = ErrWrap e "Error creating GitLab epic") ∨
     (∃ opt gitlabEpic e,
         EvCreateEpic gid opt None ∈ new_events tr0 run.2 ∧
         ((∃ c e', c ∈ jira.Comments jiraIssue ∧
                   formatNote E (jira.Key jiraIssue) c userMap
                     (attachments run.2) true = inr e' ∧
                   e = ErrWrap e' "Error formatting comment") ∨
          (∃ body e',
              EvCreateEpicNote gid (gitlab.ID gitlabEpic) body (Some e')
              ∈ new_events tr0 run.2 ∧
              e = ErrWrap e' "Error creating note")) ∧
         err = ErrWrap e
                 ("Error creating GitLab comment with gid " +:+ gid +:+
                  ", epic ID " +:+ pretty (gitlab.ID gitlabEpic))) ∨
     (∃ opt eid body e,
         EvCreateEpic gid opt None ∈ new_events tr0 run.2 ∧
         EvCreateEpicNote gid eid body (Some e) ∈ new_events tr0 run.2 ∧
         err = ErrWrap (ErrWrap e "Error creating note")
                 "Error creating GitLab issue")).
Proof.
  intros run Hret.
  destruct (convert_shape E sched1 sched2 sched3 jiraIssue userMap tr0)
    as (_ & Hatt & _).
  fold run in Hatt. rewrite Hatt. clear Hatt.
  destruct (run_without_labels sched1 sched2 sched3 jiraIssue userMap tr0)
    as [(e & Hcfg & Hrun) | [(cfg & e & Hcfg & Hlab & Hrun)
                            | (cfg & labels & Hcfg & Hlab)]].
  { left. exists e. split; [exact Hcfg |]. fold run in Hrun.
    rewrite Hrun in Hret. simpl in Hret. congruence. }
  { right. exists cfg. split; [exact Hcfg |]. left. exists e.
    split; [exact Hlab |]. fold run in Hrun. rewrite Hrun in Hret.
    simpl in Hret. congruence. }
  right. exists cfg. split; [exact Hcfg |]. cbv zeta. right.
  destruct (run_events sched1 sched2 sched3 jiraIssue userMap tr0 cfg labels
              Hcfg Hlab) as (uploads & rest & _ & Hnew & Hup & Hbar & Han).
  fold run in Hnew, Han. rewrite Hnew. rewrite Hret in Han.
  assert (Hf : all_finished (relocation_phase E sched1 jiraIssue tr0).1 = true)
    by (inversion Han; assumption).
  destruct (Hbar Hf) as (_ & Hsome & _). clear Hbar.
  assert (Hcreated : ∀ opt r tail,
            EvCreateEpic (config.Project_GitLab_Epic cfg) opt r
            ∈ EvConvertLabels (config.Project_GitLab_Epic cfg)
                (jira.Key jiraIssue) None ::
              uploads ++ EvCreateEpic (config.Project_GitLab_Epic cfg) opt r ::
              tail).
  { intros opt r tail. apply list_elem_of_further, elem_of_app. right.
    apply list_elem_of_here. }
  assert (Hnoted : ∀ opt r l ev tail,
            ev ∈ l →
            ev ∈ EvConvertLabels (config.Project_GitLab_Epic cfg)
                   (jira.Key jiraIssue) None ::
                 uploads ++ EvCreateEpic (config.Project_GitLab_Epic cfg) opt r ::
                 l ++ tail).
  { intros opt r l ev tail Hev. apply list_elem_of_further, elem_of_app. right.
    apply list_elem_of_further, elem_of_app. left. exact Hev. }
  inversion Han as [| e0 _ Hg | e0 _ _ Hd | description str e0 _ _ _ Hfield Hv Ht
                   | opt e0 gid _ _ _ _ | |
                   opt ep notes e0 gid _ _ _ _ Hn Hfail
                   | opt ep comments orphans o gid _ _ _ _ Hc Ho
                       [Ho' | (e0 & (ev & Hev & Ha) & Ho')] |];
    subst; try discriminate.
  - left. destruct (Hsome _ Hg) as (e' & (ev & Hin & Hev) & ->).
    rewrite Forall_forall in Hup. destruct (Hup _ Hin) as (id & res & ->).
    simpl in Hev. subst res. exists id, e'. split; [| reflexivity].
    apply list_elem_of_further, elem_of_app. left. exact Hin.
  - right. left. eauto.
  - right. right. left. eauto 6.
  - right. right. right. left. exists opt, e0. split; [apply Hcreated | reflexivity].
  - right. right. right. right. left. exists opt, ep, e0.
    split; [apply Hcreated |]. split; [| reflexivity].
    destruct Hfail as [(c & e' & Hc & Hfmt & ->) | (e' & (ev & Hev & Ha) & ->)].
    + left. eauto.
    + right. rewrite Forall_forall in Hn.
      destruct (Hn _ Hev) as (body & r & ->). simpl in Ha. subst r.
      exists body, e'. split; [| reflexivity].
      rewrite <- (app_nil_r notes). apply Hnoted. exact Hev.
  - right. right. right. right. right.
    rewrite Forall_forall in Ho. destruct (Ho _ Hev) as (body & r & ->).
    simpl in Ha. subst r. injection Ho' as ->.
    exists opt, (gitlab.ID ep), body, e0.
    split; [apply Hcreated |]. split; [| reflexivity].
    rewrite <- (app_nil_r (comments ++ orphans)). apply Hnoted.
    apply elem_of_app. right. exact Hev.
Qed.

End EveryRun.

(** ** Which markup the pattern matches *)

Lemma dot_plus_complete {A : Type} (k : string -> option A) g rest a :
  g ≠ "" → occurs "010" g = false → k rest = Some a →
  is_Some (Regexp.dot_plus k (g +:+ rest)).
Proof.
  intros Hg Hnl Hk. induction g as [| c g IH]; [done |].
  cbn [occurs] in Hnl. apply orb_false_elim in Hnl as [Hc Hnl].
  rewrite append_cons. cbn [Regexp.dot_plus]. unfold Regexp.is_newline.
  rewrite Hc. destruct g as [| c' g].
  - change ("" +:+ rest) with rest.
    destruct (Regexp.dot_plus k rest) as [[g' a'] |]; [eauto |].
    rewrite Hk. eauto.
  - destruct (IH ltac:(discriminate) Hnl) as [[g' a'] ->]. eauto.
Qed.

Lemma match_here_complete alt url post :
  alt ≠ "" → url ≠ "" →
  occurs "010" alt = false → occurs "010" url = false →
  is_Some (Regexp.match_here
             ("![" +:+ alt +:+ "](" +:+ url +:+ ")" +:+ post)).
Proof.
  intros Halt Hurl Hna Hnu. unfold Regexp.match_here.
  change (Regexp.lit "![" ("![" +:+ alt +:+ "](" +:+ url +:+ ")" +:+ post))
    with (Some (alt +:+ "](" +:+ url +:+ ")" +:+ post)).
  cbv beta iota.
  set (k1 := fun s2 : string =>
               match Regexp.lit "](" s2 with
               | None => None
               | Some s3 =>
                   match Regexp.dot_plus (fun s4 => Regexp.lit ")" s4) s3 with
                   | Some (url, _) => Some url
                   | None => None
                   end
               end).
  destruct (dot_plus_complete (fun s4 => Regexp.lit ")" s4) url (")" +:+ post)
              post Hurl Hnu eq_refl) as [[u p] Hu].
  assert (Hk1 : k1 ("](" +:+ url +:+ ")" +:+ post) = Some u).
  { unfold k1.
    change (Regexp.lit "](" ("](" +:+ url +:+ ")" +:+ post))
      with (Some (url +:+ ")" +:+ post)).
    cbv beta iota. rewrite Hu. reflexivity. }
  destruct (dot_plus_complete k1 alt _ u Halt Hna Hk1) as [[a' u'] ->]. eauto.
Qed.

Lemma FindStringSubmatch_complete pre m :
  is_Some (Regexp.match_here m) → Regexp.FindStringSubmatch (pre +:+ m) ≠ [].
Proof.
  intros [[alt url] Hm]. induction pre as [| c pre IH].
  - change ("" +:+ m) with m. destruct m as [| c m];
      unfold Regexp.FindStringSubmatch; fold Regexp.FindStringSubmatch;
      rewrite Hm; discriminate.
  - rewrite append_cons.
    unfold Regexp.FindStringSubmatch; fold Regexp.FindStringSubmatch.
    destruct (Regexp.match_here (String c (pre +:+ m))) as [[a u] |];
      [discriminate | exact IH].
Qed.

(** X10: the pattern of line 61 finds a match in a string exactly when
    the string holds, somewhere, ["!["], a non-empty text without line
    feed, ["]("], another such text and [")"]: an upload that answers any
    other markup - a plain link, an empty alternative text - is not
    relocated. *)
Theorem pattern_matches_iff_embed s :
  Regexp.FindStringSubmatch s ≠ [] ↔
  ∃ pre alt url post,
    s = pre +:+ "![" +:+ alt +:+ "](" +:+ url +:+ ")" +:+ post ∧
    alt ≠ "" ∧ url ≠ "" ∧
    occurs "010" alt = false ∧ occurs "010" url = false.
Proof.
  split.
  - intros Hne.
    destruct (FindStringSubmatch_shape s) as [H | (alt & url & H)];
      [contradiction |].
    destruct (FindStringSubmatch_sound _ _ _ _ H)
      as (_ & Ha & Hu & Hna & Hnu & pre & post & ->).
    exists pre, alt, url, post. done.
  - intros (pre & alt & url & post & -> & Ha & Hu & Hna & Hnu).
    apply FindStringSubmatch_complete, match_here_complete; assumption.
Qed.

(** ** The Jira client of a process *)

Section FreshPackage.
Context {Client User : Type}.
Context (NewClient : string -> string -> result Client).
Context (GetSelf : list Client -> Client -> result User).

Lemma calls_cached client (p : config.Package (Client := Client)) configs :
  config.jiraClient p = Some client →
  config.calls NewClient GetSelf configs p
  = (config.Returned <$> (const client <$> configs), p).
Proof.
  intros Hp. induction configs as [| c configs IH]; [reflexivity |].
  simpl. unfold config.GetJiraClient. rewrite Hp.
  fold (config.GetJiraClient NewClient GetSelf).
  rewrite IH. reflexivity.
Qed.

(** X13: the calls of a process, from its start: the client is built
    from the configuration of the first call and nothing else; one request
    is sent, by that call; if the client cannot be built or the request
    fails, the process ends there, with nothing cached; otherwise every
    call returns that client, whatever configuration the later calls are
    given. *)
Theorem first_configuration_decides jiraConfig configs :
  let fresh : config.Package :=
    {| config.jiraClient := None; config.requests := [] |} in
  let run := config.calls NewClient GetSelf (jiraConfig :: configs) fresh in
  match NewClient (config.Host jiraConfig) (config.Token jiraConfig) with
  | inr err =>
      run = ([config.Fatal ("Error creating Jira client: " +:+ Error err)],
             fresh)
  | inl client =>
      match GetSelf [] client with
      | inr _ =>
          run = ([config.Fatal "Error getting current user for Jira"],
                 {| config.jiraClient := None; config.requests := [client] |})
      | inl _ =>
          run = (config.Returned client
                   :: (config.Returned <$> (const client <$> configs)),
                 {| config.jiraClient := Some client;
                    config.requests := [client] |})
      end
  end.
Proof.
  intros fresh run. subst run. cbn [config.calls].
  unfold config.GetJiraClient. cbn [config.jiraClient config.requests fresh].
  destruct (NewClient (config.Host jiraConfig) (config.Token jiraConfig))
    as [client | err]; [| reflexivity].
  cbn [app]. destruct (GetSelf [] client) as [user | err]; [| reflexivity].
  fold (config.GetJiraClient NewClient GetSelf).
  rewrite (calls_cached client) by reflexivity. reflexivity.
Qed.

End FreshPackage.

(** ** The limit of the group *)

Lemma filter_insert_length {A : Type} (P : A -> Prop)
    `{∀ x, Decision (P x)} (l : list A) k x x' :
  l !! k = Some x → (P x' → P x) →
  (length (filter P (<[k := x']> l)) ≤ length (filter P l))%nat.
Proof.
  intros Hk Himp.
  rewrite insert_take_drop by (eapply lookup_lt_Some; eauto).
  rewrite <- (take_drop_middle l k x Hk) at 3.
  rewrite !filter_app, !filter_cons, !length_app.
  destruct (decide (P x')) as [Hx' | Hx'];
    destruct (decide (P x)) as [Hx | Hx]; simpl; try lia.
  exfalso. auto.
Qed.

(** When every element that satisfies [P] has fewer than [n] elements
    that satisfy [Q] before it, and [P] implies [Q], at most [n] elements
    satisfy [P]. *)
Lemma filter_length_bound {A : Type} (P Q : A -> Prop)
    `{∀ x, Decision (P x)} `{∀ x, Decision (Q x)} (n : nat) (l : list A) :
  (∀ x, P x → Q x) →
  (∀ i x, l !! i = Some x → P x → (length (filter Q (take i l)) < n)%nat) →
  (length (filter P l) ≤ n)%nat.
Proof.
  intros HPQ. induction l as [| x l IH] using rev_ind; intros Hl;
    [simpl; lia |].
  assert (IHl : (length (filter P l) ≤ n)%nat).
  { apply IH. intros i y Hi Hy.
    specialize (Hl i y (lookup_app_l_Some _ _ _ _ Hi) Hy).
    rewrite take_app_le in Hl by (apply lookup_lt_Some in Hi; lia).
    exact Hl. }
  rewrite filter_app, length_app, filter_cons.
  destruct (decide (P x)) as [Hx | Hx]; simpl; [| lia].
  assert (Hlast : (l ++ [x]) !! length l = Some x).
  { rewrite lookup_app_r by lia. rewrite Nat.sub_diag. reflexivity. }
  specialize (Hl (length l) x Hlast Hx). rewrite take_app_length in Hl.
  assert ((length (filter P l) ≤ length (filter Q l))%nat); [| lia].
  clear -HPQ. induction l as [| y l IH]; [simpl; lia |].
  rewrite !filter_cons.
  destruct (decide (P y)) as [Hy | Hy]; destruct (decide (Q y)) as [Hq | Hq];
    simpl; try lia.
  exfalso. auto.
Qed.

Section Limit.
Context (E : Env).

Lemma step_thread_running th s :
  running (step_thread E th s).2 = true → running th = true.
Proof. destruct th as [t | r]; simpl; [reflexivity |]. discriminate. Qed.

(** Under every schedule, a goroutine that is past its upload call has
    fewer than [limit] unfinished goroutines before it. *)
Lemma run_group_uploading sched pool s :
  Forall (fun th => uploading th = false) pool →
  ∀ i th,
    (run_group E sched pool s).1 !! i = Some th → uploading th = true →
    (length (filter (fun th => running th = true)
               (take i (run_group E sched pool s).1)) < limit)%nat.
Proof.
  intros H0.
  apply (run_group_ind E
           (fun p _ =>
              ∀ i th, p !! i = Some th → uploading th = true →
                      (length (filter (fun th => running th = true) (take i p))
                       < limit)%nat)).
  - clear. intros pool s k thk HI Hk Hadm i th Hi Hup.
    assert (Hlt : (k < length pool)%nat) by (eapply lookup_lt_Some; eauto).
    destruct (decide (i ≤ k)%nat) as [Hle | Hgt].
    + rewrite take_insert_ge by exact Hle.
      destruct (decide (i = k)) as [-> | Hne].
      * rewrite list_lookup_insert_eq in Hi by exact Hlt. injection Hi as <-.
        destruct (uploading thk) eqn:Hthk; [eapply HI; eauto |].
        unfold admitted in Hadm. apply bool_decide_eq_true in Hadm. exact Hadm.
      * rewrite list_lookup_insert_ne in Hi by done. eapply HI; eauto.
    + rewrite list_lookup_insert_ne in Hi by lia.
      rewrite take_insert_lt by lia.
      eapply Nat.le_lt_trans; [| eapply HI; eauto].
      apply (filter_insert_length _ _ k thk).
      * rewrite lookup_take_lt by lia. exact Hk.
      * apply step_thread_running.
  - intros i th Hi Hup. rewrite Forall_forall in H0.
    rewrite (H0 th) in Hup; [discriminate |].
    eapply list_elem_of_lookup_2. exact Hi.
Qed.

(** X15: the limit of the group holds in the first phase: whatever the
    schedule, at no instant are more than five goroutines past their
    upload call and not yet returned. *)
Theorem at_most_five_uploads_at_once sched1 jiraIssue tr0 :
  (length (filter (fun th => uploading th = true)
             (relocation_phase E sched1 jiraIssue tr0).1) ≤ limit)%nat.
Proof.
  assert (Hgen : ∀ cfg pid (atts : list jira.Attachment) s,
            (length (filter (fun th => uploading th = true)
                       (run_group E sched1
                          (Running <$> (relocate_task cfg pid <$> atts)) s).1)
             ≤ limit)%nat).
  { intros cfg pid atts s.
    apply (filter_length_bound _ (fun th => running th = true)).
    - intros [[] | r]; simpl; done.
    - apply run_group_uploading.
      apply Forall_fmap, Forall_fmap, Forall_true. intros a. reflexivity. }
  unfold relocation_phase.
  destruct (GetConfig E) as [cfg | e]; [| simpl; unfold limit; lia].
  destruct (convertJiraToGitLabLabels E tr0 _ jiraIssue true);
    [apply Hgen | simpl; unfold limit; lia].
Qed.

End Limit.

(** ** Worked runs *)

(** C1, as the code stands: the screenshot of PROJ-1 is embedded inline in
    the description the epic is created with, and the last phase posts it
    once more as a note of its own. *)
Example inline_attachment_is_posted_again :
  let markup :=
    "![1.png](https://gitlab.example.com/group/issues//uploads/a1/1.png)" in
  let run := Demo.run None (Demo.issue [Demo.screenshot] None) in
  ∃ gitlabEpic opt,
    run.1 = Return (inl gitlabEpic) ∧
    gitlabx.Description opt = Some ("Crash on start, see 1.png " +:+ markup) ∧
    new_events [] run.2
    = [ EvConvertLabels "group" "PROJ-1" None;
        EvUpload "group/issues" "a1" None;
        EvCreateEpic "group" opt None;
        EvCreateEpicNote "group" (gitlab.ID gitlabEpic) "Fixed." None;
        EvCreateEpicNote "group" (gitlab.ID gitlabEpic) markup None;
        EvUpdateEpic "group" (gitlab.IID gitlabEpic) "close" None ].
Proof. vm_compute. eexists _, _. repeat split; reflexivity. Qed.

(** C2, as the code stands: the upload of the report answers with markup
    the pattern does not match; its goroutine returns nil, nothing is
    stored for it, and the call goes on to create the epic and returns it. *)
Example unmatched_markup_does_not_abort :
  let run := Demo.run None (Demo.issue [Demo.report] None) in
  (∃ attachment,
      Demo.upload Demo.report = inl attachment ∧
      Markdown attachment = "[report.pdf](/uploads/a2/report.pdf)" ∧
      Regexp.FindStringSubmatch (Markdown attachment) = [] ∧
      run_task (Demo.env None)
        (relocate_task Demo.cfg "group/issues" Demo.report) (init_state [])
      = (log (EvUpload "group/issues" "a2" None) (init_state []), None)) ∧
  (∃ gitlabEpic, run.1 = Return (inl gitlabEpic)) ∧
  attachments run.2 = ∅ ∧
  length (filter (fun e => is_create_epic e = true) (new_events [] run.2)) = 1%nat.
Proof.
  split; [eexists; repeat split; reflexivity |].
  vm_compute. split; [eexists; reflexivity |]. split; reflexivity.
Qed.

(** The theorems above at the runs of PROJ-1 and PROJ-2. *)

Lemma relocation_error_aborts_witness :
  let E := Demo.env None in
  let i := Demo.issue [Demo.screenshot; Demo.empty_file] None in
  let e := ErrWrap (ErrNew "400 Bad Request")
             "Error converting Jira attachment to GitLab attachment" in
  let run := ConvertJiraIssueToGitLabEpic E (sequential 2) (sequential 2)
               (sequential 2) i ∅ [] in
  all_finished (relocation_phase E (sequential 2) i []).1 = true ∧
  (relocation_phase E (sequential 2) i []).1 !! 1%nat = Some (Finished (Some e)) ∧
  (∃ e', run.1 = Return (inr e')) ∧
  Forall (fun ev => is_create_epic ev = false) (new_events [] run.2).
Proof.
  intros E i e run.
  split; [vm_compute; reflexivity |]. split; [vm_compute; reflexivity |].
  apply (relocation_error_aborts E (sequential 2) (sequential 2) (sequential 2)
           i ∅ [] 1%nat e); vm_compute; reflexivity.
Defined.

Lemma relocated_markup_is_absolute_witness :
  let E := Demo.env None in
  let attachment :=
    {| Markdown := "![1.png](/uploads/a1/1.png)"; Name := "1.png";
       CreatedAt := 86400 |} in
  let stored :=
    {| Markdown :=
         "![1.png](https://gitlab.example.com/group/issues//uploads/a1/1.png)";
       Name := "1.png"; CreatedAt := 86400 |} in
  let run := run_group E (sequential 2)
               (Running <$> (relocate_task Demo.cfg "group/issues"
                               <$> [Demo.report; Demo.screenshot]))
               (init_state []) in
  (∀ tr, convertJiraAttachmentToMarkdown E tr "group/issues" Demo.screenshot
         = inl attachment) ∧
  Regexp.FindStringSubmatch (Markdown attachment)
  = ["![1.png](/uploads/a1/1.png)"; "1.png"; "/uploads/a1/1.png"] ∧
  attachments
    (run_task E (relocate_task Demo.cfg "group/issues" Demo.screenshot)
       (init_state [])).1
  = <["a1" := stored]> ∅ ∧
  all_finished run.1 = true ∧
  attachments run.2 !! "a1" = Some stored.
Proof.
  intros E attachment stored run.
  assert (Hup : ∀ tr, convertJiraAttachmentToMarkdown E tr "group/issues"
                        Demo.screenshot = inl attachment)
    by (intros tr; reflexivity).
  assert (Hmatch : Regexp.FindStringSubmatch (Markdown attachment)
                   = ["![1.png](/uploads/a1/1.png)"; "1.png"; "/uploads/a1/1.png"])
    by reflexivity.
  assert (Hfin : all_finished run.1 = true) by (vm_compute; reflexivity).
  destruct (relocated_markup_is_absolute E Demo.cfg "group/issues"
              Demo.screenshot attachment _ _ _ Hup Hmatch) as [Halone Hbarrier].
  split; [exact Hup |]. split; [exact Hmatch |].
  split; [exact (proj1 (proj2 (Halone (init_state [])))) |].
  split; [exact Hfin |].
  apply (Hbarrier (sequential 2) [Demo.report; Demo.screenshot] (init_state []));
    [right; left | | exact Hfin].
  intros a' Hin Hid.
  apply elem_of_cons in Hin as [-> | Hin]; [discriminate |].
  apply list_elem_of_singleton in Hin. exact Hin.
Defined.

Lemma bare_issue_one_creation_no_notes_witness :
  let run := Demo.run None Demo.bare in
  let gitlabEpic :=
    {| gitlab.ID := 100; gitlab.IID := 1; gitlab.Title := "Write docs";
       gitlab.State := "opened" |} in
  jira.Attachments Demo.bare = [] ∧
  jira.Comments Demo.bare = [] ∧
  run.1 = Return (inl gitlabEpic) ∧
  length (filter (fun e => is_create_epic e = true) (new_events [] run.2)) = 1%nat ∧
  filter (fun e => is_note e = true) (new_events [] run.2) = [].
Proof.
  intros run gitlabEpic.
  split; [reflexivity |]. split; [reflexivity |].
  split; [vm_compute; reflexivity |].
  apply (bare_issue_one_creation_no_notes (Demo.env None) (sequential 2)
           (sequential 2) (sequential 2) Demo.bare ∅ [] gitlabEpic);
    vm_compute; reflexivity.
Defined.

Lemma resolution_decides_close_witness :
  let E := Demo.env None in
  let resolved := Demo.issue [Demo.screenshot] None in
  let run := ConvertJiraIssueToGitLabEpic E (sequential 2) (sequential 2)
               (sequential 2) resolved ∅ [] in
  let gitlabEpic :=
    {| gitlab.ID := 100; gitlab.IID := 1; gitlab.Title := "Fix bug";
       gitlab.State := "opened" |} in
  (run.1 = Return (inl gitlabEpic) ∧
   is_Some (jira.Resolution resolved) ∧
   ∃ before res,
     new_events [] run.2 = before ++ [EvUpdateEpic "group" 1 "close" res] ∧
     (res = None → observed_state "group" 1 (trace run.2) = "closed")) ∧
  (jira.Resolution Demo.bare = None ∧
   Forall (fun e => is_update e = false)
     (new_events []
        (ConvertJiraIssueToGitLabEpic E (sequential 2) (sequential 2)
           (sequential 2) Demo.bare ∅ []).2)).
Proof.
  intros E resolved run gitlabEpic. split.
  - assert (Hrun : run.1 = Return (inl gitlabEpic)) by (vm_compute; reflexivity).
    assert (Hres : is_Some (jira.Resolution resolved)) by (eexists; reflexivity).
    split; [exact Hrun |]. split; [exact Hres |].
    destruct (proj1 (resolution_decides_close E (sequential 2) (sequential 2)
                       (sequential 2) resolved ∅ []) gitlabEpic Hrun Hres)
      as (cfg & d & opt & comments & orphans & res & Hcfg & Hnew & _ & _ & _
          & Hobs & _).
    injection Hcfg as <-.
    exists (d ++ EvCreateEpic "group" opt None :: comments ++ orphans), res.
    split; [| exact Hobs].
    fold run in Hnew. rewrite Hnew. simpl.
    rewrite <- app_assoc. simpl. rewrite <- app_assoc. reflexivity.
  - split; [reflexivity |].
    apply (proj2 (resolution_decides_close E (sequential 2) (sequential 2)
                    (sequential 2) Demo.bare ∅ [])).
    reflexivity.
Defined.

(** Where the target system refuses the state update, the call on the
    resolved PROJ-1 still returns the epic, and the epic is open. *)
Lemma resolution_decides_close_counterexample :
  let E := Demo.env (Some (ErrNew "403 Forbidden")) in
  let resolved := Demo.issue [Demo.screenshot] None in
  let run := ConvertJiraIssueToGitLabEpic E (sequential 2) (sequential 2)
               (sequential 2) resolved ∅ [] in
  let gitlabEpic :=
    {| gitlab.ID := 100; gitlab.IID := 1; gitlab.Title := "Fix bug";
       gitlab.State := "opened" |} in
  is_Some (jira.Resolution resolved) ∧
  run.1 = Return (inl gitlabEpic) ∧
  EvUpdateEpic "group" 1 "close" (Some (ErrNew "403 Forbidden"))
    ∈ new_events [] run.2 ∧
  observed_state "group" 1 (trace run.2) = "opened".
Proof.
  intros E resolved run gitlabEpic.
  split; [eexists; reflexivity |].
  split; [vm_compute; reflexivity |].
  split; [vm_compute; do 5 right; left | vm_compute; reflexivity].
Qed.

Lemma failed_close_still_returns_epic_witness :
  let E := Demo.env (Some (ErrNew "403 Forbidden")) in
  let i := Demo.issue [Demo.screenshot] None in
  let run := ConvertJiraIssueToGitLabEpic E (sequential 2) (sequential 2)
               (sequential 2) i ∅ [] in
  EvUpdateEpic "group" 1 "close" (Some (ErrNew "403 Forbidden"))
    ∈ new_events [] run.2 ∧
  ∃ gitlabEpic, run.1 = Return (inl gitlabEpic) ∧ gitlab.IID gitlabEpic = 1.
Proof.
  intros E i run.
  assert (Hin : EvUpdateEpic "group" 1 "close" (Some (ErrNew "403 Forbidden"))
                  ∈ new_events [] run.2)
    by (vm_compute; do 5 right; left).
  split; [exact Hin |].
  destruct (failed_close_still_returns_epic E (sequential 2) (sequential 2)
              (sequential 2) i ∅ [] _ _ _ _ Hin)
    as (gitlabEpic & d & opt & Hrun & _ & _ & Hiid & _).
  exists gitlabEpic. split; [exact Hrun | symmetry; exact Hiid].
Defined.

Lemma every_relocated_attachment_is_posted_witness :
  let E := Demo.env None in
  let i := Demo.issue [Demo.screenshot; Demo.report] None in
  let run := ConvertJiraIssueToGitLabEpic E (sequential 2) (sequential 2)
               (sequential 2) i ∅ [] in
  let gitlabEpic :=
    {| gitlab.ID := 100; gitlab.IID := 1; gitlab.Title := "Fix bug";
       gitlab.State := "opened" |} in
  run.1 = Return (inl gitlabEpic) ∧
  usedAttachment run.2 = ∅ ∧
  ∃ orphans,
    Forall (note_on "group" gitlabEpic) orphans ∧
    body_of <$> orphans
    ≡ₚ ["![1.png](https://gitlab.example.com/group/issues//uploads/a1/1.png)"].
Proof.
  intros E i run gitlabEpic.
  assert (Hrun : run.1 = Return (inl gitlabEpic)) by (vm_compute; reflexivity).
  split; [exact Hrun |].
  destruct (every_relocated_attachment_is_posted E (sequential 2) (sequential 2)
              (sequential 2) i ∅ []) as [Hused Hposted].
  split; [exact Hused |].
  destruct (Hposted gitlabEpic Hrun)
    as (cfg & d & opt & comments & orphans & Hcfg & _ & _ & _ & Ho & Hperm).
  injection Hcfg as <-. exists orphans. split; [exact Ho |].
  rewrite Hperm. vm_compute. reflexivity.
Defined.

Lemma start_date_field_witness :
  let E := Demo.env None in
  let rejected := Demo.issue [Demo.screenshot] (Some (AString "2024-13-01")) in
  let number := Demo.issue [Demo.screenshot] (Some (ANumber 20240301)) in
  let run i := ConvertJiraIssueToGitLabEpic E (sequential 2) (sequential 2)
                 (sequential 2) i ∅ [] in
  GetConfig E = inl Demo.cfg ∧
  config.Project_Jira_CustomField_EpicStartDate Demo.cfg ≠ "" ∧
  (run rejected).1
  = Return (inr (ErrWrap (ErrNew "parsing time: out of range") "Error parsing time")) ∧
  Forall (fun ev => is_create_epic ev = false) (new_events [] (run rejected).2) ∧
  run number
  = ConvertJiraIssueToGitLabEpic
      (with_config (without_start_date Demo.cfg) E)
      (sequential 2) (sequential 2) (sequential 2) number ∅ [].
Proof.
  intros E rejected number run.
  assert (Hcfg : GetConfig E = inl Demo.cfg) by reflexivity.
  assert (Hfield : config.Project_Jira_CustomField_EpicStartDate Demo.cfg ≠ "")
    by discriminate.
  split; [exact Hcfg |]. split; [exact Hfield |].
  destruct (start_date_field E (sequential 2) (sequential 2) (sequential 2)
              rejected ∅ [] Demo.cfg Hcfg Hfield) as [Hparse _].
  destruct (Hparse "2024-13-01" (ErrNew "parsing time: out of range"))
    as (Hnc & Hret); [reflexivity | reflexivity |].
  destruct Hret as [_ Hexact]; [vm_compute; reflexivity |].
  split; [apply Hexact; vm_compute; reflexivity |]. split; [exact Hnc |].
  apply (proj2 (start_date_field E (sequential 2) (sequential 2) (sequential 2)
                  number ∅ [] Demo.cfg Hcfg Hfield)).
  right. exists (ANumber 20240301). split; [reflexivity | discriminate].
Defined.

Lemma GetJiraClient_idempotent_witness :
  let NewClient (host token : string) : result (string * string) :=
    if String.eqb host "" then inr (ErrNew "empty host") else inl (host, token) in
  let GetSelf (sent : list (string * string)) (client : string * string)
    : result string := inl "migration@example.com" in
  let first := {| config.Host := "https://jira.example.com";
                  config.Token := "t0" |} in
  let other := {| config.Host := "https://elsewhere.example.com";
                  config.Token := "t1" |} in
  let client := ("https://jira.example.com", "t0") in
  let p := {| config.jiraClient := None; config.requests := [] |} in
  let p' := {| config.jiraClient := Some client;
               config.requests := [client] |} in
  config.GetJiraClient NewClient GetSelf first p
  = (config.Returned client, p') ∧
  config.GetJiraClient NewClient GetSelf other p'
  = (config.Returned client, p').
Proof.
  intros NewClient GetSelf first other client p p'.
  assert (H : config.GetJiraClient NewClient GetSelf first p
              = (config.Returned client, p')) by reflexivity.
  split; [exact H |].
  apply (proj1 (GetJiraClient_idempotent NewClient GetSelf first p client p' H)).
Defined.

(** ** The properties above at the runs of PROJ-1 *)

Lemma every_attachment_is_uploaded_once_witness :
  let E := Demo.env None in
  let i := Demo.issue [Demo.screenshot; Demo.empty_file] None in
  let run := ConvertJiraIssueToGitLabEpic E (sequential 2) (sequential 2)
               (sequential 2) i ∅ [] in
  GetConfig E = inl Demo.cfg ∧
  convertJiraToGitLabLabels E [] "group" i true = inl ["migrated"] ∧
  (∃ e, run.1 = Return (inr e)) ∧
  ∃ uploads rest,
    new_events [] run.2
    = EvConvertLabels "group" "PROJ-1" None :: uploads ++ rest ∧
    omap upload_id uploads ≡ₚ ["a1"; "a3"].
Proof.
  intros E i run.
  assert (Hcfg : GetConfig E = inl Demo.cfg) by reflexivity.
  assert (Hlab : convertJiraToGitLabLabels E [] "group" i true
                 = inl ["migrated"]) by reflexivity.
  assert (Hret : run.1
                 = Return (inr (ErrWrap
                      (ErrWrap (ErrNew "400 Bad Request")
                         "Error converting Jira attachment to GitLab attachment")
                      "Error converting Jira attachment to GitLab attachment")))
    by (vm_compute; reflexivity).
  split; [exact Hcfg |]. split; [exact Hlab |]. split; [eauto |].
  destruct (every_attachment_is_uploaded_once E (sequential 2) (sequential 2)
              (sequential 2) i ∅ [] Demo.cfg ["migrated"] _ Hcfg Hlab Hret)
    as (uploads & rest & Hnew & _ & Hperm & _).
  exists uploads, rest. split; [exact Hnew | exact Hperm].
Defined.

Lemma relocation_error_iff_upload_refused_witness :
  let E := Demo.env None in
  let i := Demo.issue [Demo.screenshot; Demo.empty_file] None in
  let run := ConvertJiraIssueToGitLabEpic E (sequential 2) (sequential 2)
               (sequential 2) i ∅ [] in
  let msg := "Error converting Jira attachment to GitLab attachment" in
  GetConfig E = inl Demo.cfg ∧
  convertJiraToGitLabLabels E [] "group" i true = inl ["migrated"] ∧
  run.1 = Return (inr (ErrWrap (ErrWrap (ErrNew "400 Bad Request") msg) msg)) ∧
  ∃ id e',
    EvUpload "group/issues" id (Some e') ∈ new_events [] run.2 ∧
    ErrWrap (ErrNew "400 Bad Request") msg = ErrWrap e' msg.
Proof.
  intros E i run msg.
  assert (Hcfg : GetConfig E = inl Demo.cfg) by reflexivity.
  assert (Hlab : convertJiraToGitLabLabels E [] "group" i true
                 = inl ["migrated"]) by reflexivity.
  assert (Hret : run.1
                 = Return (inr (ErrWrap (ErrWrap (ErrNew "400 Bad Request") msg)
                                  msg)))
    by (vm_compute; reflexivity).
  split; [exact Hcfg |]. split; [exact Hlab |]. split; [exact Hret |].
  exact (proj2 (relocation_error_iff_upload_refused E (sequential 2)
                  (sequential 2) (sequential 2) i ∅ [] Demo.cfg ["migrated"] _
                  Hcfg Hlab Hret) _ eq_refl).
Defined.

Lemma relocated_entries_come_from_uploads_witness :
  let E := Demo.env None in
  let i := Demo.issue [Demo.screenshot; Demo.report] None in
  let run := ConvertJiraIssueToGitLabEpic E (sequential 2) (sequential 2)
               (sequential 2) i ∅ [] in
  let stored :=
    {| Markdown :=
         "![1.png](https://gitlab.example.com/group/issues//uploads/a1/1.png)";
       Name := "1.png"; CreatedAt := 86400 |} in
  GetConfig E = inl Demo.cfg ∧
  attachments run.2 !! "a1" = Some stored ∧
  ∃ a attachment alt url,
    a ∈ jira.Attachments i ∧ jira.ID a = "a1" ∧
    stored = relocated Demo.cfg attachment alt url.
Proof.
  intros E i run stored.
  assert (Hcfg : GetConfig E = inl Demo.cfg) by reflexivity.
  assert (Hv : attachments run.2 !! "a1" = Some stored)
    by (vm_compute; reflexivity).
  split; [exact Hcfg |]. split; [exact Hv |].
  destruct (relocated_entries_come_from_uploads E (sequential 2) (sequential 2)
              (sequential 2) i ∅ [] Demo.cfg "a1" stored Hcfg Hv)
    as (a & tr & attachment & pre & alt & url & post & Ha & Hid & _ & _ & _ & _
        & Hst).
  exists a, attachment, alt, url. split; [exact Ha |]. split; assumption.
Defined.

Lemma no_update_unless_epic_returned_witness :
  let E := Demo.env None in
  let i := Demo.issue [Demo.screenshot; Demo.empty_file] None in
  let run := ConvertJiraIssueToGitLabEpic E (sequential 2) (sequential 2)
               (sequential 2) i ∅ [] in
  not_done run.1 ∧
  Forall (fun e => is_update e = false) (new_events [] run.2).
Proof.
  intros E i run.
  assert (Hnd : not_done run.1) by (intros epic; vm_compute; discriminate).
  split; [exact Hnd |].
  exact (no_update_unless_epic_returned E (sequential 2) (sequential 2)
           (sequential 2) i ∅ [] Hnd).
Defined.


Lemma creation_call_fields_witness :
  let E := Demo.env None in
  let i := Demo.issue [Demo.screenshot] (Some (AString "2024-03-01")) in
  let run := ConvertJiraIssueToGitLabEpic E (sequential 2) (sequential 2)
               (sequential 2) i ∅ [] in
  GetConfig E = inl Demo.cfg ∧
  ∃ opt,
    EvCreateEpic "group" opt None ∈ new_events [] run.2 ∧
    gitlabx.Title opt = Some "Fix bug" ∧
    gitlabx.DueDateFixed opt = Some 0 ∧
    gitlabx.DueDateIsFixed opt = None ∧
    gitlabx.StartDateIsFixed opt = Some true.
Proof.
  intros E i run.
  assert (Hcfg : GetConfig E = inl Demo.cfg) by reflexivity.
  split; [exact Hcfg |]. eexists.
  assert (Hin : EvCreateEpic "group" _ None ∈ new_events [] run.2)
    by (vm_compute; do 2 right; left).
  split; [exact Hin |].
  destruct (creation_call_fields E (sequential 2) (sequential 2) (sequential 2)
              i ∅ [] Demo.cfg _ _ _ Hcfg Hin)
    as (_ & Ht & _ & _ & _ & _ & Hd & Hdf & Hs & _).
  split; [exact Ht |]. split; [exact Hd |]. split; [exact Hdf |].
  destruct (Hs "2024-03-01") as (t & _ & Hfix & _);
    [discriminate | reflexivity | exact Hfix].
Defined.

Lemma notes_are_on_the_created_epic_witness :
  let E := Demo.env None in
  let i := Demo.issue [Demo.screenshot] None in
  let run := ConvertJiraIssueToGitLabEpic E (sequential 2) (sequential 2)
               (sequential 2) i ∅ [] in
  EvCreateEpicNote "group" 100 "Fixed." None ∈ new_events [] run.2 ∧
  ∃ d opt gitlabEpic,
    CreateEpic E ([] ++ d) "group" opt = inl gitlabEpic ∧
    100 = gitlab.ID gitlabEpic.
Proof.
  intros E i run.
  assert (Hin : EvCreateEpicNote "group" 100 "Fixed." None
                  ∈ new_events [] run.2)
    by (vm_compute; do 3 right; left).
  split; [exact Hin |].
  destruct (notes_are_on_the_created_epic E (sequential 2) (sequential 2)
              (sequential 2) i ∅ [] _ _ _ _ Hin)
    as (cfg & d & opt & gitlabEpic & rest & _ & _ & _ & _ & Hcr & _ & Hid).
  exists d, opt, gitlabEpic. split; [exact Hcr | exact Hid].
Defined.

Lemma returned_errors_and_their_causes_witness :
  let E := Demo.env None in
  let i := Demo.issue [Demo.screenshot; Demo.empty_file] None in
  let run := ConvertJiraIssueToGitLabEpic E (sequential 2) (sequential 2)
               (sequential 2) i ∅ [] in
  let msg := "Error converting Jira attachment to GitLab attachment" in
  let err := ErrWrap (ErrWrap (ErrNew "400 Bad Request") msg) msg in
  run.1 = Return (inr err) ∧
  ∃ id e,
    EvUpload "group/issues" id (Some e) ∈ new_events [] run.2 ∧
    err = ErrWrap (ErrWrap e msg) msg.
Proof.
  intros E i run msg err.
  assert (Hret : run.1 = Return (inr err)) by (vm_compute; reflexivity).
  split; [exact Hret |].
  destruct (returned_errors_and_their_causes E (sequential 2) (sequential 2)
              (sequential 2) i ∅ [] err Hret)
    as [(e & _ & He) | (cfg & Hcfg & Hcase)]; [discriminate He |].
  injection Hcfg as <-. cbv zeta in Hcase.
  destruct Hcase
    as [(e & _ & He) | [(id & e & Hin & He) | [(e & _ & He)
       | [(str & e & _ & _ & _ & He) | [(opt & e & _ & He)
       | [(opt & ep & e & _ & _ & He) | (opt & eid & body & e & _ & _ & He)]]]]]];
    try discriminate He.
  exists id, e. split; [exact Hin | exact He].
Defined.

Lemma relocated_plain_markup_witness :
  let E := Demo.env None in
  let attachment :=
    {| Markdown := "![1.png](/uploads/a1/1.png)"; Name := "1.png";
       CreatedAt := 86400 |} in
  let run := run_task E (relocate_task Demo.cfg "group/issues" Demo.screenshot)
               (init_state []) in
  convertJiraAttachmentToMarkdown E [] "group/issues" Demo.screenshot
  = inl attachment ∧
  run.2 = None ∧
  attachments run.1 !! "a1"
  = Some (relocated Demo.cfg attachment "1.png" "/uploads/a1/1.png").
Proof.
  intros E attachment run.
  assert (Hup : convertJiraAttachmentToMarkdown E (trace (init_state []))
                  "group/issues" Demo.screenshot = inl attachment)
    by reflexivity.
  split; [exact Hup |].
  apply (relocated_plain_markup E Demo.cfg "group/issues" Demo.screenshot
           (init_state []) attachment "1.png" "/uploads/a1/1.png" Hup);
    first [reflexivity | discriminate].
Defined.
